(** * wikibaseintegrator.wbi_login: the [Login] credential manager

    A shallow embedding of [src/wikibaseintegrator/wbi_login.py].

    The class talks to four collaborators that are not part of the module:
    the HTTP session of [requests], the handshake provider of [mwoauth], the
    process-wide [config] dictionary and the console/browser.  They are
    gathered in a [World] value that every operation threads through; the
    server side is a script of replies, so a statement quantified over all
    worlds is a statement about every possible behaviour of the server.

    Conventions of the model:
    - Python text and bytes are Rocq strings of 8-bit characters (ASCII
      text); on such text [str.casefold] is lower-casing of [A-Z];
    - the value of [time.time()] is an integer number of clock ticks; the
      clock only moves while the program waits for a collaborator;
    - JSON numbers are integers;
    - a message built with [str.format] is kept as the template together
      with its arguments ([Format]), a printed value as the value itself;
    - [Login.__init__] is decorated with [wbi_backoff()], defined in another
      module: [Login_init] is one run of the decorated body. *)

From Stdlib Require Import String Ascii List ZArith NArith Bool Lia.
Import ListNotations.
Local Open Scope string_scope.
Local Open Scope Z_scope.
Set Warnings "-register-all".

(** ** Python values and the built-in operations the module uses *)

(** What [response.json()] can produce. A dictionary keeps its keys in
    insertion order; the first binding of a key is the one that counts. *)
Inductive json : Type :=
| JNull
| JBool (b : bool)
| JNum (n : Z)
| JStr (s : string)
| JList (xs : list json)
| JDict (kvs : list (string * json)).

(** Text handed to [print] or carried by an exception. *)
Inductive text : Type :=
| Str (s : string)
| Val (j : json)
| Format (template : string) (args : list json).

Inductive exn : Type :=
| KeyError (key : json)
| TypeError
| IndexError
| AttributeError (attr : string)
| EOFError
| RequestException
| JSONDecodeError
| OAuthException
| LoginError (msg : text).

Inductive result (A : Type) : Type :=
| Raise (e : exn)
| Return (a : A).
Arguments Raise {A} e.
Arguments Return {A} a.

(** An argument that may be [None], a [str] or a [bytes] object. *)
Inductive pyarg : Type :=
| PNone
| PStr (s : string)
| PBytes (b : string).

Module Py.

(** [bool(x)] *)
Definition truthy (j : json) : bool :=
  match j with
  | JNull => false
  | JBool b => b
  | JNum n => negb (n =? 0)
  | JStr s => negb (s =? "")%string
  | JList xs => match xs with [] => false | _ => true end
  | JDict kvs => match kvs with [] => false | _ => true end
  end.

Definition truthy_str (o : option string) : bool :=
  match o with
  | None => false
  | Some s => negb (s =? "")%string
  end.

Definition truthy_arg (a : pyarg) : bool :=
  match a with
  | PNone => false
  | PStr s => negb (s =? "")%string
  | PBytes b => negb (b =? "")%string
  end.

Definition of_str (o : option string) : json :=
  match o with
  | None => JNull
  | Some s => JStr s
  end.

(** [x == 'literal'] for a value that came out of a JSON document. *)
Definition eq_str (j : json) (lit : string) : bool :=
  match j with
  | JStr s => (s =? lit)%string
  | _ => false
  end.

Fixpoint assoc (k : string) (kvs : list (string * json)) : option json :=
  match kvs with
  | [] => None
  | (k', v) :: rest => if (k' =? k)%string then Some v else assoc k rest
  end.

(** [xs[i]] on a sequence: negative indices count from the end. *)
Definition index {A : Type} (xs : list A) (i : Z) : option A :=
  let n := Z.of_nat (length xs) in
  let j := if i <? 0 then i + n else i in
  if (0 <=? j) && (j <? n) then nth_error xs (Z.to_nat j) else None.

Definition chars (s : string) : list json :=
  map (fun c => JStr (String c "")) (list_ascii_of_string s).

Definition at_index (xs : list json) (i : Z) : result json :=
  match index xs i with
  | Some v => Return v
  | None => Raise IndexError
  end.

(** [c[k]] *)
Definition getitem (c k : json) : result json :=
  match c with
  | JDict kvs =>
      match k with
      | JStr s =>
          match assoc s kvs with
          | Some v => Return v
          | None => Raise (KeyError k)
          end
      | JList _ | JDict _ => Raise TypeError
      | _ => Raise (KeyError k)
      end
  | JList xs =>
      match k with
      | JNum i => at_index xs i
      | JBool b => at_index xs (if b then 1 else 0)
      | _ => Raise TypeError
      end
  | JStr s =>
      match k with
      | JNum i => at_index (chars s) i
      | JBool b => at_index (chars s) (if b then 1 else 0)
      | _ => Raise TypeError
      end
  | _ => Raise TypeError
  end.

(** [needle in hay] on text. *)
Fixpoint substring (needle hay : string) : bool :=
  prefix needle hay
  || match hay with
     | EmptyString => false
     | String _ rest => substring needle rest
     end.

(** ['key' in c] *)
Definition contains (k : string) (c : json) : result bool :=
  match c with
  | JDict kvs =>
      Return (match assoc k kvs with Some _ => true | None => false end)
  | JList xs => Return (existsb (fun x => eq_str x k) xs)
  | JStr s => Return (substring k s)
  | _ => Raise TypeError
  end.

(** The items a [for] loop visits. *)
Definition iter (c : json) : result (list json) :=
  match c with
  | JDict kvs => Return (map (fun kv => JStr (fst kv)) kvs)
  | JList xs => Return xs
  | JStr s => Return (chars s)
  | _ => Raise TypeError
  end.

Definition lower (c : ascii) : ascii :=
  let n := nat_of_ascii c in
  if (Nat.leb 65 n && Nat.leb n 90)%bool then ascii_of_nat (n + 32) else c.

(** [str.casefold] on ASCII text. *)
Fixpoint casefold (s : string) : string :=
  match s with
  | EmptyString => EmptyString
  | String c rest => String (lower c) (casefold rest)
  end.

(** The text of an argument known not to be [None]. *)
Definition text_of (o : option string) : string :=
  match o with
  | None => EmptyString
  | Some s => s
  end.

(** [b.split(sep)] for a one-byte separator. *)
Fixpoint split (sep : ascii) (b : string) : list string :=
  match b with
  | EmptyString => [EmptyString]
  | String c rest =>
      if Ascii.eqb c sep then EmptyString :: split sep rest
      else match split sep rest with
           | [] => [String c EmptyString]
           | piece :: pieces => String c piece :: pieces
           end
  end.

(** [pieces[-1]] *)
Definition last_item (pieces : list string) : result string :=
  match index pieces (-1) with
  | Some piece => Return piece
  | None => Raise IndexError
  end.

End Py.

(** ** The collaborators *)

(** [mwoauth]'s [ConsumerToken], [RequestToken] and [AccessToken] are all
    key/secret pairs. *)
Record Token : Type := { key : string; secret : string }.

(** [requests_oauthlib.OAuth1], the signer attached to the session. *)
Record OAuth1 : Type := {
  client_key : string;
  client_secret : string;
  resource_owner_key : string;
  resource_owner_secret : string
}.

(** [mwoauth.Handshaker] *)
Record Handshaker : Type := {
  mw_uri : string;
  hs_consumer_token : Token;
  hs_callback : string;
  hs_user_agent : string
}.

Definition jar : Type := list (string * string).

(** [requests.Session] *)
Record Session : Type := {
  headers_user_agent : string;
  cookies : jar;
  auth : option OAuth1
}.

Inductive verb : Type := GET | POST.

(** A request as the transport sees it. *)
Record Request : Type := {
  req_verb : verb;
  req_url : string;
  req_fields : list (string * json);
  req_user_agent : string;
  req_cookies : jar;
  req_auth : option OAuth1
}.

(** What the server does with one request: it stays silent (the transport
    raises), or it answers with cookies and a body, which is [None] when the
    body is not a JSON document. *)
Inductive answer : Type :=
| NoAnswer
| Answer (set_cookies : jar) (content : option json).

(** Every reply of a collaborator comes after some waiting time. *)
Record Reply (A : Type) : Type := { delay : N; payload : A }.
Arguments delay {A} r.
Arguments payload {A} r.

Inductive hs_call : Type :=
| Initiate (h : Handshaker) (callback : string)
| Complete (h : Handshaker) (request_token : Token) (response_qs : string).

Inductive out : Type :=
| Printed (items : list text)
| Prompted (s : string).

Record World : Type := {
  clock : Z;
  (* wbi_config.config *)
  MEDIAWIKI_API_URL : string;
  MEDIAWIKI_INDEX_URL : string;
  USER_AGENT_DEFAULT : string;
  (* the wiki's API: replies still to come, requests received (latest first) *)
  net : list (Reply answer);
  sent : list Request;
  (* the handshake provider: [None] is a rejected call *)
  initiations : list (Reply (option (string * Token)));
  completions : list (Reply (option Token));
  hs_calls : list hs_call;
  (* console and browser *)
  stdin : list (Reply string);
  stdout : list out;
  browser : list string
}.

(** The instance attributes. The four attributes of the OAuth branch exist
    only on an instance that went through it. *)
Record Login : Type := {
  mediawiki_api_url : string;
  mediawiki_index_url : string;
  s : Session;
  edit_token : json;
  instantiation_time : Z;
  token_renew_period : Z;
  consumer_key : option string;
  consumer_secret : option string;
  response_qs : pyarg;
  callback_url : string;
  user_agent : string;
  consumer_token : option Token;
  handshaker : option Handshaker;
  redirect : option string;
  request_token : option Token
}.

(** The arguments of the constructor. *)
Module Args.
Record t : Type := {
  user : option string;
  pwd : option string;
  mediawiki_api_url : option string;
  mediawiki_index_url : option string;
  token_renew_period : Z;
  use_clientlogin : bool;
  consumer_key : option string;
  consumer_secret : option string;
  callback_url : string;
  user_agent : option string;
  debug : bool
}.
End Args.

(** *** Attribute assignment *)

Definition set_cookies_of (ss : Session) (c : jar) : Session :=
  {| headers_user_agent := headers_user_agent ss; cookies := c; auth := auth ss |}.

Definition set_auth_of (ss : Session) (a : option OAuth1) : Session :=
  {| headers_user_agent := headers_user_agent ss; cookies := cookies ss; auth := a |}.

Definition with_s (l : Login) (ss : Session) : Login :=
  {| mediawiki_api_url := mediawiki_api_url l;
     mediawiki_index_url := mediawiki_index_url l;
     s := ss;
     edit_token := edit_token l;
     instantiation_time := instantiation_time l;
     token_renew_period := token_renew_period l;
     consumer_key := consumer_key l;
     consumer_secret := consumer_secret l;
     response_qs := response_qs l;
     callback_url := callback_url l;
     user_agent := user_agent l;
     consumer_token := consumer_token l;
     handshaker := handshaker l;
     redirect := redirect l;
     request_token := request_token l |}.

Definition with_edit_token (l : Login) (tok : json) : Login :=
  {| mediawiki_api_url := mediawiki_api_url l;
     mediawiki_index_url := mediawiki_index_url l;
     s := s l;
     edit_token := tok;
     instantiation_time := instantiation_time l;
     token_renew_period := token_renew_period l;
     consumer_key := consumer_key l;
     consumer_secret := consumer_secret l;
     response_qs := response_qs l;
     callback_url := callback_url l;
     user_agent := user_agent l;
     consumer_token := consumer_token l;
     handshaker := handshaker l;
     redirect := redirect l;
     request_token := request_token l |}.

Definition with_instantiation_time (l : Login) (now : Z) : Login :=
  {| mediawiki_api_url := mediawiki_api_url l;
     mediawiki_index_url := mediawiki_index_url l;
     s := s l;
     edit_token := edit_token l;
     instantiation_time := now;
     token_renew_period := token_renew_period l;
     consumer_key := consumer_key l;
     consumer_secret := consumer_secret l;
     response_qs := response_qs l;
     callback_url := callback_url l;
     user_agent := user_agent l;
     consumer_token := consumer_token l;
     handshaker := handshaker l;
     redirect := redirect l;
     request_token := request_token l |}.

Definition with_response_qs (l : Login) (qs : pyarg) : Login :=
  {| mediawiki_api_url := mediawiki_api_url l;
     mediawiki_index_url := mediawiki_index_url l;
     s := s l;
     edit_token := edit_token l;
     instantiation_time := instantiation_time l;
     token_renew_period := token_renew_period l;
     consumer_key := consumer_key l;
     consumer_secret := consumer_secret l;
     response_qs := qs;
     callback_url := callback_url l;
     user_agent := user_agent l;
     consumer_token := consumer_token l;
     handshaker := handshaker l;
     redirect := redirect l;
     request_token := request_token l |}.

(** [self.consumer_token], [self.handshaker] and the pair
    [self.redirect, self.request_token] of the OAuth branch. *)
Definition with_oauth (l : Login) (ct : option Token) (h : option Handshaker)
    (rd : option string) (rt : option Token) : Login :=
  {| mediawiki_api_url := mediawiki_api_url l;
     mediawiki_index_url := mediawiki_index_url l;
     s := s l;
     edit_token := edit_token l;
     instantiation_time := instantiation_time l;
     token_renew_period := token_renew_period l;
     consumer_key := consumer_key l;
     consumer_secret := consumer_secret l;
     response_qs := response_qs l;
     callback_url := callback_url l;
     user_agent := user_agent l;
     consumer_token := ct;
     handshaker := h;
     redirect := rd;
     request_token := rt |}.

(** *** Effects on the world *)

Definition w_stdout (o : out) (w : World) : World :=
  {| clock := clock w;
     MEDIAWIKI_API_URL := MEDIAWIKI_API_URL w;
     MEDIAWIKI_INDEX_URL := MEDIAWIKI_INDEX_URL w;
     USER_AGENT_DEFAULT := USER_AGENT_DEFAULT w;
     net := net w; sent := sent w;
     initiations := initiations w; completions := completions w;
     hs_calls := hs_calls w;
     stdin := stdin w; stdout := o :: stdout w; browser := browser w |}.

Definition w_user_agent_default (ua : string) (w : World) : World :=
  {| clock := clock w;
     MEDIAWIKI_API_URL := MEDIAWIKI_API_URL w;
     MEDIAWIKI_INDEX_URL := MEDIAWIKI_INDEX_URL w;
     USER_AGENT_DEFAULT := ua;
     net := net w; sent := sent w;
     initiations := initiations w; completions := completions w;
     hs_calls := hs_calls w;
     stdin := stdin w; stdout := stdout w; browser := browser w |}.

(** A request went out; [d] ticks later the script of the server is [rest]. *)
Definition w_request (req : Request) (d : N) (rest : list (Reply answer))
    (w : World) : World :=
  {| clock := clock w + Z.of_N d;
     MEDIAWIKI_API_URL := MEDIAWIKI_API_URL w;
     MEDIAWIKI_INDEX_URL := MEDIAWIKI_INDEX_URL w;
     USER_AGENT_DEFAULT := USER_AGENT_DEFAULT w;
     net := rest; sent := req :: sent w;
     initiations := initiations w; completions := completions w;
     hs_calls := hs_calls w;
     stdin := stdin w; stdout := stdout w; browser := browser w |}.

Definition w_handshake (call : hs_call) (d : N)
    (inits : list (Reply (option (string * Token))))
    (comps : list (Reply (option Token))) (w : World) : World :=
  {| clock := clock w + Z.of_N d;
     MEDIAWIKI_API_URL := MEDIAWIKI_API_URL w;
     MEDIAWIKI_INDEX_URL := MEDIAWIKI_INDEX_URL w;
     USER_AGENT_DEFAULT := USER_AGENT_DEFAULT w;
     net := net w; sent := sent w;
     initiations := inits; completions := comps;
     hs_calls := call :: hs_calls w;
     stdin := stdin w; stdout := stdout w; browser := browser w |}.

Definition w_stdin (d : N) (rest : list (Reply string)) (w : World) : World :=
  {| clock := clock w + Z.of_N d;
     MEDIAWIKI_API_URL := MEDIAWIKI_API_URL w;
     MEDIAWIKI_INDEX_URL := MEDIAWIKI_INDEX_URL w;
     USER_AGENT_DEFAULT := USER_AGENT_DEFAULT w;
     net := net w; sent := sent w;
     initiations := initiations w; completions := completions w;
     hs_calls := hs_calls w;
     stdin := rest; stdout := stdout w; browser := browser w |}.

Definition w_browser (url : string) (w : World) : World :=
  {| clock := clock w;
     MEDIAWIKI_API_URL := MEDIAWIKI_API_URL w;
     MEDIAWIKI_INDEX_URL := MEDIAWIKI_INDEX_URL w;
     USER_AGENT_DEFAULT := USER_AGENT_DEFAULT w;
     net := net w; sent := sent w;
     initiations := initiations w; completions := completions w;
     hs_calls := hs_calls w;
     stdin := stdin w; stdout := stdout w; browser := url :: browser w |}.

(** ** Computations: an instance and the world, with exceptions *)

Definition St : Type := (Login * World)%type.

Definition M (A : Type) : Type := St -> St * result A.

Definition ret {A : Type} (a : A) : M A := fun st => (st, Return a).

Definition raise {A : Type} (e : exn) : M A := fun st => (st, Raise e).

Definition bind {A B : Type} (c : M A) (k : A -> M B) : M B :=
  fun st =>
    match c st with
    | (st', Return a) => k a st'
    | (st', Raise e) => (st', Raise e)
    end.

Declare Scope py_scope.
Delimit Scope py_scope with py.
Notation "x <- c ;; k" := (bind c (fun x => k))
  (at level 61, c at next level, right associativity) : py_scope.
Notation "c ;; k" := (bind c (fun _ => k))
  (at level 61, right associativity) : py_scope.
Local Open Scope py_scope.

Definition lift {A : Type} (r : result A) : M A := fun st => (st, r).

Definition self : M Login := fun st => (st, Return (fst st)).

Definition assign (f : Login -> Login) : M unit :=
  fun st => ((f (fst st), snd st), Return tt).

Definition effect (f : World -> World) : M unit :=
  fun st => ((fst st, f (snd st)), Return tt).

(** [self.name] for an attribute that may not have been assigned. *)
Definition attr {A : Type} (name : string) (get : Login -> option A) : M A :=
  fun st =>
    match get (fst st) with
    | Some a => (st, Return a)
    | None => (st, Raise (AttributeError name))
    end.

Fixpoint for_each {A : Type} (items : list A) (body : A -> M unit) : M unit :=
  match items with
  | [] => ret tt
  | x :: rest => body x ;; for_each rest body
  end.

(** [time.time()] *)
Definition time_time : M Z := fun st => (st, Return (clock (snd st))).

(** [print(...)] *)
Definition print (items : list text) : M unit := effect (w_stdout (Printed items)).

(** [webbrowser.open(url)] *)
Definition webbrowser_open (url : string) : M unit := effect (w_browser url).

(** [input(prompt)] *)
Definition input (prompt : string) : M string :=
  fun st =>
    let w := w_stdout (Prompted prompt) (snd st) in
    match stdin w with
    | [] => ((fst st, w), Raise EOFError)
    | r :: rest => ((fst st, w_stdin (delay r) rest w), Return (payload r))
    end.

(** The cookie jar after a response: a cookie replaces the one of the same
    name. *)
Fixpoint set_cookie (c : string * string) (j : jar) : jar :=
  match j with
  | [] => [c]
  | c' :: rest => if (fst c' =? fst c)%string then c :: rest else c' :: set_cookie c rest
  end.

Definition store_cookies (new : jar) (j : jar) : jar :=
  fold_left (fun acc c => set_cookie c acc) new j.

(** The request the session of [l] puts on the wire: it carries the user
    agent, the cookies and the signer of the session. *)
Definition request_of (l : Login) (v : verb) (url : string)
    (fields : list (string * json)) : Request :=
  {| req_verb := v; req_url := url; req_fields := fields;
     req_user_agent := headers_user_agent (s l);
     req_cookies := cookies (s l);
     req_auth := auth (s l) |}.

(** [self.s.get(url, params=fields)] and [self.s.post(url, data=fields)]:
    the response, here its body. *)
Definition session_request (v : verb) (url : string) (fields : list (string * json))
    : M (option json) :=
  fun st =>
    let l := fst st in
    let w := snd st in
    let req := request_of l v url fields in
    match net w with
    | [] => ((l, w_request req 0 [] w), Raise RequestException)
    | r :: rest =>
        match payload r with
        | NoAnswer => ((l, w_request req (delay r) rest w), Raise RequestException)
        | Answer ck content =>
            ((with_s l (set_cookies_of (s l) (store_cookies ck (cookies (s l)))),
              w_request req (delay r) rest w),
             Return content)
        end
    end.

(** [response.json()] *)
Definition response_json (content : option json) : M json :=
  match content with
  | Some j => ret j
  | None => raise JSONDecodeError
  end.

(** [c[k]] with a text key *)
Definition item (c : json) (k : string) : M json := lift (Py.getitem c (JStr k)).

(** [handshaker.initiate(callback=...)] *)
Definition handshaker_initiate (h : Handshaker) (callback : string)
    : M (string * Token) :=
  fun st =>
    let l := fst st in
    let w := snd st in
    match initiations w with
    | [] => ((l, w_handshake (Initiate h callback) 0 [] (completions w) w),
             Raise RequestException)
    | r :: rest =>
        let w' := w_handshake (Initiate h callback) (delay r) rest (completions w) w in
        match payload r with
        | None => ((l, w'), Raise OAuthException)
        | Some p => ((l, w'), Return p)
        end
    end.

(** [handshaker.complete(request_token, response_qs)] *)
Definition handshaker_complete (h : Handshaker) (rt : Token) (qs : string)
    : M Token :=
  fun st =>
    let l := fst st in
    let w := snd st in
    match completions w with
    | [] => ((l, w_handshake (Complete h rt qs) 0 (initiations w) [] w),
             Raise RequestException)
    | r :: rest =>
        let w' := w_handshake (Complete h rt qs) (delay r) (initiations w) rest w in
        match payload r with
        | None => ((l, w'), Raise OAuthException)
        | Some access => ((l, w'), Return access)
        end
    end.

(** ** The class [Login] *)

Definition token_query : list (string * json) :=
  [("action", JStr "query"); ("meta", JStr "tokens"); ("format", JStr "json")].

(** Lines 151-164. *)
Definition generate_edit_credentials : M jar :=
  l <- self ;;
  response <- session_request GET (mediawiki_api_url l) token_query ;;
  j <- response_json response ;;
  q <- item j "query" ;;
  t <- item q "tokens" ;;
  csrftoken <- item t "csrftoken" ;;
  assign (fun l => with_edit_token l csrftoken) ;;
  l <- self ;;
  ret (cookies (s l)).

(** The two statements of the [if] bodies of both accessors. *)
Definition renew : M unit :=
  generate_edit_credentials ;;
  now <- time_time ;;
  assign (fun l => with_instantiation_time l now).

(** Lines 166-175. *)
Definition get_edit_cookie : M jar :=
  now <- time_time ;;
  l <- self ;;
  (if now - instantiation_time l >? token_renew_period l
   then renew
   else ret tt) ;;
  l <- self ;;
  ret (cookies (s l)).

(** Lines 177-186. The [or] does not read the clock when the token is
    empty. *)
Definition get_edit_token : M json :=
  l <- self ;;
  due <- (if negb (Py.truthy (edit_token l)) then ret true
          else now <- time_time ;;
               ret (now - instantiation_time l >? token_renew_period l)) ;;
  (if due : bool then renew else ret tt) ;;
  l <- self ;;
  ret (edit_token l).

(** Lines 188-193. *)
Definition get_session : M Session :=
  l <- self ;;
  ret (s l).

(** [self.response_qs.split(b'?')[-1]], line 210: [str.split] refuses a
    bytes separator, and [None] has no [split]. *)
Definition split_response_qs (qs : pyarg) : M string :=
  match qs with
  | PBytes b => lift (Py.last_item (Py.split "?" b))
  | PStr _ => raise TypeError
  | PNone => raise (AttributeError "split")
  end.

(** Lines 195-222. *)
Definition continue_oauth (oauth_callback_data : pyarg) : M unit :=
  assign (fun l => with_response_qs l oauth_callback_data) ;;
  l <- self ;;
  (if negb (Py.truthy_arg (response_qs l))
   then url <- attr "redirect" redirect ;;
        webbrowser_open url ;;
        line <- input "Callback URL: " ;;
        assign (fun l => with_response_qs l (PStr line))
   else ret tt) ;;
  l <- self ;;
  qs <- split_response_qs (response_qs l) ;;
  h <- attr "handshaker" handshaker ;;
  rt <- attr "request_token" request_token ;;
  access_token <- handshaker_complete h rt qs ;;
  ct <- attr "consumer_token" consumer_token ;;
  let auth1 := {| client_key := key ct;
                  client_secret := secret ct;
                  resource_owner_key := key access_token;
                  resource_owner_secret := secret access_token |} in
  assign (fun l => with_s l (set_auth_of (s l) (Some auth1))) ;;
  generate_edit_credentials ;;
  ret tt.

(** *** The constructor *)

(** Lines 76-87: the OAuth branch. Both credentials are text here. *)
Definition init_oauth : M unit :=
  l <- self ;;
  let ct := {| key := Py.text_of (consumer_key l);
               secret := Py.text_of (consumer_secret l) |} in
  assign (fun l => with_oauth l (Some ct) (handshaker l) (redirect l) (request_token l)) ;;
  let h := {| mw_uri := mediawiki_index_url l;
              hs_consumer_token := ct;
              hs_callback := callback_url l;
              hs_user_agent := user_agent l |} in
  assign (fun l => with_oauth l (consumer_token l) (Some h) (redirect l) (request_token l)) ;;
  p <- handshaker_initiate h (callback_url l) ;;
  assign (fun l => with_oauth l (consumer_token l) (handshaker l)
                     (Some (fst p)) (Some (snd p))).

Definition login_token_query : list (string * json) :=
  [("action", JStr "query"); ("meta", JStr "tokens"); ("type", JStr "login");
   ("format", JStr "json")].

(** Lines 90-98. *)
Definition get_login_token : M json :=
  l <- self ;;
  response <- session_request POST (mediawiki_api_url l) login_token_query ;;
  j <- response_json response ;;
  q <- item j "query" ;;
  t <- item q "tokens" ;;
  item t "logintoken".

Definition clientlogin_failed : string := "Login failed ({}). Message: '{}'".
Definition login_failed : string := "Login failed. Reason: '{}'".

(** Lines 101-108. *)
Definition clientlogin_params (user pwd : option string) (login_token : json)
    : list (string * json) :=
  [("action", JStr "clientlogin");
   ("username", Py.of_str user);
   ("password", Py.of_str pwd);
   ("logintoken", login_token);
   ("loginreturnurl", JStr "http://example.org/");
   ("format", JStr "json")].

(** Lines 112-123: what the constructor makes of the reply to the
    clientlogin request. *)
Definition clientlogin_check (debug : bool) (login_result : json) : M unit :=
  (if debug then print [Val login_result] else ret tt) ;;
  present <- lift (Py.contains "clientlogin" login_result) ;;
  if present : bool then
    block <- item login_result "clientlogin" ;;
    status <- item block "status" ;;
    if negb (Py.eq_str status "PASS") then
      clientlogin <- item login_result "clientlogin" ;;
      messagecode <- item clientlogin "messagecode" ;;
      message <- item clientlogin "message" ;;
      raise (LoginError (Format clientlogin_failed [messagecode; message]))
    else if debug then
      block <- item login_result "clientlogin" ;;
      username <- item block "username" ;;
      print [Str "Successfully logged in as"; Val username]
    else ret tt
  else
    error <- item login_result "error" ;;
    code <- item error "code" ;;
    info <- item error "info" ;;
    raise (LoginError (Format clientlogin_failed [code; info])).

(** Lines 101-123. *)
Definition init_clientlogin (user pwd : option string) (debug : bool)
    (login_token : json) : M unit :=
  l <- self ;;
  response <- session_request POST (mediawiki_api_url l)
                (clientlogin_params user pwd login_token) ;;
  login_result <- response_json response ;;
  clientlogin_check debug login_result.

(** Lines 126-132. *)
Definition login_params (user pwd : option string) (login_token : json)
    : list (string * json) :=
  [("action", JStr "login");
   ("lgname", Py.of_str user);
   ("lgpassword", Py.of_str pwd);
   ("lgtoken", login_token);
   ("format", JStr "json")].

(** Lines 136-147: what the constructor makes of the reply to the login
    request. *)
Definition login_check (debug : bool) (login_result : json) : M unit :=
  (if debug then print [Val login_result] else ret tt) ;;
  block <- item login_result "login" ;;
  outcome <- item block "result" ;;
  (if negb (Py.eq_str outcome "Success") then
     block <- item login_result "login" ;;
     reason <- item block "result" ;;
     raise (LoginError (Format login_failed [reason]))
   else if debug then
     block <- item login_result "login" ;;
     lgusername <- item block "lgusername" ;;
     print [Str "Successfully logged in as"; Val lgusername]
   else ret tt) ;;
  warned <- lift (Py.contains "warnings" login_result) ;;
  if warned : bool then
    print [Str "MediaWiki login warnings messages:"] ;;
    warnings <- item login_result "warnings" ;;
    messages <- lift (Py.iter warnings) ;;
    for_each messages (fun message =>
      warnings <- item login_result "warnings" ;;
      entry <- lift (Py.getitem warnings message) ;;
      star <- item entry "*" ;;
      print [Format "* {}: {}" [message; star]])
  else ret tt.

(** Lines 126-147. *)
Definition init_login (user pwd : option string) (debug : bool)
    (login_token : json) : M unit :=
  l <- self ;;
  response <- session_request POST (mediawiki_api_url l)
                (login_params user pwd login_token) ;;
  login_result <- response_json response ;;
  login_check debug login_result.

(** Lines 90-149: the [else] branch, a login followed by the first token. *)
Definition init_by_login (a : Args.t) : M unit :=
  login_token <- get_login_token ;;
  (if Args.use_clientlogin a
   then init_clientlogin (Args.user a) (Args.pwd a) (Args.debug a) login_token
   else init_login (Args.user a) (Args.pwd a) (Args.debug a) login_token) ;;
  generate_edit_credentials ;;
  ret tt.

(** Lines 75-149. *)
Definition init_authenticate (a : Args.t) : M unit :=
  l <- self ;;
  if (Py.truthy_str (consumer_key l) && Py.truthy_str (consumer_secret l))%bool
  then init_oauth
  else init_by_login a.

(** Lines 64-70: the user agent of the instance, and what becomes of
    [config['USER_AGENT_DEFAULT']]. *)
Definition init_user_agent (a : Args.t) (w : World) : string * World :=
  if Py.truthy_str (Args.user_agent a) then (Py.text_of (Args.user_agent a), w)
  else
    let w' :=
      if (Py.truthy_str (Args.user a)
          && negb (Py.substring (Py.casefold (Py.text_of (Args.user a)))
                                (Py.casefold (USER_AGENT_DEFAULT w))))%bool
      then w_user_agent_default
             (USER_AGENT_DEFAULT w ++ " (User:" ++ Py.text_of (Args.user a) ++ ")") w
      else w in
    (USER_AGENT_DEFAULT w', w').

(** Lines 48-73: the instance before it authenticates. *)
Definition init_attributes (a : Args.t) (w : World) : St :=
  let api := match Args.mediawiki_api_url a with
             | None => MEDIAWIKI_API_URL w
             | Some url => url
             end in
  let idx := match Args.mediawiki_index_url a with
             | None => MEDIAWIKI_INDEX_URL w
             | Some url => url
             end in
  let w1 := if Args.debug a then w_stdout (Printed [Str api]) w else w in
  let now := clock w1 in
  let (ua, w2) := init_user_agent a w1 in
  ({| mediawiki_api_url := api;
      mediawiki_index_url := idx;
      s := {| headers_user_agent := ua; cookies := []; auth := None |};
      edit_token := JStr "";
      instantiation_time := now;
      token_renew_period := Args.token_renew_period a;
      consumer_key := Args.consumer_key a;
      consumer_secret := Args.consumer_secret a;
      response_qs := PNone;
      callback_url := Args.callback_url a;
      user_agent := ua;
      consumer_token := None;
      handshaker := None;
      redirect := None;
      request_token := None |}, w2).

(** [Login(...)]: the new instance, or the exception that ends the
    construction; the world is changed either way. *)
Definition Login_init (a : Args.t) (w : World) : World * result Login :=
  match init_authenticate a (init_attributes a w) with
  | (st, Return _) => (snd st, Return (fst st))
  | (st, Raise e) => (snd st, Raise e)
  end.

(** The world after a run of constructor calls in one process. *)
Fixpoint after_constructions (calls : list Args.t) (w : World) : World :=
  match calls with
  | [] => w
  | a :: later => after_constructions later (fst (Login_init a w))
  end.

(** ** Observations *)

Definition final_self {A : Type} (r : St * result A) : Login := fst (fst r).
Definition final_world {A : Type} (r : St * result A) : World := snd (fst r).
Definition outcome {A : Type} (r : St * result A) : result A := snd r.

(** The request [generate_edit_credentials] sends for instance [l]. *)
Definition token_request (l : Login) : Request :=
  request_of l GET (mediawiki_api_url l) token_query.

(** [response.json()['query']['tokens'][name]] as a value. *)
Definition token_field (name : string) (content : option json) : result json :=
  match content with
  | None => Raise JSONDecodeError
  | Some j =>
      match Py.getitem j (JStr "query") with
      | Raise e => Raise e
      | Return q =>
          match Py.getitem q (JStr "tokens") with
          | Raise e => Raise e
          | Return t => Py.getitem t (JStr name)
          end
      end
  end.

(** What a token query gets from a server that has [replies] in store. *)
Definition csrftoken_from (replies : list (Reply answer)) : result json :=
  match replies with
  | [] => Raise RequestException
  | r :: _ =>
      match payload r with
      | NoAnswer => Raise RequestException
      | Answer _ content => token_field "csrftoken" content
      end
  end.

Definition next_csrftoken (w : World) : result json := csrftoken_from (net w).

(** The tests of lines 171 and 182. *)
Definition cookie_due (l : Login) (w : World) : bool :=
  clock w - instantiation_time l >? token_renew_period l.

Definition token_due (l : Login) (w : World) : bool :=
  negb (Py.truthy (edit_token l)) || cookie_due l w.

(** ** Sample instances and worlds *)

Module Sample.

(** A world at clock [t] whose wiki will answer with [replies]. *)
Definition world (t : Z) (replies : list (Reply answer)) : World :=
  {| clock := t;
     MEDIAWIKI_API_URL := "https://www.wikidata.org/w/api.php";
     MEDIAWIKI_INDEX_URL := "https://www.wikidata.org/w/index.php";
     USER_AGENT_DEFAULT := "WikibaseIntegrator/0.9";
     net := replies; sent := [];
     initiations := []; completions := [];
     hs_calls := [];
     stdin := []; stdout := []; browser := [] |}.

(** An instance holding [tok], stamped at [t0], with renew period [T]. *)
Definition manager (tok : json) (t0 T : Z) : Login :=
  {| mediawiki_api_url := "https://www.wikidata.org/w/api.php";
     mediawiki_index_url := "https://www.wikidata.org/w/index.php";
     s := {| headers_user_agent := "WikibaseIntegrator/0.9";
             cookies := [("session", "c0")]; auth := None |};
     edit_token := tok;
     instantiation_time := t0;
     token_renew_period := T;
     consumer_key := None;
     consumer_secret := None;
     response_qs := PNone;
     callback_url := "oob";
     user_agent := "WikibaseIntegrator/0.9";
     consumer_token := None;
     handshaker := None;
     redirect := None;
     request_token := None |}.

(** The reply [{"query": {"tokens": {name: value}}}], after [d] ticks. *)
Definition tokens (name value : string) (d : N) : Reply answer :=
  {| delay := d;
     payload := Answer [] (Some (JDict [("query", JDict [("tokens", JDict [(name, JStr value)])])])) |}.

(** A reply after [d] ticks whose body is [j]. *)
Definition body (j : json) (d : N) : Reply answer :=
  {| delay := d; payload := Answer [] (Some j) |}.

(** The reply [{"query": {"tokens": {}}}]: no token in it. *)
Definition no_token (d : N) : Reply answer :=
  body (JDict [("query", JDict [("tokens", JDict [])])]) d.

Definition consumer : Token := {| key := "ck"; secret := "cs" |}.

Definition temporary : Token := {| key := "rk"; secret := "rs" |}.

Definition shaker : Handshaker :=
  {| mw_uri := "https://www.wikidata.org/w/index.php";
     hs_consumer_token := consumer;
     hs_callback := "oob";
     hs_user_agent := "WikibaseIntegrator/0.9" |}.

(** An instance as the OAuth branch of the constructor leaves it, for the
    consumer [ck]/[cs] and the request token [rk]/[rs]. *)
Definition pending (t0 T : Z) : Login :=
  {| mediawiki_api_url := "https://www.wikidata.org/w/api.php";
     mediawiki_index_url := "https://www.wikidata.org/w/index.php";
     s := {| headers_user_agent := "WikibaseIntegrator/0.9"; cookies := []; auth := None |};
     edit_token := JStr "";
     instantiation_time := t0;
     token_renew_period := T;
     consumer_key := Some "ck";
     consumer_secret := Some "cs";
     response_qs := PNone;
     callback_url := "oob";
     user_agent := "WikibaseIntegrator/0.9";
     consumer_token := Some consumer;
     handshaker := Some shaker;
     redirect := Some "https://www.wikidata.org/w/index.php?title=Special:OAuth/authorize";
     request_token := Some temporary |}.

(** [Login(user='alice', pwd='secret')] and its variants. *)
Definition password : Args.t :=
  {| Args.user := Some "alice"; Args.pwd := Some "secret";
     Args.mediawiki_api_url := None; Args.mediawiki_index_url := None;
     Args.token_renew_period := 1800; Args.use_clientlogin := false;
     Args.consumer_key := None; Args.consumer_secret := None;
     Args.callback_url := "oob"; Args.user_agent := None; Args.debug := false |}.

Definition clientlogin (debug : bool) : Args.t :=
  {| Args.user := Some "alice"; Args.pwd := Some "secret";
     Args.mediawiki_api_url := None; Args.mediawiki_index_url := None;
     Args.token_renew_period := 1800; Args.use_clientlogin := true;
     Args.consumer_key := None; Args.consumer_secret := None;
     Args.callback_url := "oob"; Args.user_agent := None; Args.debug := debug |}.

Definition oauth (ck cs : option string) : Args.t :=
  {| Args.user := None; Args.pwd := None;
     Args.mediawiki_api_url := None; Args.mediawiki_index_url := None;
     Args.token_renew_period := 1800; Args.use_clientlogin := false;
     Args.consumer_key := ck; Args.consumer_secret := cs;
     Args.callback_url := "oob"; Args.user_agent := Some "bot/1.0"; Args.debug := false |}.

(** A world whose handshake provider will answer with [inits] and [comps]
    and whose console will deliver [lines]. *)
Definition provider (t : Z) (inits : list (Reply (option (string * Token))))
    (comps : list (Reply (option Token))) (replies : list (Reply answer))
    (lines : list (Reply string)) : World :=
  {| clock := t;
     MEDIAWIKI_API_URL := "https://www.wikidata.org/w/api.php";
     MEDIAWIKI_INDEX_URL := "https://www.wikidata.org/w/index.php";
     USER_AGENT_DEFAULT := "WikibaseIntegrator/0.9";
     net := replies; sent := [];
     initiations := inits; completions := comps;
     hs_calls := [];
     stdin := lines; stdout := []; browser := [] |}.

(** The provider accepts an exchange and hands out an access token. *)
Definition accepted (k sec : string) : Reply (option Token) :=
  {| delay := 1; payload := Some {| key := k; secret := sec |} |}.

(** The provider rejects an exchange. *)
Definition rejected : Reply (option Token) := {| delay := 1; payload := None |}.

(** The callback URL the provider redirected the user to. *)
Definition callback : pyarg :=
  PBytes "https://example.org/cb?oauth_verifier=v&oauth_token=rk".

(** A provider that accepts one exchange and rejects the next. *)
Definition strict : World :=
  provider 10 [] [accepted "ak1" "as1"; rejected]
    [tokens "csrftoken" "t1+\" 1] [].

(** The provider grants a request token. *)
Definition granted : Reply (option (string * Token)) :=
  {| delay := 1;
     payload := Some ("https://www.wikidata.org/w/index.php?title=Special:OAuth/authorize",
                      {| key := "rk"; secret := "rs" |}) |}.

(** [{"login": {"result": "Success", "lgusername": "alice"}}] *)
Definition login_success : json :=
  JDict [("login", JDict [("result", JStr "Success"); ("lgusername", JStr "alice")])].

(** The three replies to a clientlogin request of the MediaWiki API. *)
Definition clientlogin_pass : json :=
  JDict [("clientlogin", JDict [("status", JStr "PASS"); ("username", JStr "alice")])].

Definition clientlogin_fail : json :=
  JDict [("clientlogin", JDict [("status", JStr "FAIL");
                                ("message", JStr "Incorrect username or password entered.");
                                ("messagecode", JStr "wrongpassword")])].

Definition clientlogin_error : json :=
  JDict [("error", JDict [("code", JStr "badpass"); ("info", JStr "Incorrect password")])].

(** A wiki that answers a clientlogin request with [login_result]. *)
Definition wiki (login_result : json) : list (Reply answer) :=
  [tokens "logintoken" "lt+\" 1; body login_result 1; tokens "csrftoken" "abc+\" 1].

(** A wiki that lets a password login through, one tick per reply. *)
Definition friendly : list (Reply answer) :=
  [tokens "logintoken" "lt+\" 1; body login_success 1; tokens "csrftoken" "abc+\" 1].

(** The instance that a password login against [friendly] returns. *)
Definition built : Login :=
  match snd (Login_init password (world 0 friendly)) with
  | Return l => l
  | Raise _ => manager JNull 0 0
  end.

(** A reply that carries a fresh token and sets two cookies. *)
Definition fresh : Reply answer :=
  {| delay := 2;
     payload := Answer [("session", "c1"); ("token", "t")]
                  (Some (JDict [("query", JDict [("tokens",
                     JDict [("csrftoken", JStr "new+\")])])])) |}.

(** A login reply that turns the password down. *)
Definition refusing : json :=
  JDict [("login", JDict [("result", JStr "WrongPass")])].

(** A clientlogin reply that asks for a redirect: no message in it. *)
Definition clientlogin_redirect : json :=
  JDict [("clientlogin", JDict [("status", JStr "REDIRECT");
                                ("redirecttarget", JStr "https://example.org/auth")])].

(** A reply that has neither a [clientlogin] nor an [error] block. *)
Definition clientlogin_neither : json := JDict [("batchcomplete", JStr "")].

(** A successful login with two warnings. *)
Definition login_warned : json :=
  JDict [("warnings", JDict [("main", JDict [("*", JStr "Unrecognized parameter")]);
                             ("login", JDict [("*", JStr "Main-account login is deprecated")])]);
         ("login", JDict [("result", JStr "Success"); ("lgusername", JStr "alice")])].

(** A successful login with two warnings, the second without text. *)
Definition login_badly_warned : json :=
  JDict [("warnings", JDict [("main", JDict [("*", JStr "Unrecognized parameter")]);
                             ("login", JDict [("code", JStr "x")])]);
         ("login", JDict [("result", JStr "Success"); ("lgusername", JStr "alice")])].

End Sample.

(** ** Relations between the state before and after a computation *)

(** [c] relates every state to the state it ends in, whatever the outcome. *)
Definition preserves (R : St -> St -> Prop) {A : Type} (c : M A) : Prop :=
  forall st, R st (fst (c st)).

(** Token timestamp, clock and configured user agent: the timestamp and the
    default user agent stay, the clock does not go back. *)
Definition steady (st st' : St) : Prop :=
  instantiation_time (fst st') = instantiation_time (fst st)
  /\ clock (snd st) <= clock (snd st')
  /\ USER_AGENT_DEFAULT (snd st') = USER_AGENT_DEFAULT (snd st)
  /\ user_agent (fst st') = user_agent (fst st).

(** A part of the state that a computation hands on as it found it. *)
Definition same {X : Type} (proj : St -> X) (st st' : St) : Prop :=
  proj st' = proj st.

(** The parts in question. *)
Definition sent_of (st : St) : list Request := sent (snd st).
Definition hs_calls_of (st : St) : list hs_call := hs_calls (snd st).

Definition net_of (st : St) : list (Reply answer) := net (snd st).


(** ** Further observations *)

(** What a token request for [name] gets from a server that has [replies]
    in store. *)
Definition token_from (name : string) (replies : list (Reply answer)) : result json :=
  match replies with
  | [] => Raise RequestException
  | r :: _ =>
      match payload r with
      | NoAnswer => Raise RequestException
      | Answer _ content => token_field name content
      end
  end.

(** The API URL and the index URL of a new instance, lines 48-49. *)
Definition api_url_of (a : Args.t) (w : World) : string :=
  match Args.mediawiki_api_url a with
  | None => MEDIAWIKI_API_URL w
  | Some url => url
  end.

(** The session after the cookies [ck] of a reply went into its jar. *)
Definition received (l : Login) (ck : jar) : Login :=
  with_s l (set_cookies_of (s l) (store_cookies ck (cookies (s l)))).

(** The check of the login reply and the parameters of the login request
    that the [use_clientlogin] flag selects. *)
Definition check_of (a : Args.t) : json -> M unit :=
  if Args.use_clientlogin a then clientlogin_check (Args.debug a)
  else login_check (Args.debug a).

Definition params_of (a : Args.t) (login_token : json) : list (string * json) :=
  if Args.use_clientlogin a
  then clientlogin_params (Args.user a) (Args.pwd a) login_token
  else login_params (Args.user a) (Args.pwd a) login_token.

(** URL, user agent and signer of the session of an instance. *)
Definition identity_of (st : St) : string * string * option OAuth1 :=
  (mediawiki_api_url (fst st), headers_user_agent (s (fst st)), auth (s (fst st))).

(** A request that went to [url] under [agent], signed by [signer]. *)
Definition carries (id : string * string * option OAuth1) (r : Request) : Prop :=
  req_url r = fst (fst id) /\ req_user_agent r = snd (fst id) /\ req_auth r = snd id.

(** The requests of a computation all went to the API URL of the instance,
    under the user agent and with the signer of its session, and none of
    the three changed. *)
Definition addressed (st st' : St) : Prop :=
  identity_of st' = identity_of st
  /\ exists new,
       sent (snd st') = (new ++ sent (snd st))%list
       /\ Forall (carries (identity_of st)) new.

(** [c in s] for one character. *)
Fixpoint has_char (c : ascii) (s : string) : bool :=
  match s with
  | EmptyString => false
  | String d rest => Ascii.eqb d c || has_char c rest
  end.

Definition stdout_of (st : St) : list out := stdout (snd st).

(** A world with its console output wiped. *)
Definition hush (w : World) : World :=
  {| clock := clock w;
     MEDIAWIKI_API_URL := MEDIAWIKI_API_URL w;
     MEDIAWIKI_INDEX_URL := MEDIAWIKI_INDEX_URL w;
     USER_AGENT_DEFAULT := USER_AGENT_DEFAULT w;
     net := net w; sent := sent w;
     initiations := initiations w; completions := completions w;
     hs_calls := hs_calls w;
     stdin := stdin w; stdout := []; browser := browser w |}.

(** Everything but the console output. *)
Definition hushed_of (st : St) : St := (fst st, hush (snd st)).

(** The state of the constructor after the replies to the login-token
    request and to the login request, before the second is looked at. *)
Definition logged_in (a : Args.t) (w : World) (r1 r2 : Reply answer)
    (rest : list (Reply answer)) (ck1 ck2 : jar) (login_token : json) : St :=
  let l0 := fst (init_attributes a w) in
  let w0 := snd (init_attributes a w) in
  (received (received l0 ck1) ck2,
   w_request (request_of (received l0 ck1) POST (mediawiki_api_url l0) (params_of a login_token))
     (delay r2) rest
     (w_request (request_of l0 POST (mediawiki_api_url l0) login_token_query)
        (delay r1) (r2 :: rest) w0)).

Definition period_of (st : St) : Z := token_renew_period (fst st).

(** [sep.join(pieces)] for a one-character separator. *)
Fixpoint join (sep : ascii) (pieces : list string) : string :=
  match pieces with
  | [] => EmptyString
  | piece :: more =>
      match more with
      | [] => piece
      | _ :: _ => piece ++ String sep (join sep more)
      end
  end.

Definition handshake_attrs_of (st : St)
    : option Handshaker * option string * option Token * option Token :=
  (handshaker (fst st), redirect (fst st), request_token (fst st), consumer_token (fst st)).

(** The arguments [a] with the [debug] flag set to [d]. *)
Definition with_debug (a : Args.t) (d : bool) : Args.t :=
  {| Args.user := Args.user a;
     Args.pwd := Args.pwd a;
     Args.mediawiki_api_url := Args.mediawiki_api_url a;
     Args.mediawiki_index_url := Args.mediawiki_index_url a;
     Args.token_renew_period := Args.token_renew_period a;
     Args.use_clientlogin := Args.use_clientlogin a;
     Args.consumer_key := Args.consumer_key a;
     Args.consumer_secret := Args.consumer_secret a;
     Args.callback_url := Args.callback_url a;
     Args.user_agent := Args.user_agent a;
     Args.debug := d |}.

(** [c] does not look at the console output: from states that differ in
    it only, it has the same outcome and ends in states that differ in it
    only. *)
Definition deaf {A : Type} (c : M A) : Prop :=
  forall st st', hushed_of st = hushed_of st' ->
    hushed_of (fst (c st)) = hushed_of (fst (c st')) /\ snd (c st) = snd (c st').

(** Whenever [c] returns, [c'] returns the same, console output aside. *)
Definition refines {A : Type} (c c' : M A) : Prop :=
  forall st st', hushed_of st = hushed_of st' ->
    forall x st1, c st = (st1, Return x) ->
      exists st1', c' st' = (st1', Return x) /\ hushed_of st1 = hushed_of st1'.

(** The handshaker that the OAuth branch builds, lines 79-83. *)
Definition handshaker_of (a : Args.t) (w : World) (agent : string) : Handshaker :=
  {| mw_uri := match Args.mediawiki_index_url a with
               | None => MEDIAWIKI_INDEX_URL w
               | Some url => url
               end;
     hs_consumer_token := {| key := Py.text_of (Args.consumer_key a);
                             secret := Py.text_of (Args.consumer_secret a) |};
     hs_callback := Args.callback_url a;
     hs_user_agent := agent |}.

(** * Properties *)

Ltac unfold_ops :=
  unfold final_self, final_world, outcome, token_request,
    get_edit_token, get_edit_cookie, renew, generate_edit_credentials,
    item, response_json, session_request, time_time,
    assign, effect, attr, self, lift, bind, ret, raise in *.

(* case analysis on an innermost scrutinee *)
Ltac split_match :=
  match goal with
  | |- context [match ?x with _ => _ end] =>
      lazymatch x with
      | context [match _ with _ => _ end] => fail
      | _ => destruct x eqn:?
      end
  end.

Ltac run := unfold_ops; cbn [fst snd] in *; repeat (split_match; cbn [fst snd] in *).

(** One run of [generate_edit_credentials], spelled out on the reply of
    the server. *)
Lemma generate_edit_credentials_eq (l : Login) (w : World) :
  generate_edit_credentials (l, w) =
  match net w with
  | [] => ((l, w_request (token_request l) 0 [] w), Raise RequestException)
  | r :: rest =>
      let w' := w_request (token_request l) (delay r) rest w in
      match payload r with
      | NoAnswer => ((l, w'), Raise RequestException)
      | Answer ck content =>
          let l1 := with_s l (set_cookies_of (s l) (store_cookies ck (cookies (s l)))) in
          match token_field "csrftoken" content with
          | Raise e => ((l1, w'), Raise e)
          | Return tok => ((with_edit_token l1 tok, w'), Return (cookies (s l1)))
          end
      end
  end.
Proof.
  unfold token_field. run; try reflexivity; try congruence.
Qed.

Lemma generate_outcome (l : Login) (w : World) :
  outcome (generate_edit_credentials (l, w)) =
  match next_csrftoken w with
  | Raise e => Raise e
  | Return _ => Return (cookies (s (final_self (generate_edit_credentials (l, w)))))
  end.
Proof.
  rewrite generate_edit_credentials_eq. unfold next_csrftoken, csrftoken_from, outcome, final_self.
  destruct (net w) as [|r rest]; [reflexivity|].
  destruct (payload r) as [|ck content]; [reflexivity|].
  cbn zeta. destruct (token_field "csrftoken" content); reflexivity.
Qed.

(** Exactly one request goes out, the token query. *)
Lemma generate_sent (l : Login) (w : World) :
  sent (final_world (generate_edit_credentials (l, w))) = token_request l :: sent w.
Proof.
  rewrite generate_edit_credentials_eq. unfold final_world.
  destruct (net w) as [|r rest]; [reflexivity|].
  destruct (payload r) as [|ck content]; [reflexivity|].
  cbn zeta. destruct (token_field "csrftoken" content); reflexivity.
Qed.

(** The timestamp is not touched. *)
Lemma generate_keeps_instantiation_time (l : Login) (w : World) :
  instantiation_time (final_self (generate_edit_credentials (l, w))) = instantiation_time l.
Proof.
  rewrite generate_edit_credentials_eq. unfold final_self.
  destruct (net w) as [|r rest]; [reflexivity|].
  destruct (payload r) as [|ck content]; [reflexivity|].
  cbn zeta. destruct (token_field "csrftoken" content); reflexivity.
Qed.

(** On success the stored token is the [csrftoken] field of the reply; on
    failure the stored token is the old one. *)
Lemma generate_edit_token (l : Login) (w : World) :
  edit_token (final_self (generate_edit_credentials (l, w))) =
  match next_csrftoken w with
  | Raise _ => edit_token l
  | Return tok => tok
  end.
Proof.
  rewrite generate_edit_credentials_eq. unfold next_csrftoken, csrftoken_from, final_self.
  destruct (net w) as [|r rest]; [reflexivity|].
  destruct (payload r) as [|ck content]; [reflexivity|].
  cbn zeta. destruct (token_field "csrftoken" content); reflexivity.
Qed.

(** Time does not run backwards while the request is out. *)
Lemma generate_clock (l : Login) (w : World) :
  clock w <= clock (final_world (generate_edit_credentials (l, w))).
Proof.
  rewrite generate_edit_credentials_eq. unfold final_world.
  destruct (net w) as [|r rest]; [cbn; lia|].
  destruct (payload r) as [|ck content]; [cbn; lia|].
  cbn zeta. destruct (token_field "csrftoken" content); cbn; lia.
Qed.

(** ** The two accessors *)

(** What the body of the [if] does to an instance and a world. *)
Lemma renew_eq (st : St) :
  renew st =
  match generate_edit_credentials st with
  | (st', Return _) =>
      ((with_instantiation_time (fst st') (clock (snd st')), snd st'), Return tt)
  | (st', Raise e) => (st', Raise e)
  end.
Proof.
  unfold renew, bind, time_time, assign.
  destruct (generate_edit_credentials st) as [st' [e|c]]; reflexivity.
Qed.

Lemma get_edit_token_eq (l : Login) (w : World) :
  get_edit_token (l, w) =
  if token_due l w then
    match renew (l, w) with
    | (st', Return _) => (st', Return (edit_token (fst st')))
    | (st', Raise e) => (st', Raise e)
    end
  else ((l, w), Return (edit_token l)).
Proof.
  unfold get_edit_token, token_due, cookie_due, bind, self, ret, time_time.
  cbn [fst snd].
  destruct (Py.truthy (edit_token l)); cbn [negb orb fst snd].
  - destruct (clock w - instantiation_time l >? token_renew_period l).
    + destruct (renew (l, w)) as [st' [e|u]]; reflexivity.
    + reflexivity.
  - destruct (renew (l, w)) as [st' [e|u]]; reflexivity.
Qed.

Lemma get_edit_cookie_eq (l : Login) (w : World) :
  get_edit_cookie (l, w) =
  if cookie_due l w then
    match renew (l, w) with
    | (st', Return _) => (st', Return (cookies (s (fst st'))))
    | (st', Raise e) => (st', Raise e)
    end
  else ((l, w), Return (cookies (s l))).
Proof.
  unfold get_edit_cookie, cookie_due, bind, self, ret, time_time.
  cbn [fst snd].
  destruct (clock w - instantiation_time l >? token_renew_period l).
  - destruct (renew (l, w)) as [st' [e|u]]; reflexivity.
  - reflexivity.
Qed.

(** A renewal sends the token query and nothing else. *)
Lemma renew_sent (l : Login) (w : World) :
  sent (final_world (renew (l, w))) = token_request l :: sent w.
Proof.
  rewrite renew_eq. pose proof (generate_sent l w) as H.
  unfold final_world in *.
  destruct (generate_edit_credentials (l, w)) as [st' [e|c]]; exact H.
Qed.

(** A renewal that fails leaves token and timestamp alone. *)
Lemma renew_failure (l : Login) (w : World) (e : exn) :
  next_csrftoken w = Raise e ->
  outcome (renew (l, w)) = Raise e
  /\ edit_token (final_self (renew (l, w))) = edit_token l
  /\ instantiation_time (final_self (renew (l, w))) = instantiation_time l.
Proof.
  intros Hfail. rewrite renew_eq.
  pose proof (generate_outcome l w) as Ho.
  pose proof (generate_edit_token l w) as Ht.
  pose proof (generate_keeps_instantiation_time l w) as Hi.
  rewrite Hfail in Ho, Ht. unfold outcome, final_self in *.
  destruct (generate_edit_credentials (l, w)) as [st' [e'|c]]; cbn [fst snd] in *.
  - injection Ho as ->. repeat split; assumption.
  - discriminate.
Qed.

(** A renewal that succeeds stores the token of the reply and the clock
    reading that follows. *)
Lemma renew_success (l : Login) (w : World) (tok : json) :
  next_csrftoken w = Return tok ->
  outcome (renew (l, w)) = Return tt
  /\ edit_token (final_self (renew (l, w))) = tok
  /\ instantiation_time (final_self (renew (l, w))) = clock (final_world (renew (l, w))).
Proof.
  intros Hok. rewrite renew_eq.
  pose proof (generate_outcome l w) as Ho.
  pose proof (generate_edit_token l w) as Ht.
  rewrite Hok in Ho, Ht. unfold outcome, final_self, final_world in *.
  destruct (generate_edit_credentials (l, w)) as [st' [e'|c]]; cbn [fst snd] in *.
  - discriminate.
  - repeat split. destruct st'; exact Ht.
Qed.

Lemma due_spec (l : Login) (w : World) :
  cookie_due l w = true <-> clock w - instantiation_time l > token_renew_period l.
Proof.
  unfold cookie_due. rewrite Z.gtb_ltb, Z.ltb_lt. lia.
Qed.

Lemma not_due_spec (l : Login) (w : World) :
  cookie_due l w = false <-> clock w - instantiation_time l <= token_renew_period l.
Proof.
  unfold cookie_due. rewrite Z.gtb_ltb, Z.ltb_ge. lia.
Qed.

(** Inside the renew period, and at its very end, a non-empty token is
    handed out as it is. *)
Lemma get_edit_token_not_due (l : Login) (w : World) :
  Py.truthy (edit_token l) = true ->
  clock w - instantiation_time l <= token_renew_period l ->
  get_edit_token (l, w) = ((l, w), Return (edit_token l)).
Proof.
  intros Htok Hle. rewrite get_edit_token_eq. unfold token_due.
  rewrite Htok, (proj2 (not_due_spec l w) Hle). reflexivity.
Qed.

(** C7. An instance holding a non-empty edit token stamped at [t0], asked
    for its token at a time [t1 < t0 + T], sends nothing, changes nothing
    and returns the token it holds. *)
Theorem get_edit_token_within_period (l : Login) (w : World) :
  Py.truthy (edit_token l) = true ->
  clock w < instantiation_time l + token_renew_period l ->
  get_edit_token (l, w) = ((l, w), Return (edit_token l)).
Proof.
  intros Htok Hlt. apply get_edit_token_not_due; [assumption | lia].
Qed.

Lemma get_edit_token_within_period_witness :
  get_edit_token (Sample.manager (JStr "abc+\") 100 1800, Sample.world 1899 [])
  = ((Sample.manager (JStr "abc+\") 100 1800, Sample.world 1899 []),
     Return (JStr "abc+\")).
Proof.
  apply (get_edit_token_within_period (Sample.manager (JStr "abc+\") 100 1800)
           (Sample.world 1899 [])).
  - reflexivity.
  - simpl. lia.
Defined.

Lemma get_edit_token_sent (l : Login) (w : World) :
  sent (final_world (get_edit_token (l, w))) =
  if token_due l w then token_request l :: sent w else sent w.
Proof.
  rewrite get_edit_token_eq. pose proof (renew_sent l w) as H.
  unfold final_world in *.
  destruct (token_due l w); [|reflexivity].
  destruct (renew (l, w)) as [st' [e|u]]; exact H.
Qed.

Lemma get_edit_cookie_sent (l : Login) (w : World) :
  sent (final_world (get_edit_cookie (l, w))) =
  if cookie_due l w then token_request l :: sent w else sent w.
Proof.
  rewrite get_edit_cookie_eq. pose proof (renew_sent l w) as H.
  unfold final_world in *.
  destruct (cookie_due l w); [|reflexivity].
  destruct (renew (l, w)) as [st' [e|u]]; exact H.
Qed.

(** C1. The two accessors do not renew under the same condition: on an
    instance whose edit token is empty, inside the renew period,
    [get_edit_token] sends the token query and [get_edit_cookie] sends
    nothing and leaves instance and world as they were. *)
Theorem get_edit_cookie_ignores_empty_token (l : Login) (w : World) :
  Py.truthy (edit_token l) = false ->
  clock w - instantiation_time l <= token_renew_period l ->
  sent (final_world (get_edit_token (l, w))) = token_request l :: sent w
  /\ get_edit_cookie (l, w) = ((l, w), Return (cookies (s l))).
Proof.
  intros Hempty Hle. split.
  - rewrite get_edit_token_sent. unfold token_due. rewrite Hempty. reflexivity.
  - rewrite get_edit_cookie_eq, (proj2 (not_due_spec l w) Hle). reflexivity.
Qed.

Lemma get_edit_cookie_ignores_empty_token_witness :
  sent (final_world (get_edit_token
          (Sample.pending 0 1800, Sample.world 10 [Sample.tokens "csrftoken" "+\" 1])))
  = [token_request (Sample.pending 0 1800)]
  /\ get_edit_cookie (Sample.pending 0 1800, Sample.world 10 [Sample.tokens "csrftoken" "+\" 1])
     = ((Sample.pending 0 1800, Sample.world 10 [Sample.tokens "csrftoken" "+\" 1]),
        Return []).
Proof.
  apply (get_edit_cookie_ignores_empty_token (Sample.pending 0 1800)
           (Sample.world 10 [Sample.tokens "csrftoken" "+\" 1])).
  - reflexivity.
  - simpl. lia.
Defined.

(** C2, as stated, fails at the boundary: a token stamped at 0 with a renew
    period of 1800, asked for at 1800, is handed out without any request. *)
Lemma get_edit_token_boundary_counterexample :
  clock (Sample.world 1800 [Sample.tokens "csrftoken" "new" 1])
    - instantiation_time (Sample.manager (JStr "abc+\") 0 1800)
    >= token_renew_period (Sample.manager (JStr "abc+\") 0 1800)
  /\ get_edit_token (Sample.manager (JStr "abc+\") 0 1800,
                     Sample.world 1800 [Sample.tokens "csrftoken" "new" 1])
     = ((Sample.manager (JStr "abc+\") 0 1800,
         Sample.world 1800 [Sample.tokens "csrftoken" "new" 1]),
        Return (JStr "abc+\"))
  /\ sent (final_world (get_edit_token (Sample.manager (JStr "abc+\") 0 1800,
                     Sample.world 1800 [Sample.tokens "csrftoken" "new" 1]))) = [].
Proof.
  split; [simpl; lia | split; reflexivity].
Qed.

(** C2, amended. An instance stamped at [t0], asked for its token at a time
    [t1] with [t1 - t0 > T], sends exactly one request, the token query;
    when the call returns, it returns the token of the reply, which is now
    the stored one, stamped with the clock reading that follows the reply. *)
Theorem get_edit_token_overdue (l : Login) (w : World) :
  clock w - instantiation_time l > token_renew_period l ->
  sent (final_world (get_edit_token (l, w))) = token_request l :: sent w
  /\ forall tok, outcome (get_edit_token (l, w)) = Return tok ->
       next_csrftoken w = Return tok
       /\ edit_token (final_self (get_edit_token (l, w))) = tok
       /\ instantiation_time (final_self (get_edit_token (l, w)))
          = clock (final_world (get_edit_token (l, w))).
Proof.
  intros Hgt. apply due_spec in Hgt.
  assert (Hdue : token_due l w = true).
  { unfold token_due. rewrite Hgt. apply orb_true_r. }
  split.
  - rewrite get_edit_token_sent, Hdue. reflexivity.
  - intros tok. rewrite get_edit_token_eq, Hdue.
    destruct (next_csrftoken w) as [e|tok'] eqn:Hnext.
    + destruct (renew_failure l w e Hnext) as [Ho _].
      unfold outcome in *. destruct (renew (l, w)) as [st' [e'|u]]; discriminate.
    + destruct (renew_success l w tok' Hnext) as (Ho & Ht & Hi).
      unfold outcome, final_self, final_world in *.
      destruct (renew (l, w)) as [st' [e'|u]]; [discriminate|].
      cbn [fst snd] in *. intros Heq. injection Heq as <-.
      rewrite Ht. repeat split; assumption.
Qed.

Lemma get_edit_token_overdue_witness :
  sent (final_world (get_edit_token
          (Sample.manager (JStr "abc+\") 0 1800,
           Sample.world 1801 [Sample.tokens "csrftoken" "new" 2])))
  = [token_request (Sample.manager (JStr "abc+\") 0 1800)]
  /\ forall tok,
       outcome (get_edit_token
          (Sample.manager (JStr "abc+\") 0 1800,
           Sample.world 1801 [Sample.tokens "csrftoken" "new" 2])) = Return tok ->
       next_csrftoken (Sample.world 1801 [Sample.tokens "csrftoken" "new" 2]) = Return tok
       /\ edit_token (final_self (get_edit_token
            (Sample.manager (JStr "abc+\") 0 1800,
             Sample.world 1801 [Sample.tokens "csrftoken" "new" 2]))) = tok
       /\ instantiation_time (final_self (get_edit_token
            (Sample.manager (JStr "abc+\") 0 1800,
             Sample.world 1801 [Sample.tokens "csrftoken" "new" 2])))
          = clock (final_world (get_edit_token
            (Sample.manager (JStr "abc+\") 0 1800,
             Sample.world 1801 [Sample.tokens "csrftoken" "new" 2]))).
Proof.
  apply (get_edit_token_overdue (Sample.manager (JStr "abc+\") 0 1800)
           (Sample.world 1801 [Sample.tokens "csrftoken" "new" 2])).
  simpl. lia.
Defined.

(** C4. When the reply to the token query is missing, is not JSON, or has
    no [csrftoken] under [query]/[tokens], an accessor that has to renew
    raises the exception of the failed query, and the stored token and its
    timestamp are the ones from before the call. *)
Theorem failed_refresh_keeps_token (l : Login) (w : World) (e : exn) :
  next_csrftoken w = Raise e ->
  (token_due l w = true ->
     outcome (get_edit_token (l, w)) = Raise e
     /\ edit_token (final_self (get_edit_token (l, w))) = edit_token l
     /\ instantiation_time (final_self (get_edit_token (l, w))) = instantiation_time l)
  /\ (cookie_due l w = true ->
     outcome (get_edit_cookie (l, w)) = Raise e
     /\ edit_token (final_self (get_edit_cookie (l, w))) = edit_token l
     /\ instantiation_time (final_self (get_edit_cookie (l, w))) = instantiation_time l).
Proof.
  intros Hfail. destruct (renew_failure l w e Hfail) as (Ho & Ht & Hi).
  unfold outcome, final_self in *.
  split; intros Hdue.
  - rewrite get_edit_token_eq, Hdue.
    destruct (renew (l, w)) as [st' [e'|u]]; [|discriminate].
    cbn [fst snd] in *. injection Ho as ->. repeat split; assumption.
  - rewrite get_edit_cookie_eq, Hdue.
    destruct (renew (l, w)) as [st' [e'|u]]; [|discriminate].
    cbn [fst snd] in *. injection Ho as ->. repeat split; assumption.
Qed.

Lemma failed_refresh_keeps_token_witness :
  (outcome (get_edit_token (Sample.manager (JStr "old") 0 1800,
                            Sample.world 5000 [Sample.no_token 1]))
     = Raise (KeyError (JStr "csrftoken"))
   /\ edit_token (final_self (get_edit_token (Sample.manager (JStr "old") 0 1800,
                            Sample.world 5000 [Sample.no_token 1]))) = JStr "old"
   /\ instantiation_time (final_self (get_edit_token (Sample.manager (JStr "old") 0 1800,
                            Sample.world 5000 [Sample.no_token 1]))) = 0)
  /\ (outcome (get_edit_cookie (Sample.manager (JStr "old") 0 1800,
                            Sample.world 5000 [Sample.no_token 1]))
     = Raise (KeyError (JStr "csrftoken"))
   /\ edit_token (final_self (get_edit_cookie (Sample.manager (JStr "old") 0 1800,
                            Sample.world 5000 [Sample.no_token 1]))) = JStr "old"
   /\ instantiation_time (final_self (get_edit_cookie (Sample.manager (JStr "old") 0 1800,
                            Sample.world 5000 [Sample.no_token 1]))) = 0).
Proof.
  destruct (failed_refresh_keeps_token (Sample.manager (JStr "old") 0 1800)
              (Sample.world 5000 [Sample.no_token 1])
              (KeyError (JStr "csrftoken")) eq_refl) as [Htoken Hcookie].
  split; [apply Htoken | apply Hcookie]; reflexivity.
Defined.

(** ** What a computation leaves alone *)

Section Frames.

Variable R : St -> St -> Prop.
Hypothesis R_refl : forall st, R st st.
Hypothesis R_trans : forall st1 st2 st3, R st1 st2 -> R st2 st3 -> R st1 st3.

Lemma preserves_ret {A : Type} (a : A) : preserves R (ret a).
Proof. intros st. apply R_refl. Qed.

Lemma preserves_raise {A : Type} (e : exn) : preserves R (@raise A e).
Proof. intros st. apply R_refl. Qed.

Lemma preserves_lift {A : Type} (r : result A) : preserves R (lift r).
Proof. intros st. apply R_refl. Qed.

Lemma preserves_self : preserves R self.
Proof. intros st. apply R_refl. Qed.

Lemma preserves_time_time : preserves R time_time.
Proof. intros st. apply R_refl. Qed.

Lemma preserves_attr {A : Type} (name : string) (get : Login -> option A) :
  preserves R (attr name get).
Proof. intros st. unfold attr. destruct (get (fst st)); apply R_refl. Qed.

Lemma preserves_item (c : json) (k : string) : preserves R (item c k).
Proof. apply preserves_lift. Qed.

Lemma preserves_response_json (content : option json) :
  preserves R (response_json content).
Proof. destruct content; [apply preserves_ret | apply preserves_raise]. Qed.

Lemma preserves_split_response_qs (qs : pyarg) : preserves R (split_response_qs qs).
Proof.
  destruct qs; [apply preserves_raise | apply preserves_raise | apply preserves_lift].
Qed.

Lemma preserves_bind {A B : Type} (c : M A) (k : A -> M B) :
  preserves R c -> (forall a, preserves R (k a)) -> preserves R (bind c k).
Proof.
  intros Hc Hk st. unfold bind. specialize (Hc st).
  destruct (c st) as [st' [e|a]]; cbn [fst] in *.
  - exact Hc.
  - eapply R_trans; [exact Hc | apply Hk].
Qed.

Lemma preserves_for_each {A : Type} (items : list A) (body : A -> M unit) :
  (forall x, preserves R (body x)) -> preserves R (for_each items body).
Proof.
  intros Hbody. induction items as [|x rest IH]; cbn [for_each].
  - apply preserves_ret.
  - apply preserves_bind; [apply Hbody | intros _; exact IH].
Qed.

End Frames.

(** Splits a computation into its primitive steps; [prim] settles those,
    [side] the two properties of the relation. *)
Ltac frame_with prim side :=
  repeat
    match goal with
    | |- preserves _ (ret _) => apply preserves_ret; solve [side]
    | |- preserves _ (raise _) => apply preserves_raise; solve [side]
    | |- preserves _ (lift _) => apply preserves_lift; solve [side]
    | |- preserves _ self => apply preserves_self; solve [side]
    | |- preserves _ time_time => apply preserves_time_time; solve [side]
    | |- preserves _ (attr _ _) => apply preserves_attr; solve [side]
    | |- preserves _ (item _ _) => apply preserves_item; solve [side]
    | |- preserves _ (response_json _) => apply preserves_response_json; solve [side]
    | |- preserves _ (split_response_qs _) =>
        apply preserves_split_response_qs; solve [side]
    | |- preserves _ (bind _ _) => apply preserves_bind; [solve [side] | | intros ]
    | |- preserves _ (for_each _ _) =>
        apply preserves_for_each; [solve [side] | solve [side] | intros ]
    | |- preserves _ (if ?b then _ else _) => destruct b
    | |- preserves _ _ => solve [prim]
    end.

Lemma steady_refl (st : St) : steady st st.
Proof. unfold steady. repeat split; lia. Qed.

Lemma steady_trans (st1 st2 st3 : St) :
  steady st1 st2 -> steady st2 st3 -> steady st1 st3.
Proof.
  unfold steady. intros (H1 & H2 & H3 & H7) (H4 & H5 & H6 & H8).
  repeat split; try congruence; lia.
Qed.

Ltac steady_side := first [exact steady_refl | exact steady_trans].

Ltac steady_prim :=
  let st := fresh "st" in
  intros st; destruct st as [? ?];
  unfold steady, print, webbrowser_open, input, session_request,
    handshaker_initiate, handshaker_complete, assign, effect;
  cbn [fst snd];
  repeat split_match; cbn; repeat split; lia.

Lemma generate_steady : preserves steady generate_edit_credentials.
Proof. unfold generate_edit_credentials. frame_with steady_prim steady_side. Qed.

Lemma init_oauth_steady : preserves steady init_oauth.
Proof. unfold init_oauth. frame_with steady_prim steady_side. Qed.

Lemma get_login_token_steady : preserves steady get_login_token.
Proof. unfold get_login_token. frame_with steady_prim steady_side. Qed.

Lemma init_clientlogin_steady (user pwd : option string) (debug : bool) (tok : json) :
  preserves steady (init_clientlogin user pwd debug tok).
Proof.
  unfold init_clientlogin, clientlogin_check. frame_with steady_prim steady_side.
Qed.

Lemma init_login_steady (user pwd : option string) (debug : bool) (tok : json) :
  preserves steady (init_login user pwd debug tok).
Proof. unfold init_login, login_check. frame_with steady_prim steady_side. Qed.

Lemma init_authenticate_steady (a : Args.t) : preserves steady (init_authenticate a).
Proof.
  unfold init_authenticate, init_by_login.
  frame_with ltac:(first [ apply generate_steady | apply init_oauth_steady
                         | apply get_login_token_steady
                         | apply init_clientlogin_steady | apply init_login_steady ])
             steady_side.
Qed.

Lemma continue_oauth_steady (d : pyarg) : preserves steady (continue_oauth d).
Proof.
  unfold continue_oauth.
  frame_with ltac:(first [ apply generate_steady | steady_prim ]) steady_side.
Qed.

(** ** The constructor *)

Lemma Login_init_eq (a : Args.t) (w : World) :
  Login_init a w =
  (final_world (init_authenticate a (init_attributes a w)),
   match outcome (init_authenticate a (init_attributes a w)) with
   | Raise e => Raise e
   | Return _ => Return (final_self (init_authenticate a (init_attributes a w)))
   end).
Proof.
  unfold Login_init, final_world, final_self, outcome.
  destruct (init_authenticate a (init_attributes a w)) as [st [e|u]]; reflexivity.
Qed.

Lemma init_user_agent_clock (a : Args.t) (w : World) :
  clock (snd (init_user_agent a w)) = clock w.
Proof.
  unfold init_user_agent. repeat split_match; reflexivity.
Qed.

Lemma init_attributes_clock (a : Args.t) (w : World) :
  clock (snd (init_attributes a w)) = clock w
  /\ instantiation_time (fst (init_attributes a w)) = clock w.
Proof.
  unfold init_attributes.
  pose proof (init_user_agent_clock a
                (if Args.debug a
                 then w_stdout (Printed [Str match Args.mediawiki_api_url a with
                                           | Some url => url
                                           | None => MEDIAWIKI_API_URL w
                                           end]) w
                 else w)) as H.
  destruct (init_user_agent a _) as [ua w2]. cbn [fst snd] in *.
  destruct (Args.debug a); auto.
Qed.

(** The timestamp of a new instance is the clock reading at the start of
    the construction. *)
Lemma Login_init_timestamp (a : Args.t) (w w' : World) (l : Login) :
  Login_init a w = (w', Return l) ->
  instantiation_time l = clock w /\ clock w <= clock w'.
Proof.
  rewrite Login_init_eq. intros H.
  pose proof (init_authenticate_steady a (init_attributes a w)) as (Ht & Hc & _).
  destruct (init_attributes_clock a w) as [Hc0 Ht0].
  unfold final_world, final_self, outcome in H.
  destruct (init_authenticate a (init_attributes a w)) as [[l1 w1] [e|u]];
    cbn [fst snd] in *; [discriminate|].
  injection H as <- <-. split; [congruence | lia].
Qed.

(** [continue_oauth] never stamps. *)
Lemma continue_oauth_keeps_instantiation_time (d : pyarg) (l : Login) (w : World) :
  instantiation_time (final_self (continue_oauth d (l, w))) = instantiation_time l.
Proof.
  exact (proj1 (continue_oauth_steady d (l, w))).
Qed.

(** C3, as stated, fails for the refresh of the constructor: the instance is
    stamped with the clock reading 100 taken before the login, and the token
    arrives three replies later, at 103. *)
Lemma construction_timestamp_counterexample :
  match Login_init Sample.password (Sample.world 100 Sample.friendly) with
  | (w', Return l) =>
      edit_token l = JStr "abc+\"
      /\ instantiation_time l = 100
      /\ clock w' = 103
      /\ instantiation_time l <> clock w'
  | (_, Raise _) => False
  end.
Proof.
  vm_compute. split; [reflexivity|]. split; [reflexivity|].
  split; [reflexivity|]. discriminate.
Qed.

(** C3, amended. [generate_edit_credentials] replaces the token and leaves
    the timestamp to its callers: an accessor that renewed and returns has
    stamped the instance with the clock reading that follows the reply, and
    a new instance carries the clock reading of the start of its
    construction, which is not later than the time its token arrived. *)
Theorem timestamp_is_set_by_callers (a : Args.t) (l : Login) (w : World) :
  instantiation_time (final_self (generate_edit_credentials (l, w))) = instantiation_time l
  /\ (token_due l w = true ->
      forall tok, outcome (get_edit_token (l, w)) = Return tok ->
        edit_token (final_self (get_edit_token (l, w))) = tok
        /\ instantiation_time (final_self (get_edit_token (l, w)))
           = clock (final_world (get_edit_token (l, w))))
  /\ (cookie_due l w = true ->
      forall c, outcome (get_edit_cookie (l, w)) = Return c ->
        instantiation_time (final_self (get_edit_cookie (l, w)))
        = clock (final_world (get_edit_cookie (l, w))))
  /\ (forall l' w', Login_init a w = (w', Return l') ->
        instantiation_time l' = clock w /\ clock w <= clock w').
Proof.
  split; [apply generate_keeps_instantiation_time|].
  assert (Hrenew : forall u, outcome (renew (l, w)) = Return u ->
            exists tok, next_csrftoken w = Return tok).
  { intros u Hu. destruct (next_csrftoken w) as [e|tok] eqn:Hnext; [|eauto].
    destruct (renew_failure l w e Hnext) as [Ho _]. congruence. }
  split; [|split].
  - intros Hdue tok. rewrite get_edit_token_eq, Hdue.
    unfold outcome, final_self, final_world in *.
    destruct (renew (l, w)) as [st' [e|u]] eqn:Hr; cbn [fst snd]; [discriminate|].
    intros Heq. injection Heq as <-. split; [reflexivity|].
    destruct (Hrenew u eq_refl) as [tok Hnext].
    destruct (renew_success l w tok Hnext) as (_ & _ & Hi).
    unfold final_self, final_world in Hi. rewrite Hr in Hi. exact Hi.
  - intros Hdue c. rewrite get_edit_cookie_eq, Hdue.
    unfold outcome, final_self, final_world in *.
    destruct (renew (l, w)) as [st' [e|u]] eqn:Hr; cbn [fst snd]; [discriminate|].
    intros _.
    destruct (Hrenew u eq_refl) as [tok Hnext].
    destruct (renew_success l w tok Hnext) as (_ & _ & Hi).
    unfold final_self, final_world in Hi. rewrite Hr in Hi. exact Hi.
  - intros l' w'. apply Login_init_timestamp.
Qed.

Lemma timestamp_is_set_by_callers_witness :
  instantiation_time (final_self (get_edit_token
     (Sample.manager (JStr "old") 0 1800,
      Sample.world 5000 [Sample.tokens "csrftoken" "new" 7]))) = 5007
  /\ instantiation_time (final_self (get_edit_cookie
     (Sample.manager (JStr "old") 0 1800,
      Sample.world 5000 [Sample.tokens "csrftoken" "new" 7]))) = 5007.
Proof.
  destruct (timestamp_is_set_by_callers Sample.password
              (Sample.manager (JStr "old") 0 1800)
              (Sample.world 5000 [Sample.tokens "csrftoken" "new" 7]))
    as (_ & Htoken & Hcookie & _).
  split.
  - rewrite (proj2 (Htoken eq_refl (JStr "new") eq_refl)). reflexivity.
  - rewrite (Hcookie eq_refl [("session", "c0")] eq_refl). reflexivity.
Defined.

(** ** The shared default user agent *)

Lemma prefix_refl (p : string) : prefix p p = true.
Proof.
  induction p as [|c p IH]; cbn; [reflexivity|].
  destruct (ascii_dec c c); [exact IH | contradiction].
Qed.

Lemma prefix_app (p q : string) : prefix p (p ++ q) = true.
Proof.
  induction p as [|c p IH]; cbn; [destruct q; reflexivity|].
  destruct (ascii_dec c c); [exact IH | contradiction].
Qed.

Lemma prefix_trans (p q r : string) :
  prefix p q = true -> prefix q r = true -> prefix p r = true.
Proof.
  revert q r. induction p as [|c p IH]; intros q r Hpq Hqr;
    [destruct r; reflexivity|].
  destruct q as [|d q]; cbn in Hpq; [discriminate|].
  destruct r as [|e r]; cbn in Hqr; [discriminate|].
  destruct (ascii_dec c d) as [->|]; [|discriminate].
  destruct (ascii_dec d e) as [->|]; [|discriminate].
  cbn. destruct (ascii_dec e e); [|contradiction].
  eapply IH; eassumption.
Qed.

(** The constructor appends to the default or leaves it. *)
Lemma init_user_agent_default (a : Args.t) (w : World) :
  USER_AGENT_DEFAULT (snd (init_user_agent a w)) =
  if (negb (Py.truthy_str (Args.user_agent a))
      && Py.truthy_str (Args.user a)
      && negb (Py.substring (Py.casefold (Py.text_of (Args.user a)))
                            (Py.casefold (USER_AGENT_DEFAULT w))))%bool
  then USER_AGENT_DEFAULT w ++ " (User:" ++ Py.text_of (Args.user a) ++ ")"
  else USER_AGENT_DEFAULT w.
Proof.
  unfold init_user_agent.
  destruct (Py.truthy_str (Args.user_agent a)); cbn [negb andb snd]; [reflexivity|].
  destruct (Py.truthy_str (Args.user a)); cbn [negb andb snd]; [|reflexivity].
  destruct (Py.substring _ _); reflexivity.
Qed.

(** Without a [user_agent] argument the instance takes the default as it
    is after the update. *)
Lemma init_user_agent_omitted (a : Args.t) (w : World) :
  Py.truthy_str (Args.user_agent a) = false ->
  fst (init_user_agent a w) = USER_AGENT_DEFAULT (snd (init_user_agent a w)).
Proof.
  intros H. unfold init_user_agent. rewrite H. reflexivity.
Qed.

Lemma init_attributes_user_agent (a : Args.t) (w : World) :
  USER_AGENT_DEFAULT (snd (init_attributes a w))
  = USER_AGENT_DEFAULT (snd (init_user_agent a w))
  /\ (Py.truthy_str (Args.user_agent a) = false ->
      user_agent (fst (init_attributes a w))
      = USER_AGENT_DEFAULT (snd (init_attributes a w))).
Proof.
  unfold init_attributes.
  destruct (Args.debug a).
  - set (w1 := w_stdout _ w).
    pose proof (init_user_agent_default a w1) as H1.
    pose proof (init_user_agent_default a w) as H0.
    pose proof (init_user_agent_omitted a w1) as Ho.
    destruct (init_user_agent a w1) as [ua w2]. cbn [fst snd] in *.
    split; [rewrite H1, H0; reflexivity | exact Ho].
  - pose proof (init_user_agent_omitted a w) as Ho.
    destruct (init_user_agent a w) as [ua w2]. cbn [fst snd] in *.
    split; [reflexivity | exact Ho].
Qed.

Lemma Login_init_user_agent_default (a : Args.t) (w : World) :
  USER_AGENT_DEFAULT (fst (Login_init a w))
  = USER_AGENT_DEFAULT (snd (init_user_agent a w)).
Proof.
  rewrite Login_init_eq. cbn [fst].
  pose proof (init_authenticate_steady a (init_attributes a w)) as (_ & _ & Hua & _).
  unfold final_world. cbn [fst snd] in *. rewrite Hua.
  apply init_attributes_user_agent.
Qed.

Lemma Login_init_user_agent (a : Args.t) (w : World) (l : Login) :
  Py.truthy_str (Args.user_agent a) = false ->
  snd (Login_init a w) = Return l ->
  user_agent l = USER_AGENT_DEFAULT (fst (Login_init a w)).
Proof.
  intros Hom. rewrite Login_init_user_agent_default. rewrite Login_init_eq. cbn [snd].
  pose proof (init_authenticate_steady a (init_attributes a w)) as (_ & _ & _ & Hua).
  unfold outcome, final_self.
  destruct (init_authenticate a (init_attributes a w)) as [[l1 w1] [e|u]];
    cbn [fst snd] in *; [discriminate|].
  intros H. injection H as <-. rewrite Hua.
  rewrite (proj2 (init_attributes_user_agent a w) Hom).
  apply init_attributes_user_agent.
Qed.

(** The default only grows. *)
Lemma Login_init_grows (a : Args.t) (w : World) :
  prefix (USER_AGENT_DEFAULT w) (USER_AGENT_DEFAULT (fst (Login_init a w))) = true.
Proof.
  rewrite Login_init_user_agent_default, init_user_agent_default.
  destruct (_ && _ && _)%bool; [apply prefix_app | apply prefix_refl].
Qed.

Lemma after_constructions_grows (calls : list Args.t) (w : World) :
  prefix (USER_AGENT_DEFAULT w) (USER_AGENT_DEFAULT (after_constructions calls w)) = true.
Proof.
  revert w. induction calls as [|a later IH]; intros w; cbn [after_constructions].
  - apply prefix_refl.
  - eapply prefix_trans; [apply Login_init_grows | apply IH].
Qed.

(** C10. A construction without [user_agent], for a user whose casefolded
    name does not occur in the casefolded default user agent, replaces
    [config['USER_AGENT_DEFAULT']] by itself followed by [" (User:<user>)"],
    whatever the outcome of the login; the user agent of every instance
    built later without [user_agent] starts with that value. In every other
    case the construction leaves the shared value as it is. *)
Theorem user_agent_default_is_shared (a : Args.t) (w : World) :
  (Py.truthy_str (Args.user_agent a) = false ->
   Py.truthy_str (Args.user a) = true ->
   Py.substring (Py.casefold (Py.text_of (Args.user a)))
                (Py.casefold (USER_AGENT_DEFAULT w)) = false ->
   USER_AGENT_DEFAULT (fst (Login_init a w))
   = USER_AGENT_DEFAULT w ++ " (User:" ++ Py.text_of (Args.user a) ++ ")"
   /\ forall (between : list Args.t) (a' : Args.t) (l' : Login),
        Py.truthy_str (Args.user_agent a') = false ->
        snd (Login_init a' (after_constructions between (fst (Login_init a w)))) = Return l' ->
        prefix (USER_AGENT_DEFAULT w ++ " (User:" ++ Py.text_of (Args.user a) ++ ")")
               (user_agent l') = true)
  /\ (Py.truthy_str (Args.user_agent a) = true
      \/ Py.truthy_str (Args.user a) = false
      \/ Py.substring (Py.casefold (Py.text_of (Args.user a)))
                      (Py.casefold (USER_AGENT_DEFAULT w)) = true ->
      USER_AGENT_DEFAULT (fst (Login_init a w)) = USER_AGENT_DEFAULT w).
Proof.
  split.
  - intros Hom Huser Hnew.
    assert (Hdef : USER_AGENT_DEFAULT (fst (Login_init a w))
                   = USER_AGENT_DEFAULT w ++ " (User:" ++ Py.text_of (Args.user a) ++ ")").
    { rewrite Login_init_user_agent_default, init_user_agent_default.
      rewrite Hom, Huser, Hnew. reflexivity. }
    split; [exact Hdef|].
    intros between a' l' Hom' Hret.
    rewrite (Login_init_user_agent a' _ l' Hom' Hret), <- Hdef.
    eapply prefix_trans; [apply after_constructions_grows | apply Login_init_grows].
  - intros Hcase.
    rewrite Login_init_user_agent_default, init_user_agent_default.
    destruct Hcase as [H | [H | H]]; rewrite H; cbn [negb andb]; try reflexivity.
    + destruct (negb _); reflexivity.
    + rewrite andb_false_r. reflexivity.
Qed.

Lemma user_agent_default_is_shared_witness :
  USER_AGENT_DEFAULT (fst (Login_init Sample.password (Sample.world 0 [])))
  = "WikibaseIntegrator/0.9 (User:alice)"
  /\ USER_AGENT_DEFAULT (fst (Login_init (Sample.oauth None None) (Sample.world 0 [])))
     = "WikibaseIntegrator/0.9".
Proof.
  split.
  - apply (user_agent_default_is_shared Sample.password (Sample.world 0 [])); reflexivity.
  - apply (user_agent_default_is_shared (Sample.oauth None None) (Sample.world 0 [])).
    left. reflexivity.
Defined.


(** ** Which strategy the constructor takes *)

Lemma same_refl {X : Type} (proj : St -> X) (st : St) : same proj st st.
Proof. reflexivity. Qed.

Lemma same_trans {X : Type} (proj : St -> X) (st1 st2 st3 : St) :
  same proj st1 st2 -> same proj st2 st3 -> same proj st1 st3.
Proof. unfold same. congruence. Qed.

Ltac same_side := first [exact (same_refl _) | exact (same_trans _)].

Ltac same_prim :=
  let st := fresh "st" in
  intros st; destruct st as [? ?];
  unfold same, print, webbrowser_open, input, session_request,
    handshaker_initiate, handshaker_complete, assign, effect;
  cbn [fst snd];
  repeat split_match; reflexivity.

(** What follows a request without sending another leaves one request on
    the wire. *)
Lemma request_then {A : Type} (v : verb) (url : string) (fields : list (string * json))
    (k : option json -> M A) (l : Login) (w : World) :
  (forall r, preserves (same sent_of) (k r)) ->
  sent (final_world (bind (session_request v url fields) k (l, w)))
  = request_of l v url fields :: sent w.
Proof.
  intros Hk. unfold bind, session_request, final_world. cbn [fst snd].
  destruct (net w) as [|r rest]; [reflexivity|].
  destruct (payload r) as [|ck content]; [reflexivity|].
  match goal with |- context [k ?r ?st] => exact (Hk r st) end.
Qed.

Lemma get_login_token_sent (l : Login) (w : World) :
  sent (final_world (get_login_token (l, w)))
  = request_of l POST (mediawiki_api_url l) login_token_query :: sent w.
Proof.
  unfold get_login_token. unfold bind at 1. unfold self at 1. cbn [fst snd].
  apply request_then. intros r. frame_with same_prim same_side.
Qed.

Lemma init_clientlogin_sent (user pwd : option string) (debug : bool) (tok : json)
    (l : Login) (w : World) :
  sent (final_world (init_clientlogin user pwd debug tok (l, w)))
  = request_of l POST (mediawiki_api_url l) (clientlogin_params user pwd tok) :: sent w.
Proof.
  unfold init_clientlogin. unfold bind at 1. unfold self at 1. cbn [fst snd].
  apply request_then. intros r. unfold clientlogin_check.
  frame_with same_prim same_side.
Qed.

Lemma init_login_sent (user pwd : option string) (debug : bool) (tok : json)
    (l : Login) (w : World) :
  sent (final_world (init_login user pwd debug tok (l, w)))
  = request_of l POST (mediawiki_api_url l) (login_params user pwd tok) :: sent w.
Proof.
  unfold init_login. unfold bind at 1. unfold self at 1. cbn [fst snd].
  apply request_then. intros r. unfold login_check.
  frame_with same_prim same_side.
Qed.

(** The login branch never talks to the handshake provider. *)
Lemma init_by_login_no_handshake (a : Args.t) :
  preserves (same hs_calls_of) (init_by_login a).
Proof.
  unfold init_by_login, get_login_token, init_clientlogin, clientlogin_check,
    init_login, login_check, generate_edit_credentials.
  frame_with same_prim same_side.
Qed.

(** A login branch that returns went through its three steps. *)
Lemma init_by_login_returns (a : Args.t) (st st' : St) :
  init_by_login a st = (st', Return tt) ->
  exists (st1 st2 : St) (tok : json) (c : jar),
    get_login_token st = (st1, Return tok)
    /\ (if Args.use_clientlogin a
        then init_clientlogin (Args.user a) (Args.pwd a) (Args.debug a) tok
        else init_login (Args.user a) (Args.pwd a) (Args.debug a) tok) st1
       = (st2, Return tt)
    /\ generate_edit_credentials st2 = (st', Return c).
Proof.
  unfold init_by_login, bind, ret.
  destruct (get_login_token st) as [st1 [e|tok]]; [discriminate|].
  match goal with
  | |- context [match ?c st1 with _ => _ end] =>
      destruct (c st1) as [st2 [e|[]]] eqn:Hlogin; [discriminate|]
  end.
  destruct (generate_edit_credentials st2) as [st3 [e|c]] eqn:Hgen; [discriminate|].
  intros H. injection H as <-. exists st1, st2, tok, c. auto.
Qed.

Lemma init_attributes_world (a : Args.t) (w : World) :
  net (snd (init_attributes a w)) = net w
  /\ sent (snd (init_attributes a w)) = sent w
  /\ initiations (snd (init_attributes a w)) = initiations w
  /\ hs_calls (snd (init_attributes a w)) = hs_calls w.
Proof.
  unfold init_attributes, init_user_agent.
  repeat split_match; cbn; auto.
Qed.

Lemma init_attributes_self (a : Args.t) (w : World) :
  consumer_key (fst (init_attributes a w)) = Args.consumer_key a
  /\ consumer_secret (fst (init_attributes a w)) = Args.consumer_secret a
  /\ callback_url (fst (init_attributes a w)) = Args.callback_url a
  /\ edit_token (fst (init_attributes a w)) = JStr "".
Proof.
  unfold init_attributes. destruct (init_user_agent a _). cbn. auto.
Qed.

(** The OAuth branch: one call to the provider, nothing on the wire, no
    token. *)
Lemma init_oauth_run (l : Login) (w : World) :
  sent (final_world (init_oauth (l, w))) = sent w
  /\ (exists h, hs_calls (final_world (init_oauth (l, w)))
                = Initiate h (callback_url l) :: hs_calls w)
  /\ edit_token (final_self (init_oauth (l, w))) = edit_token l
  /\ (outcome (init_oauth (l, w)) = Return tt ->
      exists r rest rd rt,
        initiations w = r :: rest /\ payload r = Some (rd, rt)
        /\ redirect (final_self (init_oauth (l, w))) = Some rd
        /\ request_token (final_self (init_oauth (l, w))) = Some rt).
Proof.
  unfold init_oauth, handshaker_initiate, final_world, final_self, outcome,
    bind, self, assign.
  cbn [fst snd].
  destruct (initiations w) as [|r rest] eqn:Hin; cbn [fst snd].
  - split; [reflexivity|]. split; [eexists; reflexivity|].
    split; [reflexivity | discriminate].
  - destruct (payload r) as [[rd rt]|] eqn:Hp; cbn [fst snd].
    + split; [reflexivity|]. split; [eexists; reflexivity|].
      split; [reflexivity|]. intros _. exists r, rest, rd, rt. auto.
    + split; [reflexivity|]. split; [eexists; reflexivity|].
      split; [reflexivity | discriminate].
Qed.

Lemma init_authenticate_eq (a : Args.t) (st : St) :
  init_authenticate a st =
  if (Py.truthy_str (consumer_key (fst st)) && Py.truthy_str (consumer_secret (fst st)))%bool
  then init_oauth st
  else init_by_login a st.
Proof.
  unfold init_authenticate, bind, self. cbn [fst snd].
  destruct (_ && _)%bool; reflexivity.
Qed.

Lemma Login_init_branch (a : Args.t) (w : World) :
  init_authenticate a (init_attributes a w) =
  if (Py.truthy_str (Args.consumer_key a) && Py.truthy_str (Args.consumer_secret a))%bool
  then init_oauth (init_attributes a w)
  else init_by_login a (init_attributes a w).
Proof.
  rewrite init_authenticate_eq.
  destruct (init_attributes_self a w) as (-> & -> & _). reflexivity.
Qed.

Lemma session_request_answer (v : verb) (url : string) (fields : list (string * json))
    (l : Login) (w : World) (r : Reply answer) (rest : list (Reply answer))
    (ck : jar) (content : option json) :
  net w = r :: rest ->
  payload r = Answer ck content ->
  session_request v url fields (l, w)
  = ((with_s l (set_cookies_of (s l) (store_cookies ck (cookies (s l)))),
      w_request (request_of l v url fields) (delay r) rest w),
     Return content).
Proof.
  intros Hnet Hp. unfold session_request. cbn [fst snd]. rewrite Hnet, Hp. reflexivity.
Qed.

Lemma get_login_token_answer (l : Login) (w : World) (r : Reply answer)
    (rest : list (Reply answer)) (ck : jar) (content : option json) :
  net w = r :: rest ->
  payload r = Answer ck content ->
  get_login_token (l, w)
  = ((with_s l (set_cookies_of (s l) (store_cookies ck (cookies (s l)))),
      w_request (request_of l POST (mediawiki_api_url l) login_token_query) (delay r) rest w),
     token_field "logintoken" content).
Proof.
  intros Hnet Hp. unfold get_login_token. unfold bind at 1. unfold self at 1.
  cbn [fst snd]. unfold bind at 1.
  rewrite (session_request_answer _ _ _ l w r rest ck content Hnet Hp).
  unfold token_field, response_json, item, lift, bind, ret, raise.
  repeat split_match; try reflexivity; congruence.
Qed.

(** The checks of the login reply only print. *)
Lemma check_of_hushed (a : Args.t) (login_result : json) :
  preserves (same hushed_of) (check_of a login_result).
Proof.
  unfold check_of, clientlogin_check, login_check.
  destruct (Args.use_clientlogin a); frame_with same_prim same_side.
Qed.

(** The login-token request, spelled out on the reply of the server. *)
Lemma get_login_token_eq (l : Login) (w : World) :
  get_login_token (l, w) =
  match net w with
  | [] => ((l, w_request (request_of l POST (mediawiki_api_url l) login_token_query) 0 [] w),
           Raise RequestException)
  | r :: rest =>
      match payload r with
      | NoAnswer =>
          ((l, w_request (request_of l POST (mediawiki_api_url l) login_token_query)
                 (delay r) rest w),
           Raise RequestException)
      | Answer ck content =>
          ((received l ck,
            w_request (request_of l POST (mediawiki_api_url l) login_token_query)
              (delay r) rest w),
           token_field "logintoken" content)
      end
  end.
Proof.
  destruct (net w) as [|r rest] eqn:Hnet.
  - unfold get_login_token, bind, self, session_request. cbn [fst snd].
    rewrite Hnet. reflexivity.
  - destruct (payload r) as [|ck content] eqn:Hp.
    + unfold get_login_token, bind, self, session_request. cbn [fst snd].
      rewrite Hnet, Hp. reflexivity.
    + exact (get_login_token_answer l w r rest ck content Hnet Hp).
Qed.

(** The login request of either kind, spelled out on the reply of the
    server: a reply that is JSON goes to the check of lines 112-123 or
    136-147. *)
Lemma login_request_eq (a : Args.t) (tok : json) (l : Login) (w : World) :
  (if Args.use_clientlogin a
   then init_clientlogin (Args.user a) (Args.pwd a) (Args.debug a) tok
   else init_login (Args.user a) (Args.pwd a) (Args.debug a) tok) (l, w) =
  match net w with
  | [] => ((l, w_request (request_of l POST (mediawiki_api_url l) (params_of a tok)) 0 [] w),
           Raise RequestException)
  | r :: rest =>
      match payload r with
      | NoAnswer =>
          ((l, w_request (request_of l POST (mediawiki_api_url l) (params_of a tok))
                 (delay r) rest w),
           Raise RequestException)
      | Answer ck None =>
          ((received l ck,
            w_request (request_of l POST (mediawiki_api_url l) (params_of a tok))
              (delay r) rest w),
           Raise JSONDecodeError)
      | Answer ck (Some login_result) =>
          check_of a login_result
            (received l ck,
             w_request (request_of l POST (mediawiki_api_url l) (params_of a tok))
               (delay r) rest w)
      end
  end.
Proof.
  unfold check_of, params_of, init_clientlogin, init_login.
  destruct (Args.use_clientlogin a);
    unfold bind at 1; unfold self at 1; cbn [fst snd];
    unfold bind at 1; unfold session_request; cbn [fst snd];
    (destruct (net w) as [|r rest]; [reflexivity|]);
    (destruct (payload r) as [|ck [login_result|]]; reflexivity).
Qed.

Lemma get_edit_token_no_handshake : preserves (same hs_calls_of) get_edit_token.
Proof.
  unfold get_edit_token, renew, generate_edit_credentials.
  frame_with same_prim same_side.
Qed.

(** C6, as stated, fails in one clause: the edit token does not stay empty
    until the handshake is completed. On the instance that an OAuth
    construction returns, [get_edit_token] sends the token query and stores
    the token of the reply, and the provider has only seen the
    initiation. *)
Lemma token_before_completion_counterexample :
  match Login_init (Sample.oauth (Some "ck") (Some "cs"))
          (Sample.provider 0 [Sample.granted] [] [Sample.tokens "csrftoken" "+\" 1] []) with
  | (w', Return l) =>
      edit_token l = JStr ""
      /\ outcome (get_edit_token (l, w')) = Return (JStr "+\")
      /\ edit_token (final_self (get_edit_token (l, w'))) = JStr "+\"
      /\ hs_calls (final_world (get_edit_token (l, w')))
         = [Initiate (handshaker_of (Sample.oauth (Some "ck") (Some "cs"))
                        (Sample.provider 0 [] [] [] []) "bot/1.0") "oob"]
  | (_, Raise _) => False
  end.
Proof. vm_compute. repeat split. Qed.

(** C6, amended. With a non-empty consumer key and a non-empty consumer
    secret the constructor only initiates the handshake: nothing is sent to
    the API, the provider is called once, and the instance it returns holds
    the redirect URL and the request token of the provider's reply and an
    empty edit token. The token is empty when the constructor returns, not
    until the handshake is completed: [get_edit_token] on that instance, in
    any world, sends the token query without a call to the provider, and
    stores and returns the token of the reply. Without one of the two
    credentials the provider is not called, and an instance is returned only
    after three requests: the login-token request, the login (or
    clientlogin) request carrying the token of the first reply, and the
    token query, whose reply holds the edit token of the returned
    instance. *)
Theorem construction_selects_strategy (a : Args.t) (w : World) :
  ((Py.truthy_str (Args.consumer_key a) && Py.truthy_str (Args.consumer_secret a))%bool = true ->
     sent (fst (Login_init a w)) = sent w
     /\ (exists h, hs_calls (fst (Login_init a w))
                   = Initiate h (Args.callback_url a) :: hs_calls w)
     /\ forall l, snd (Login_init a w) = Return l ->
          edit_token l = JStr ""
          /\ (exists r rest rd rt,
                initiations w = r :: rest /\ payload r = Some (rd, rt)
                /\ redirect l = Some rd /\ request_token l = Some rt)
          /\ forall w2,
               sent (final_world (get_edit_token (l, w2))) = token_request l :: sent w2
               /\ hs_calls (final_world (get_edit_token (l, w2))) = hs_calls w2
               /\ forall tok, next_csrftoken w2 = Return tok ->
                    outcome (get_edit_token (l, w2)) = Return tok
                    /\ edit_token (final_self (get_edit_token (l, w2))) = tok)
  /\ ((Py.truthy_str (Args.consumer_key a) && Py.truthy_str (Args.consumer_secret a))%bool = false ->
     hs_calls (fst (Login_init a w)) = hs_calls w
     /\ forall l, snd (Login_init a w) = Return l ->
          exists (tok : json) (first second third : Request),
            token_from "logintoken" (net w) = Return tok
            /\ sent (fst (Login_init a w)) = third :: second :: first :: sent w
            /\ req_verb first = POST /\ req_fields first = login_token_query
            /\ req_verb second = POST
            /\ req_fields second
               = (if Args.use_clientlogin a
                  then clientlogin_params (Args.user a) (Args.pwd a) tok
                  else login_params (Args.user a) (Args.pwd a) tok)
            /\ req_verb third = GET /\ req_fields third = token_query
            /\ csrftoken_from (skipn 2 (net w)) = Return (edit_token l)).
Proof.
  rewrite Login_init_eq, Login_init_branch. cbn [fst snd].
  destruct (init_attributes_world a w) as (Hnet & Hsent & Hinit & Hhs).
  destruct (init_attributes_self a w) as (_ & _ & Hcb & Htok).
  split; intros Hkeys; rewrite Hkeys.
  - destruct (init_attributes a w) as [l0 w0]. cbn [fst snd] in *.
    destruct (init_oauth_run l0 w0) as (Hs & Hh & He & Hr).
    rewrite Hs, Hsent. split; [reflexivity|].
    split.
    { destruct Hh as [h Hh]. exists h. rewrite Hh, Hcb, Hhs. reflexivity. }
    intros l Hl. unfold outcome, final_self in *.
    destruct (init_oauth (l0, w0)) as [[l1 w1] [e|[]]]; cbn [fst snd] in *;
      [discriminate|].
    injection Hl as <-.
    assert (Hempty : edit_token l1 = JStr "") by congruence.
    split; [exact Hempty|]. split.
    { destruct (Hr eq_refl) as (r & rest & rd & rt & H1 & H2 & H3 & H4).
      exists r, rest, rd, rt. rewrite <- Hinit. auto. }
    intros w2.
    assert (Hdue : token_due l1 w2 = true).
    { unfold token_due. rewrite Hempty. reflexivity. }
    split; [rewrite get_edit_token_sent, Hdue; reflexivity|].
    split; [exact (get_edit_token_no_handshake (l1, w2))|].
    intros tok Hnext. rewrite get_edit_token_eq, Hdue.
    destruct (renew_success l1 w2 tok Hnext) as (Ho & Ht & _).
    unfold outcome, final_self in *.
    destruct (renew (l1, w2)) as [st' [e|u]]; [discriminate|].
    cbn [fst snd] in *. rewrite Ht. auto.
  - split.
    { pose proof (init_by_login_no_handshake a (init_attributes a w)) as H.
      unfold same, hs_calls_of in H. unfold final_world. rewrite H. exact Hhs. }
    intros l Hl. unfold outcome, final_self, final_world in *.
    destruct (init_by_login a (init_attributes a w)) as [[l3 w3] [e|[]]] eqn:Hrun;
      cbn [fst snd] in *; [discriminate|].
    injection Hl as <-.
    destruct (init_by_login_returns a _ _ Hrun) as (st1 & st2 & tok & c & H1 & H2 & H3).
    destruct (init_attributes a w) as [l0 w0]. cbn [fst snd] in *.
    rewrite get_login_token_eq in H1.
    destruct (net w0) as [|r1 rest1] eqn:Hn0; [discriminate|].
    destruct (payload r1) as [|ck1 c1] eqn:Hp1; [discriminate|].
    injection H1 as <- Hlt.
    rewrite login_request_eq in H2. cbn [net w_request] in H2.
    destruct rest1 as [|r2 rest]; [discriminate|].
    destruct (payload r2) as [|ck2 [login_result|]] eqn:Hp2; try discriminate.
    pose proof (check_of_hushed a login_result
                  (received (received l0 ck1) ck2,
                   w_request (request_of (received l0 ck1) POST
                                (mediawiki_api_url (received l0 ck1)) (params_of a tok))
                     (delay r2) rest
                     (w_request (request_of l0 POST (mediawiki_api_url l0) login_token_query)
                        (delay r1) (r2 :: rest) w0))) as Hh.
    rewrite H2 in Hh. unfold same, hushed_of in Hh. cbn [fst snd] in Hh.
    destruct st2 as [l2 w2].
    pose proof (f_equal (fun x => net (snd x)) Hh) as Hnet2.
    pose proof (f_equal (fun x => sent (snd x)) Hh) as Hsent2.
    cbn [fst snd net sent hush w_request] in Hnet2, Hsent2. clear Hh.
    pose proof (generate_sent l2 w2) as Hgs.
    pose proof (generate_outcome l2 w2) as Hgo.
    pose proof (generate_edit_token l2 w2) as Hgt.
    unfold final_world, final_self, outcome, next_csrftoken in Hgs, Hgo, Hgt.
    rewrite H3 in Hgs, Hgo, Hgt. cbn [fst snd] in Hgs, Hgo, Hgt.
    rewrite Hnet2 in Hgo, Hgt.
    destruct (csrftoken_from rest) as [e|csrftoken] eqn:Hcsrf; [discriminate|].
    exists tok. eexists. eexists. eexists.
    split.
    { unfold token_from. rewrite <- Hnet, Hp1. exact Hlt. }
    split.
    { rewrite Hgs, Hsent2, Hsent. reflexivity. }
    unfold token_request, request_of, params_of.
    cbn [req_verb req_fields].
    rewrite <- Hnet. cbn [skipn]. rewrite Hcsrf, Hgt.
    repeat split.
Qed.

Lemma construction_selects_strategy_witness :
  sent (fst (Login_init (Sample.oauth (Some "ck") (Some "cs"))
               (Sample.provider 0 [Sample.granted] [] [] []))) = []
  /\ hs_calls (fst (Login_init Sample.password (Sample.world 0 Sample.friendly))) = [].
Proof.
  split.
  - apply (construction_selects_strategy (Sample.oauth (Some "ck") (Some "cs"))
             (Sample.provider 0 [Sample.granted] [] [] [])).
    reflexivity.
  - apply (construction_selects_strategy Sample.password (Sample.world 0 Sample.friendly)).
    reflexivity.
Defined.

(** ** The clientlogin reply *)

Lemma init_clientlogin_answer (user pwd : option string) (debug : bool) (tok : json)
    (l : Login) (w : World) (r : Reply answer) (rest : list (Reply answer))
    (ck : jar) (login_result : json) :
  net w = r :: rest ->
  payload r = Answer ck (Some login_result) ->
  init_clientlogin user pwd debug tok (l, w)
  = clientlogin_check debug login_result
      (with_s l (set_cookies_of (s l) (store_cookies ck (cookies (s l)))),
       w_request (request_of l POST (mediawiki_api_url l) (clientlogin_params user pwd tok))
         (delay r) rest w).
Proof.
  intros Hnet Hp. unfold init_clientlogin. unfold bind at 1. unfold self at 1.
  cbn [fst snd]. unfold bind at 1.
  rewrite (session_request_answer _ _ _ l w r rest ck _ Hnet Hp).
  reflexivity.
Qed.

(** A key that can be looked up is a key that is [in] the value. *)
Lemma getitem_contains (c v : json) (k : string) :
  Py.getitem c (JStr k) = Return v -> Py.contains k c = Return true.
Proof.
  destruct c; cbn; try discriminate.
  destruct (Py.assoc k kvs); [reflexivity | discriminate].
Qed.

Lemma clientlogin_check_offline (debug : bool) (login_result : json) :
  preserves (same net_of) (clientlogin_check debug login_result)
  /\ preserves (same sent_of) (clientlogin_check debug login_result).
Proof.
  split; unfold clientlogin_check; frame_with same_prim same_side.
Qed.

(** A [clientlogin] block with status PASS. *)
Lemma clientlogin_check_pass (debug : bool) (login_result block status : json) (st : St) :
  Py.getitem login_result (JStr "clientlogin") = Return block ->
  Py.getitem block (JStr "status") = Return status ->
  Py.eq_str status "PASS" = true ->
  (debug = false \/ exists username, Py.getitem block (JStr "username") = Return username) ->
  outcome (clientlogin_check debug login_result st) = Return tt.
Proof.
  intros Hb Hs Heq Hdebug.
  unfold clientlogin_check, outcome, bind, item, lift, ret, raise, print, effect.
  rewrite (getitem_contains _ _ _ Hb).
  destruct debug; cbn [fst snd]; rewrite Hb, Hs, Heq; cbn [negb].
  - destruct Hdebug as [Hd | [username Hu]]; [discriminate|].
    rewrite Hu. reflexivity.
  - reflexivity.
Qed.

Lemma bind_raise {A B : Type} (c : M A) (k : A -> M B) (st : St) (e : exn) :
  outcome (c st) = Raise e -> outcome (bind c k st) = Raise e.
Proof.
  unfold outcome, bind. destruct (c st) as [st' [e'|x]]; cbn [snd]; congruence.
Qed.

Lemma bind_raise_state {A B : Type} (c : M A) (k : A -> M B) (st : St) (e : exn) :
  outcome (c st) = Raise e -> fst (bind c k st) = fst (c st).
Proof.
  unfold outcome, bind. destruct (c st) as [st' [e'|x]]; cbn [fst snd]; [reflexivity|discriminate].
Qed.

Lemma bind_return {A B : Type} (c : M A) (k : A -> M B) (st st' : St) (x : A) :
  c st = (st', Return x) -> bind c k st = k x st'.
Proof.
  unfold bind. intros ->. reflexivity.
Qed.

(** The constructor up to the reply to the clientlogin request. *)
Lemma Login_init_clientlogin (a : Args.t) (w : World) (r1 r2 : Reply answer)
    (rest : list (Reply answer)) (ck1 ck2 : jar) (j1 login_token login_result : json) :
  (Py.truthy_str (Args.consumer_key a) && Py.truthy_str (Args.consumer_secret a))%bool = false ->
  Args.use_clientlogin a = true ->
  net w = r1 :: r2 :: rest ->
  payload r1 = Answer ck1 (Some j1) ->
  token_field "logintoken" (Some j1) = Return login_token ->
  payload r2 = Answer ck2 (Some login_result) ->
  exists st : St,
    net (snd st) = rest
    /\ (exists first second, sent (snd st) = second :: first :: sent w)
    /\ init_authenticate a (init_attributes a w)
       = bind (clientlogin_check (Args.debug a) login_result)
              (fun _ => bind generate_edit_credentials (fun _ => ret tt)) st.
Proof.
  intros Hkeys Huse Hnet Hp1 Htok Hp2.
  rewrite Login_init_branch, Hkeys.
  destruct (init_attributes_world a w) as (Hnet0 & Hsent0 & _).
  destruct (init_attributes a w) as [l0 w0]. cbn [fst snd] in *.
  rewrite Hnet in Hnet0.
  unfold init_by_login. rewrite Huse. unfold bind at 1.
  rewrite (get_login_token_answer l0 w0 r1 (r2 :: rest) ck1 (Some j1) Hnet0 Hp1), Htok.
  unfold bind at 1.
  erewrite init_clientlogin_answer; [| reflexivity | exact Hp2].
  eexists. split; [|split; [|reflexivity]].
  - reflexivity.
  - cbn [snd sent w_request]. rewrite Hsent0. eauto.
Qed.

(** A [clientlogin] block with a status other than PASS: the two fields of
    the message are looked up in turn, line 118. *)
Lemma clientlogin_check_refusal (debug : bool) (login_result block status : json) (st : St) :
  Py.getitem login_result (JStr "clientlogin") = Return block ->
  Py.getitem block (JStr "status") = Return status ->
  Py.eq_str status "PASS" = false ->
  outcome (clientlogin_check debug login_result st)
  = match Py.getitem block (JStr "messagecode") with
    | Raise e => Raise e
    | Return code =>
        match Py.getitem block (JStr "message") with
        | Raise e => Raise e
        | Return message => Raise (LoginError (Format clientlogin_failed [code; message]))
        end
    end.
Proof.
  intros Hb Hs Hne.
  unfold clientlogin_check, outcome, bind, item, lift, ret, raise, print, effect.
  rewrite (getitem_contains _ _ _ Hb).
  destruct debug; cbn [fst snd]; rewrite Hb, Hs, Hne; cbn [negb];
    destruct (Py.getitem block (JStr "messagecode")); try reflexivity;
    destruct (Py.getitem block (JStr "message")); reflexivity.
Qed.

(** No [clientlogin] block: the [error] block and its two fields are looked
    up in turn, lines 122-123. *)
Lemma clientlogin_check_no_block (debug : bool) (login_result : json) (st : St) :
  Py.contains "clientlogin" login_result = Return false ->
  outcome (clientlogin_check debug login_result st)
  = match Py.getitem login_result (JStr "error") with
    | Raise e => Raise e
    | Return error =>
        match Py.getitem error (JStr "code") with
        | Raise e => Raise e
        | Return code =>
            match Py.getitem error (JStr "info") with
            | Raise e => Raise e
            | Return info => Raise (LoginError (Format clientlogin_failed [code; info]))
            end
        end
    end.
Proof.
  intros Hno.
  unfold clientlogin_check, outcome, bind, item, lift, ret, raise, print, effect.
  rewrite Hno.
  destruct debug; cbn [fst snd];
    destruct (Py.getitem login_result (JStr "error")) as [e|error]; try reflexivity;
    destruct (Py.getitem error (JStr "code")); try reflexivity;
    destruct (Py.getitem error (JStr "info")); reflexivity.
Qed.

(** With [debug] on, a PASS block is asked for its [username], line 120. *)
Lemma clientlogin_check_no_username (login_result block status : json) (e : exn) (st : St) :
  Py.getitem login_result (JStr "clientlogin") = Return block ->
  Py.getitem block (JStr "status") = Return status ->
  Py.eq_str status "PASS" = true ->
  Py.getitem block (JStr "username") = Raise e ->
  outcome (clientlogin_check true login_result st) = Raise e.
Proof.
  intros Hb Hs Heq Hu.
  unfold clientlogin_check, outcome, bind, item, lift, ret, raise, print, effect.
  rewrite (getitem_contains _ _ _ Hb).
  cbn [fst snd]. rewrite Hb, Hs, Heq. cbn [negb]. rewrite Hu. reflexivity.
Qed.

(** A check that raises ends the construction there, two requests after
    its start. *)
Lemma clientlogin_check_ends (a : Args.t) (w : World) (login_result : json) (st : St)
    (r : result unit) :
  init_authenticate a (init_attributes a w)
  = bind (clientlogin_check (Args.debug a) login_result)
         (fun _ => bind generate_edit_credentials (fun _ => ret tt)) st ->
  (exists first second, sent (snd st) = second :: first :: sent w) ->
  outcome (clientlogin_check (Args.debug a) login_result st) = r ->
  (forall e, r = Raise e ->
     snd (Login_init a w) = Raise e
     /\ exists second first, sent (fst (Login_init a w)) = second :: first :: sent w).
Proof.
  intros Hrun (first & second & Hsent) Ho e ->.
  rewrite Login_init_eq, Hrun. cbn [fst snd]. split.
  - rewrite (bind_raise _ _ _ _ Ho). reflexivity.
  - unfold final_world. rewrite (bind_raise_state _ _ _ _ Ho).
    destruct (clientlogin_check_offline (Args.debug a) login_result) as [_ Hse].
    specialize (Hse st). unfold same, sent_of in Hse. rewrite Hse, Hsent. eauto.
Qed.

(** C5, as stated, fails for replies that lack the fields of the message.
    A [clientlogin] block with status REDIRECT carries no [messagecode]: the
    construction ends with the [KeyError] of that lookup, not with a
    [LoginError]. A reply with neither a [clientlogin] nor an [error] block
    ends it with the [KeyError] of the lookup of [error]. *)
Lemma clientlogin_redirect_counterexample :
  Py.getitem Sample.clientlogin_redirect (JStr "clientlogin")
  = Return (JDict [("status", JStr "REDIRECT");
                   ("redirecttarget", JStr "https://example.org/auth")])
  /\ snd (Login_init (Sample.clientlogin false)
            (Sample.world 0 (Sample.wiki Sample.clientlogin_redirect)))
     = Raise (KeyError (JStr "messagecode"))
  /\ Py.contains "clientlogin" Sample.clientlogin_neither = Return false
  /\ snd (Login_init (Sample.clientlogin false)
            (Sample.world 0 (Sample.wiki Sample.clientlogin_neither)))
     = Raise (KeyError (JStr "error")).
Proof. vm_compute. repeat split. Qed.

(** C5, amended. In a clientlogin construction whose login-token request
    succeeded, the JSON reply to the clientlogin request is read in two
    shapes. A [clientlogin] block whose [status] is not "PASS" raises
    [LoginError] with the [messagecode] and [message] of that block when it
    has both, and the exception of the failed lookup when it lacks one. A
    reply without a [clientlogin] block raises [LoginError] with the [code]
    and [info] of its [error] block when it has them, and the exception of
    the failed lookup otherwise. Either way two requests were sent and the
    edit token is not asked for. A [clientlogin] block with status "PASS"
    raises nothing: the next request is the token query, and its reply
    decides the outcome of the construction; with [debug] on, the block is
    first asked for the [username] that line 120 prints, and a block without
    it ends the construction with the exception of that lookup. *)
Theorem clientlogin_reply_shapes (a : Args.t) (w : World) (r1 r2 : Reply answer)
    (rest : list (Reply answer)) (ck1 ck2 : jar) (j1 login_token login_result : json) :
  (Py.truthy_str (Args.consumer_key a) && Py.truthy_str (Args.consumer_secret a))%bool = false ->
  Args.use_clientlogin a = true ->
  net w = r1 :: r2 :: rest ->
  payload r1 = Answer ck1 (Some j1) ->
  token_field "logintoken" (Some j1) = Return login_token ->
  payload r2 = Answer ck2 (Some login_result) ->
  (forall block status,
     Py.getitem login_result (JStr "clientlogin") = Return block ->
     Py.getitem block (JStr "status") = Return status ->
     Py.eq_str status "PASS" = false ->
     snd (Login_init a w)
     = match Py.getitem block (JStr "messagecode") with
       | Raise e => Raise e
       | Return code =>
           match Py.getitem block (JStr "message") with
           | Raise e => Raise e
           | Return message =>
               Raise (LoginError (Format "Login failed ({}). Message: '{}'" [code; message]))
           end
       end
     /\ exists second first, sent (fst (Login_init a w)) = second :: first :: sent w)
  /\ (Py.contains "clientlogin" login_result = Return false ->
     snd (Login_init a w)
     = match Py.getitem login_result (JStr "error") with
       | Raise e => Raise e
       | Return error =>
           match Py.getitem error (JStr "code") with
           | Raise e => Raise e
           | Return code =>
               match Py.getitem error (JStr "info") with
               | Raise e => Raise e
               | Return info =>
                   Raise (LoginError (Format "Login failed ({}). Message: '{}'" [code; info]))
               end
           end
       end
     /\ exists second first, sent (fst (Login_init a w)) = second :: first :: sent w)
  /\ (forall block status,
     Py.getitem login_result (JStr "clientlogin") = Return block ->
     Py.getitem block (JStr "status") = Return status ->
     Py.eq_str status "PASS" = true ->
     (Args.debug a = false
      \/ exists username, Py.getitem block (JStr "username") = Return username) ->
     (exists third second first,
        sent (fst (Login_init a w)) = third :: second :: first :: sent w
        /\ req_verb third = GET /\ req_fields third = token_query)
     /\ (forall e, csrftoken_from rest = Raise e -> snd (Login_init a w) = Raise e)
     /\ (forall tok, csrftoken_from rest = Return tok ->
           exists l, snd (Login_init a w) = Return l /\ edit_token l = tok))
  /\ (forall block status e,
     Py.getitem login_result (JStr "clientlogin") = Return block ->
     Py.getitem block (JStr "status") = Return status ->
     Py.eq_str status "PASS" = true ->
     Args.debug a = true ->
     Py.getitem block (JStr "username") = Raise e ->
     snd (Login_init a w) = Raise e
     /\ exists second first, sent (fst (Login_init a w)) = second :: first :: sent w).
Proof.
  intros Hkeys Huse Hnet Hp1 Htok Hp2.
  destruct (Login_init_clientlogin a w r1 r2 rest ck1 ck2 j1 login_token login_result
              Hkeys Huse Hnet Hp1 Htok Hp2) as (st & Hrest & Hsent & Hrun).
  pose proof (clientlogin_check_ends a w login_result st _ Hrun Hsent eq_refl) as Hends.
  split; [|split; [|split]].
  - intros block status Hb Hs Hne.
    rewrite (clientlogin_check_refusal (Args.debug a) _ _ _ st Hb Hs Hne) in Hends.
    destruct (Py.getitem block (JStr "messagecode")) as [e|code]; [exact (Hends _ eq_refl)|].
    destruct (Py.getitem block (JStr "message")) as [e|message]; exact (Hends _ eq_refl).
  - intros Hno.
    rewrite (clientlogin_check_no_block (Args.debug a) _ st Hno) in Hends.
    destruct (Py.getitem login_result (JStr "error")) as [e|error]; [exact (Hends _ eq_refl)|].
    destruct (Py.getitem error (JStr "code")) as [e|code]; [exact (Hends _ eq_refl)|].
    destruct (Py.getitem error (JStr "info")) as [e|info]; exact (Hends _ eq_refl).
  - intros block status Hb Hs Heq Hdebug.
    pose proof (clientlogin_check_pass (Args.debug a) _ _ _ st Hb Hs Heq Hdebug) as Ho.
    destruct (clientlogin_check_offline (Args.debug a) login_result) as [Hn Hse].
    specialize (Hn st). specialize (Hse st).
    unfold same, net_of, sent_of, outcome in *.
    destruct (clientlogin_check (Args.debug a) login_result st) as [[l2 w2] [e|[]]] eqn:Hcheck;
      cbn [fst snd] in *; [discriminate|].
    rewrite Login_init_eq, Hrun, (bind_return _ _ _ _ _ Hcheck). cbn [fst snd].
    pose proof (generate_sent l2 w2) as Hgs.
    pose proof (generate_outcome l2 w2) as Hgo.
    pose proof (generate_edit_token l2 w2) as Hgt.
    unfold next_csrftoken in *. rewrite Hn, Hrest in *.
    unfold final_world, final_self, outcome, bind, ret in *.
    destruct (generate_edit_credentials (l2, w2)) as [[l3 w3] [e|c]];
      cbn [fst snd] in *.
    + split; [|split].
      * destruct Hsent as (first & second & Hsent).
        exists (token_request l2), second, first.
        rewrite Hgs, Hse, Hsent. auto.
      * intros e' He'. rewrite He' in Hgo. injection Hgo as ->. reflexivity.
      * intros tok Ht. rewrite Ht in Hgo. discriminate.
    + split; [|split].
      * destruct Hsent as (first & second & Hsent).
        exists (token_request l2), second, first.
        rewrite Hgs, Hse, Hsent. auto.
      * intros e' He'. rewrite He' in Hgo. discriminate.
      * intros tok Ht. rewrite Ht in Hgt. eauto.
  - intros block status e Hb Hs Heq Hdebug Hu. rewrite Hdebug in Hends.
    rewrite (clientlogin_check_no_username _ _ _ e st Hb Hs Heq Hu) in Hends.
    exact (Hends _ eq_refl).
Qed.

Lemma clientlogin_reply_shapes_witness :
  snd (Login_init (Sample.clientlogin false) (Sample.world 0 (Sample.wiki Sample.clientlogin_fail)))
  = Raise (LoginError (Format "Login failed ({}). Message: '{}'"
             [JStr "wrongpassword"; JStr "Incorrect username or password entered."]))
  /\ snd (Login_init (Sample.clientlogin false)
            (Sample.world 0 (Sample.wiki Sample.clientlogin_error)))
     = Raise (LoginError (Format "Login failed ({}). Message: '{}'"
                [JStr "badpass"; JStr "Incorrect password"]))
  /\ exists l,
       snd (Login_init (Sample.clientlogin true)
              (Sample.world 0 (Sample.wiki Sample.clientlogin_pass))) = Return l
       /\ edit_token l = JStr "abc+\".
Proof.
  split; [|split].
  - exact (proj1 (proj1 (clientlogin_reply_shapes (Sample.clientlogin false)
              (Sample.world 0 (Sample.wiki Sample.clientlogin_fail))
              _ _ _ _ _ _ _ _ eq_refl eq_refl eq_refl eq_refl eq_refl eq_refl)
              _ _ eq_refl eq_refl eq_refl)).
  - exact (proj1 (proj1 (proj2 (clientlogin_reply_shapes (Sample.clientlogin false)
              (Sample.world 0 (Sample.wiki Sample.clientlogin_error))
              _ _ _ _ _ _ _ _ eq_refl eq_refl eq_refl eq_refl eq_refl eq_refl))
              eq_refl)).
  - refine (proj2 (proj2 (proj1 (proj2 (proj2 (clientlogin_reply_shapes (Sample.clientlogin true)
              (Sample.world 0 (Sample.wiki Sample.clientlogin_pass))
              _ _ _ _ _ _ _ _ eq_refl eq_refl eq_refl eq_refl eq_refl eq_refl)))
              _ _ eq_refl eq_refl eq_refl
              (or_intror (ex_intro _ (JStr "alice") eq_refl)))) _ eq_refl).
Defined.

(** ** Completing the handshake *)

(** Without callback data the callback comes from the console as text, and
    text is not split by bytes. *)
Lemma continue_oauth_interactive (d : pyarg) (l : Login) (w : World) :
  Py.truthy_arg d = false ->
  continue_oauth d (l, w) =
  match redirect l with
  | None => ((with_response_qs l d, w), Raise (AttributeError "redirect"))
  | Some url =>
      let w1 := w_stdout (Prompted "Callback URL: ") (w_browser url w) in
      match stdin w with
      | [] => ((with_response_qs l d, w1), Raise EOFError)
      | line :: rest =>
          ((with_response_qs (with_response_qs l d) (PStr (payload line)),
            w_stdin (delay line) rest w1),
           Raise TypeError)
      end
  end.
Proof.
  intros Hd.
  unfold continue_oauth, bind, assign, self, attr, webbrowser_open, effect, input,
    split_response_qs, raise, ret.
  cbn [fst snd response_qs with_response_qs redirect]. rewrite Hd.
  cbn [negb fst snd response_qs with_response_qs redirect].
  destruct (redirect l) as [url|]; [|reflexivity].
  cbn [fst snd stdin w_stdout w_browser].
  destruct (stdin w) as [|line rest]; reflexivity.
Qed.

(** Text handed in by the caller fares no better. *)
Lemma continue_oauth_text (t : string) (l : Login) (w : World) :
  Py.truthy_arg (PStr t) = true ->
  continue_oauth (PStr t) (l, w) = ((with_response_qs l (PStr t), w), Raise TypeError).
Proof.
  intros Hd.
  unfold continue_oauth, bind, assign, self, split_response_qs, raise, ret.
  cbn [fst snd response_qs with_response_qs]. rewrite Hd.
  cbn [negb fst snd response_qs with_response_qs]. reflexivity.
Qed.

(** C9. When [oauth_callback_data] is absent or empty, [continue_oauth]
    never reaches the exchange with the handshake provider and always
    raises; once the browser was opened and the console delivered a line,
    whatever the line, the exception is the [TypeError] of splitting text
    by [b'?']. A call that does reach the exchange was given non-empty
    bytes. *)
Theorem interactive_callback_never_completes (d : pyarg) (l : Login) (w : World) :
  (Py.truthy_arg d = false ->
     hs_calls (final_world (continue_oauth d (l, w))) = hs_calls w
     /\ (exists e, outcome (continue_oauth d (l, w)) = Raise e)
     /\ forall url line rest,
          redirect l = Some url -> stdin w = line :: rest ->
          outcome (continue_oauth d (l, w)) = Raise TypeError
          /\ response_qs (final_self (continue_oauth d (l, w))) = PStr (payload line))
  /\ (hs_calls (final_world (continue_oauth d (l, w))) <> hs_calls w ->
      exists b, d = PBytes b /\ b <> "").
Proof.
  assert (Hfalsy : Py.truthy_arg d = false ->
            hs_calls (final_world (continue_oauth d (l, w))) = hs_calls w).
  { intros Hd. rewrite (continue_oauth_interactive d l w Hd). unfold final_world.
    destruct (redirect l); [|reflexivity]. destruct (stdin w); reflexivity. }
  split.
  - intros Hd. split; [exact (Hfalsy Hd)|].
    rewrite (continue_oauth_interactive d l w Hd). unfold outcome, final_self.
    split.
    + destruct (redirect l); [|cbn; eauto]. destruct (stdin w); cbn; eauto.
    + intros url line rest -> ->. cbn. auto.
  - intros Hcalls.
    destruct (Py.truthy_arg d) eqn:Hd; [|elim Hcalls; exact (Hfalsy eq_refl)].
    destruct d as [|t|b]; [discriminate | |].
    + elim Hcalls. rewrite (continue_oauth_text t l w Hd). reflexivity.
    + exists b. split; [reflexivity|]. intros ->. discriminate.
Qed.

Lemma interactive_callback_never_completes_witness :
  outcome (continue_oauth PNone
             (Sample.pending 0 1800,
              Sample.provider 5 [] [] []
                [{| delay := 60; payload := "https://example.org/cb?oauth_verifier=v" |}]))
  = Raise TypeError.
Proof.
  destruct (interactive_callback_never_completes PNone (Sample.pending 0 1800)
              (Sample.provider 5 [] [] []
                 [{| delay := 60; payload := "https://example.org/cb?oauth_verifier=v" |}]))
    as [Hinteractive _].
  destruct (Hinteractive eq_refl) as (_ & _ & Hline).
  exact (proj1 (Hline _ _ _ eq_refl eq_refl)).
Defined.

Lemma split_nonempty (sep : ascii) (b : string) : Py.split sep b <> [].
Proof.
  destruct b as [|c rest]; cbn; [discriminate|].
  destruct (Ascii.eqb c sep); [discriminate|].
  destruct (Py.split sep rest); discriminate.
Qed.

(** [b.split(b'?')[-1]] always has a value. *)
Lemma split_last (b : string) : exists qs, Py.last_item (Py.split "?" b) = Return qs.
Proof.
  pose proof (split_nonempty "?" b) as Hne.
  unfold Py.last_item, Py.index.
  destruct (Py.split "?" b) as [|p ps]; [contradiction|].
  cbn [length]. replace (-1 <? 0) with true by reflexivity.
  set (n := Z.of_nat (S (length ps))).
  assert (Hn : 0 <= -1 + n < n) by (unfold n; lia).
  destruct (Z.leb_spec 0 (-1 + n)); [|lia].
  destruct (Z.ltb_spec (-1 + n) n); [|lia].
  cbn [andb].
  destruct (nth_error (p :: ps) (Z.to_nat (-1 + n))) as [qs|] eqn:Hnth; [eauto|].
  apply nth_error_None in Hnth. cbn [length] in Hnth. unfold n in *. lia.
Qed.

Lemma generate_no_handshake : preserves (same hs_calls_of) generate_edit_credentials.
Proof.
  unfold generate_edit_credentials. frame_with same_prim same_side.
Qed.


(** The exchange, for callback data [b]. *)
Lemma continue_oauth_exchange (b qs : string) (l : Login) (w : World)
    (h : Handshaker) (rt : Token) :
  b <> "" ->
  Py.last_item (Py.split "?" b) = Return qs ->
  handshaker l = Some h ->
  request_token l = Some rt ->
  continue_oauth (PBytes b) (l, w) =
  match completions w with
  | [] => ((with_response_qs l (PBytes b),
            w_handshake (Complete h rt qs) 0 (initiations w) [] w),
           Raise RequestException)
  | r :: rest =>
      let w1 := w_handshake (Complete h rt qs) (delay r) (initiations w) rest w in
      match payload r with
      | None => ((with_response_qs l (PBytes b), w1), Raise OAuthException)
      | Some access =>
          match consumer_token l with
          | None => ((with_response_qs l (PBytes b), w1),
                     Raise (AttributeError "consumer_token"))
          | Some ct =>
              bind generate_edit_credentials (fun _ => ret tt)
                (with_s (with_response_qs l (PBytes b))
                   (set_auth_of (s l)
                      (Some {| client_key := key ct;
                               client_secret := secret ct;
                               resource_owner_key := key access;
                               resource_owner_secret := secret access |})),
                 w1)
          end
      end
  end.
Proof.
  intros Hb Hqs Hh Hrt.
  assert (Htruthy : Py.truthy_arg (PBytes b) = true).
  { cbn. destruct (String.eqb_spec b ""); [contradiction | reflexivity]. }
  unfold continue_oauth. unfold bind at 1. unfold assign at 1. cbn [fst snd].
  unfold bind at 1. unfold self at 1. cbn [fst snd response_qs with_response_qs].
  rewrite Htruthy. cbn [negb]. unfold bind at 1. unfold ret at 1.
  unfold bind at 1. unfold self at 1. cbn [fst snd response_qs with_response_qs].
  unfold bind at 1. unfold split_response_qs, lift. rewrite Hqs.
  unfold bind at 1. unfold attr at 1. cbn [fst snd handshaker with_response_qs].
  rewrite Hh.
  unfold bind at 1. unfold attr at 1. cbn [fst snd request_token with_response_qs].
  rewrite Hrt.
  unfold bind at 1. unfold handshaker_complete. cbn [fst snd].
  destruct (completions w) as [|r rest]; [reflexivity|].
  destruct (payload r) as [access|]; [|reflexivity].
  cbn zeta. unfold bind at 1. unfold attr at 1.
  cbn [fst snd consumer_token with_response_qs].
  destruct (consumer_token l) as [ct|]; [|reflexivity].
  unfold bind at 1. unfold assign at 1. cbn [fst snd s with_response_qs].
  reflexivity.
Qed.




(** ** Scenarios *)

(** A clientlogin construction against a wiki that answers PASS: the
    instance holds the token of the last reply. *)
Example clientlogin_construction :
  match Login_init (Sample.clientlogin false)
          (Sample.world 0 (Sample.wiki Sample.clientlogin_pass)) with
  | (w', Return l) =>
      edit_token l = JStr "abc+\" /\ instantiation_time l = 0 /\ clock w' = 3
      /\ length (sent w') = 3%nat
  | (_, Raise _) => False
  end.
Proof. vm_compute. repeat split. Qed.

(** A password login that the wiki turns down. *)
Example password_login_refused :
  snd (Login_init Sample.password
         (Sample.world 0 [Sample.tokens "logintoken" "lt+\" 1;
                          Sample.body (JDict [("login", JDict [("result", JStr "Failed")])]) 1]))
  = Raise (LoginError (Format "Login failed. Reason: '{}'" [JStr "Failed"])).
Proof. vm_compute. reflexivity. Qed.

(** An OAuth construction: no token, the request token of the provider. *)
Example oauth_construction :
  match Login_init (Sample.oauth (Some "ck") (Some "cs"))
          (Sample.provider 0 [Sample.granted] [] [] []) with
  | (w', Return l) =>
      edit_token l = JStr "" /\ request_token l = Some Sample.temporary
      /\ sent w' = [] /\ clock w' = 1
  | (_, Raise _) => False
  end.
Proof. vm_compute. repeat split. Qed.

(** The completion of the handshake fetches the first token and leaves the
    timestamp of the construction. *)
Example oauth_completion :
  outcome (continue_oauth Sample.callback (Sample.pending 0 1800, Sample.strict)) = Return tt
  /\ edit_token (final_self (continue_oauth Sample.callback
                                (Sample.pending 0 1800, Sample.strict))) = JStr "t1+\"
  /\ instantiation_time (final_self (continue_oauth Sample.callback
                                       (Sample.pending 0 1800, Sample.strict))) = 0
  /\ clock (final_world (continue_oauth Sample.callback
                           (Sample.pending 0 1800, Sample.strict))) = 12.
Proof. vm_compute. repeat split. Qed.

(** A warning in the reply to a password login is printed and the login
    goes on. *)
Example password_login_warnings :
  stdout (fst (Login_init Sample.password
      (Sample.world 0
         [Sample.tokens "logintoken" "lt+\" 1;
          Sample.body (JDict [("warnings", JDict [("main", JDict [("*", JStr "deprecated")])]);
                              ("login", JDict [("result", JStr "Success")])]) 1;
          Sample.tokens "csrftoken" "abc+\" 1])))
  = [Printed [Format "* {}: {}" [JStr "main"; JStr "deprecated"]];
     Printed [Str "MediaWiki login warnings messages:"]].
Proof. vm_compute. reflexivity. Qed.

(** * Further properties *)

(** ** The login branch of the constructor, reply by reply *)

Lemma init_login_answer (user pwd : option string) (debug : bool) (tok : json)
    (l : Login) (w : World) (r : Reply answer) (rest : list (Reply answer))
    (ck : jar) (login_result : json) :
  net w = r :: rest ->
  payload r = Answer ck (Some login_result) ->
  init_login user pwd debug tok (l, w)
  = login_check debug login_result
      (received l ck,
       w_request (request_of l POST (mediawiki_api_url l) (login_params user pwd tok))
         (delay r) rest w).
Proof.
  intros Hnet Hp. unfold init_login. unfold bind at 1. unfold self at 1.
  cbn [fst snd]. unfold bind at 1.
  rewrite (session_request_answer _ _ _ l w r rest ck _ Hnet Hp).
  reflexivity.
Qed.

(** The login branch when the wiki answers the first two requests: the
    login token goes into the login request, the cookies of both replies
    into the session, and the reply to the login request decides. *)
Lemma init_by_login_answers (a : Args.t) (l : Login) (w : World) (r1 r2 : Reply answer)
    (rest : list (Reply answer)) (ck1 ck2 : jar) (c1 : option json) (login_result : json) :
  net w = r1 :: r2 :: rest ->
  payload r1 = Answer ck1 c1 ->
  payload r2 = Answer ck2 (Some login_result) ->
  init_by_login a (l, w) =
  match token_field "logintoken" c1 with
  | Raise e =>
      ((received l ck1,
        w_request (request_of l POST (mediawiki_api_url l) login_token_query)
          (delay r1) (r2 :: rest) w),
       Raise e)
  | Return tok =>
      bind (check_of a login_result)
        (fun _ => bind generate_edit_credentials (fun _ => ret tt))
        (received (received l ck1) ck2,
         w_request (request_of (received l ck1) POST (mediawiki_api_url l) (params_of a tok))
           (delay r2) rest
           (w_request (request_of l POST (mediawiki_api_url l) login_token_query)
              (delay r1) (r2 :: rest) w))
  end.
Proof.
  intros Hnet Hp1 Hp2.
  unfold init_by_login. unfold bind at 1.
  rewrite (get_login_token_answer l w r1 (r2 :: rest) ck1 c1 Hnet Hp1).
  destruct (token_field "logintoken" c1) as [e|tok]; [reflexivity|].
  unfold bind at 1. unfold check_of, params_of.
  destruct (Args.use_clientlogin a).
  - erewrite init_clientlogin_answer; [reflexivity | reflexivity | exact Hp2].
  - erewrite init_login_answer; [reflexivity | reflexivity | exact Hp2].
Qed.

Lemma init_attributes_session (a : Args.t) (w : World) :
  mediawiki_api_url (fst (init_attributes a w)) = api_url_of a w
  /\ cookies (s (fst (init_attributes a w))) = []
  /\ auth (s (fst (init_attributes a w))) = None
  /\ headers_user_agent (s (fst (init_attributes a w))) = user_agent (fst (init_attributes a w)).
Proof.
  unfold init_attributes, api_url_of. destruct (init_user_agent a _). cbn. auto.
Qed.

(** The constructor on the login branch, once the wiki answered the
    login-token request with a token and the login request with JSON. *)
Lemma Login_init_logged_in (a : Args.t) (w : World) (r1 r2 : Reply answer)
    (rest : list (Reply answer)) (ck1 ck2 : jar) (c1 : option json)
    (login_token login_result : json) :
  (Py.truthy_str (Args.consumer_key a) && Py.truthy_str (Args.consumer_secret a))%bool = false ->
  net w = r1 :: r2 :: rest ->
  payload r1 = Answer ck1 c1 ->
  token_field "logintoken" c1 = Return login_token ->
  payload r2 = Answer ck2 (Some login_result) ->
  init_authenticate a (init_attributes a w)
  = bind (check_of a login_result)
      (fun _ => bind generate_edit_credentials (fun _ => ret tt))
      (logged_in a w r1 r2 rest ck1 ck2 login_token).
Proof.
  intros Hkeys Hnet Hp1 Htok Hp2.
  rewrite Login_init_branch, Hkeys. unfold logged_in.
  destruct (init_attributes_world a w) as (Hnet0 & _).
  destruct (init_attributes a w) as [l0 w0]. cbn [fst snd] in *.
  rewrite Hnet in Hnet0.
  rewrite (init_by_login_answers a l0 w0 r1 r2 rest ck1 ck2 c1 login_result Hnet0 Hp1 Hp2).
  rewrite Htok. reflexivity.
Qed.

(** What is on the wire and in the session at that point. *)
Lemma logged_in_state (a : Args.t) (w : World) (r1 r2 : Reply answer)
    (rest : list (Reply answer)) (ck1 ck2 : jar) (login_token : json) :
  net (snd (logged_in a w r1 r2 rest ck1 ck2 login_token)) = rest
  /\ cookies (s (fst (logged_in a w r1 r2 rest ck1 ck2 login_token)))
     = store_cookies ck2 (store_cookies ck1 [])
  /\ exists second first,
       sent (snd (logged_in a w r1 r2 rest ck1 ck2 login_token)) = second :: first :: sent w
       /\ req_verb first = POST /\ req_url first = api_url_of a w
       /\ req_fields first = login_token_query /\ req_cookies first = []
       /\ req_verb second = POST /\ req_url second = api_url_of a w
       /\ req_fields second = params_of a login_token
       /\ req_cookies second = store_cookies ck1 [].
Proof.
  unfold logged_in.
  destruct (init_attributes_world a w) as (_ & Hsent & _).
  destruct (init_attributes_session a w) as (Hurl & Hck & _).
  destruct (init_attributes a w) as [l0 w0]. cbn [fst snd] in *.
  split; [reflexivity|]. split.
  - cbn. rewrite Hck. reflexivity.
  - eexists. eexists. cbn [snd sent w_request]. rewrite Hsent.
    split; [reflexivity|]. cbn. rewrite Hurl, Hck. repeat split.
Qed.

(** A login reply that the check refuses ends the construction after two
    requests. *)
Lemma Login_init_check_raises (a : Args.t) (w : World) (r1 r2 : Reply answer)
    (rest : list (Reply answer)) (ck1 ck2 : jar) (c1 : option json)
    (login_token login_result : json) (e : exn) :
  (Py.truthy_str (Args.consumer_key a) && Py.truthy_str (Args.consumer_secret a))%bool = false ->
  net w = r1 :: r2 :: rest ->
  payload r1 = Answer ck1 c1 ->
  token_field "logintoken" c1 = Return login_token ->
  payload r2 = Answer ck2 (Some login_result) ->
  (forall st, outcome (check_of a login_result st) = Raise e) ->
  snd (Login_init a w) = Raise e
  /\ exists second first,
       sent (fst (Login_init a w)) = second :: first :: sent w
       /\ req_fields first = login_token_query
       /\ req_fields second = params_of a login_token.
Proof.
  intros Hkeys Hnet Hp1 Htok Hp2 Hcheck.
  rewrite Login_init_eq.
  rewrite (Login_init_logged_in a w r1 r2 rest ck1 ck2 c1 login_token login_result
             Hkeys Hnet Hp1 Htok Hp2).
  set (st := logged_in a w r1 r2 rest ck1 ck2 login_token).
  cbn [fst snd]. split.
  - rewrite (bind_raise _ _ _ _ (Hcheck st)). reflexivity.
  - unfold final_world. rewrite (bind_raise_state _ _ _ _ (Hcheck st)).
    pose proof (check_of_hushed a login_result st) as Hh.
    unfold same in Hh. apply (f_equal (fun x => sent (snd x))) in Hh.
    unfold hushed_of in Hh. cbn [fst snd sent hush] in Hh. rewrite Hh.
    destruct (logged_in_state a w r1 r2 rest ck1 ck2 login_token)
      as (_ & _ & second & first & Hs & _ & _ & Hf1 & _ & _ & _ & Hf2 & _).
    exists second, first. subst st. rewrite Hs. auto.
Qed.

(** ** The password login *)

Lemma login_check_refused (debug : bool) (login_result block reason : json) (st : St) :
  Py.getitem login_result (JStr "login") = Return block ->
  Py.getitem block (JStr "result") = Return reason ->
  Py.eq_str reason "Success" = false ->
  outcome (login_check debug login_result st)
  = Raise (LoginError (Format login_failed [reason])).
Proof.
  intros Hb Hr Hne.
  unfold login_check, outcome, bind, item, lift, ret, raise, print, effect.
  destruct debug; cbn [fst snd]; rewrite Hb, Hr, Hne; reflexivity.
Qed.

Lemma login_check_no_block (debug : bool) (login_result : json) (e : exn) (st : St) :
  Py.getitem login_result (JStr "login") = Raise e ->
  outcome (login_check debug login_result st) = Raise e.
Proof.
  intros Hb.
  unfold login_check, outcome, bind, item, lift, ret, raise, print, effect.
  destruct debug; cbn [fst snd]; rewrite Hb; reflexivity.
Qed.

Lemma clientlogin_check_no_messagecode (debug : bool) (login_result block status : json)
    (e : exn) (st : St) :
  Py.getitem login_result (JStr "clientlogin") = Return block ->
  Py.getitem block (JStr "status") = Return status ->
  Py.eq_str status "PASS" = false ->
  Py.getitem block (JStr "messagecode") = Raise e ->
  outcome (clientlogin_check debug login_result st) = Raise e.
Proof.
  intros Hb Hs Hne Hc.
  unfold clientlogin_check, outcome, bind, item, lift, ret, raise, print, effect.
  rewrite (getitem_contains _ _ _ Hb).
  destruct debug; cbn [fst snd]; rewrite Hb, Hs, Hne; cbn [negb];
    rewrite Hc; reflexivity.
Qed.

(** X1. A password login whose reply carries a [login] block with a
    [result] other than "Success" ends the construction with a [LoginError]
    that carries that result. Two requests were sent, the login-token
    request and the login request with the token of the first reply; the
    edit token is never asked for. *)
Theorem refused_password_login (a : Args.t) (w : World) (r1 r2 : Reply answer)
    (rest : list (Reply answer)) (ck1 ck2 : jar) (c1 : option json)
    (login_token login_result block reason : json) :
  (Py.truthy_str (Args.consumer_key a) && Py.truthy_str (Args.consumer_secret a))%bool = false ->
  Args.use_clientlogin a = false ->
  net w = r1 :: r2 :: rest ->
  payload r1 = Answer ck1 c1 ->
  token_field "logintoken" c1 = Return login_token ->
  payload r2 = Answer ck2 (Some login_result) ->
  Py.getitem login_result (JStr "login") = Return block ->
  Py.getitem block (JStr "result") = Return reason ->
  Py.eq_str reason "Success" = false ->
  snd (Login_init a w) = Raise (LoginError (Format "Login failed. Reason: '{}'" [reason]))
  /\ exists second first,
       sent (fst (Login_init a w)) = second :: first :: sent w
       /\ req_fields first = login_token_query
       /\ req_fields second = login_params (Args.user a) (Args.pwd a) login_token.
Proof.
  intros Hkeys Huse Hnet Hp1 Htok Hp2 Hb Hr Hne.
  assert (Hcheck : forall st, outcome (check_of a login_result st)
                              = Raise (LoginError (Format login_failed [reason]))).
  { intros st. unfold check_of. rewrite Huse.
    exact (login_check_refused _ _ _ _ st Hb Hr Hne). }
  destruct (Login_init_check_raises a w r1 r2 rest ck1 ck2 c1 login_token login_result _
              Hkeys Hnet Hp1 Htok Hp2 Hcheck) as (Ho & second & first & Hs & Hf1 & Hf2).
  split; [exact Ho|]. exists second, first.
  unfold params_of in Hf2. rewrite Huse in Hf2. auto.
Qed.

Lemma refused_password_login_witness :
  snd (Login_init Sample.password (Sample.world 0 (Sample.wiki Sample.refusing)))
  = Raise (LoginError (Format "Login failed. Reason: '{}'" [JStr "WrongPass"])).
Proof.
  refine (proj1 (refused_password_login Sample.password
                   (Sample.world 0 (Sample.wiki Sample.refusing))
                   _ _ _ _ _ _ _ _ _ _
                   eq_refl eq_refl eq_refl eq_refl eq_refl eq_refl eq_refl eq_refl eq_refl)).
Defined.

(** X2. The password branch reads nothing but the [login] block: a reply
    without it, such as an API [error] reply, ends the construction with the
    exception of the failed lookup ([KeyError] for a missing key) and not
    with a [LoginError]; the edit token is never asked for. *)
Theorem password_reply_without_login_block (a : Args.t) (w : World) (r1 r2 : Reply answer)
    (rest : list (Reply answer)) (ck1 ck2 : jar) (c1 : option json)
    (login_token login_result : json) (e : exn) :
  (Py.truthy_str (Args.consumer_key a) && Py.truthy_str (Args.consumer_secret a))%bool = false ->
  Args.use_clientlogin a = false ->
  net w = r1 :: r2 :: rest ->
  payload r1 = Answer ck1 c1 ->
  token_field "logintoken" c1 = Return login_token ->
  payload r2 = Answer ck2 (Some login_result) ->
  Py.getitem login_result (JStr "login") = Raise e ->
  snd (Login_init a w) = Raise e
  /\ exists second first, sent (fst (Login_init a w)) = second :: first :: sent w.
Proof.
  intros Hkeys Huse Hnet Hp1 Htok Hp2 Hb.
  assert (Hcheck : forall st, outcome (check_of a login_result st) = Raise e).
  { intros st. unfold check_of. rewrite Huse. exact (login_check_no_block _ _ _ st Hb). }
  destruct (Login_init_check_raises a w r1 r2 rest ck1 ck2 c1 login_token login_result _
              Hkeys Hnet Hp1 Htok Hp2 Hcheck) as (Ho & second & first & Hs & _).
  split; [exact Ho|]. exists second, first. exact Hs.
Qed.

Lemma password_reply_without_login_block_witness :
  snd (Login_init Sample.password (Sample.world 0 (Sample.wiki Sample.clientlogin_error)))
  = Raise (KeyError (JStr "login")).
Proof.
  refine (proj1 (password_reply_without_login_block Sample.password
                   (Sample.world 0 (Sample.wiki Sample.clientlogin_error))
                   _ _ _ _ _ _ _ _ _
                   eq_refl eq_refl eq_refl eq_refl eq_refl eq_refl eq_refl)).
Defined.

(** X3. A [clientlogin] block whose status is not "PASS" and that has no
    [messagecode] does not produce a [LoginError]: the construction ends
    with the exception of the lookup of [messagecode]. *)
Theorem clientlogin_block_without_messagecode (a : Args.t) (w : World)
    (r1 r2 : Reply answer) (rest : list (Reply answer)) (ck1 ck2 : jar)
    (c1 : option json) (login_token login_result block status : json) (e : exn) :
  (Py.truthy_str (Args.consumer_key a) && Py.truthy_str (Args.consumer_secret a))%bool = false ->
  Args.use_clientlogin a = true ->
  net w = r1 :: r2 :: rest ->
  payload r1 = Answer ck1 c1 ->
  token_field "logintoken" c1 = Return login_token ->
  payload r2 = Answer ck2 (Some login_result) ->
  Py.getitem login_result (JStr "clientlogin") = Return block ->
  Py.getitem block (JStr "status") = Return status ->
  Py.eq_str status "PASS" = false ->
  Py.getitem block (JStr "messagecode") = Raise e ->
  snd (Login_init a w) = Raise e.
Proof.
  intros Hkeys Huse Hnet Hp1 Htok Hp2 Hb Hs Hne Hc.
  assert (Hcheck : forall st, outcome (check_of a login_result st) = Raise e).
  { intros st. unfold check_of. rewrite Huse.
    exact (clientlogin_check_no_messagecode _ _ _ _ _ st Hb Hs Hne Hc). }
  exact (proj1 (Login_init_check_raises a w r1 r2 rest ck1 ck2 c1 login_token login_result _
                  Hkeys Hnet Hp1 Htok Hp2 Hcheck)).
Qed.

Lemma clientlogin_block_without_messagecode_witness :
  snd (Login_init (Sample.clientlogin false)
         (Sample.world 0 (Sample.wiki Sample.clientlogin_redirect)))
  = Raise (KeyError (JStr "messagecode")).
Proof.
  refine (clientlogin_block_without_messagecode (Sample.clientlogin false)
            (Sample.world 0 (Sample.wiki Sample.clientlogin_redirect))
            _ _ _ _ _ _ _ _ _ _ _
            eq_refl eq_refl eq_refl eq_refl eq_refl eq_refl eq_refl eq_refl eq_refl eq_refl).
Defined.

(** ** The login token *)

Lemma get_login_token_outcome (l : Login) (w : World) :
  outcome (get_login_token (l, w)) = token_from "logintoken" (net w).
Proof.
  unfold token_from.
  destruct (net w) as [|r rest] eqn:Hnet.
  - unfold get_login_token, outcome, bind, self, session_request. cbn [fst snd].
    rewrite Hnet. reflexivity.
  - destruct (payload r) as [|ck content] eqn:Hp.
    + unfold get_login_token, outcome, bind, self, session_request. cbn [fst snd].
      rewrite Hnet, Hp. reflexivity.
    + rewrite (get_login_token_answer l w r rest ck content Hnet Hp). reflexivity.
Qed.

(** X4. When the reply to the login-token request is a JSON document
    without a [logintoken] under [query]/[tokens], the constructor ends with
    the exception of the failed lookup after this one request: user name and
    password are not sent. *)
Theorem no_login_without_login_token (a : Args.t) (w : World) (r : Reply answer)
    (rest : list (Reply answer)) (ck : jar) (j : json) (e : exn) :
  (Py.truthy_str (Args.consumer_key a) && Py.truthy_str (Args.consumer_secret a))%bool = false ->
  net w = r :: rest ->
  payload r = Answer ck (Some j) ->
  token_field "logintoken" (Some j) = Raise e ->
  snd (Login_init a w) = Raise e
  /\ exists first,
       sent (fst (Login_init a w)) = first :: sent w
       /\ req_verb first = POST
       /\ req_url first = api_url_of a w
       /\ req_fields first = login_token_query.
Proof.
  intros Hkeys Hreply Hjson Hfail.
  rewrite Login_init_eq, Login_init_branch, Hkeys. cbn [fst snd].
  destruct (init_attributes_world a w) as (Hnet & Hsent & _).
  destruct (init_attributes_session a w) as (Hurl & _).
  destruct (init_attributes a w) as [l0 w0]. cbn [fst snd] in *.
  assert (Ho : outcome (get_login_token (l0, w0)) = Raise e).
  { rewrite get_login_token_outcome, Hnet, Hreply. unfold token_from.
    rewrite Hjson. exact Hfail. }
  unfold init_by_login. split.
  - rewrite (bind_raise _ _ _ _ Ho). reflexivity.
  - unfold final_world. rewrite (bind_raise_state _ _ _ _ Ho).
    pose proof (get_login_token_sent l0 w0) as Hs. unfold final_world in Hs.
    rewrite Hs, Hsent. eexists. split; [reflexivity|].
    cbn. rewrite Hurl. auto.
Qed.

Lemma no_login_without_login_token_witness :
  snd (Login_init Sample.password (Sample.world 0 [Sample.no_token 1; Sample.body Sample.login_success 1]))
  = Raise (KeyError (JStr "logintoken")).
Proof.
  exact (proj1 (no_login_without_login_token Sample.password
                  (Sample.world 0 [Sample.no_token 1; Sample.body Sample.login_success 1])
                  _ _ _ _ (KeyError (JStr "logintoken")) eq_refl eq_refl eq_refl eq_refl)).
Defined.

(** ** Warnings of a password login *)

Lemma assoc_in (k : string) (v : json) (kvs : list (string * json)) :
  In (k, v) kvs -> exists v', Py.assoc k kvs = Some v'.
Proof.
  induction kvs as [|[k' v'] rest IH]; intros Hin; [contradiction|].
  cbn. destruct (String.eqb_spec k' k) as [_|Hne]; [eauto|].
  destruct Hin as [Heq|Hin]; [injection Heq as -> _; contradiction|].
  exact (IH Hin).
Qed.

(** The loop of lines 146-147 over the keys of a [warnings] dictionary
    whose entries all have a ["*"]: one line per key, no exception. *)
Lemma warnings_loop (login_result : json) (kvs items : list (string * json)) (st : St) :
  Py.getitem login_result (JStr "warnings") = Return (JDict kvs) ->
  (forall k v, Py.assoc k kvs = Some v -> exists star, Py.getitem v (JStr "*") = Return star) ->
  (forall kv, In kv items -> In kv kvs) ->
  let loop :=
    for_each (map (fun kv => JStr (fst kv)) items) (fun message =>
      bind (item login_result "warnings") (fun warnings =>
      bind (lift (Py.getitem warnings message)) (fun entry =>
      bind (item entry "*") (fun star =>
      print [Format "* {}: {}" [message; star]])))) in
  outcome (loop st) = Return tt
  /\ fst (fst (loop st)) = fst st
  /\ hush (snd (fst (loop st))) = hush (snd st)
  /\ length (stdout (snd (fst (loop st)))) = (length items + length (stdout (snd st)))%nat.
Proof.
  intros Hw Hstar. cbn zeta.
  set (body := fun message : json =>
      bind (item login_result "warnings") (fun warnings =>
      bind (lift (Py.getitem warnings message)) (fun entry =>
      bind (item entry "*") (fun star =>
      print [Format "* {}: {}" [message; star]])))).
  revert st.
  induction items as [|[k v] rest IH]; intros st Hsub.
  - cbn. auto.
  - cbn [map for_each fst].
    destruct (assoc_in k v kvs (Hsub _ (or_introl eq_refl))) as [v' Hv'].
    destruct (Hstar k v' Hv') as [star Hs].
    assert (Hstep : body (JStr k) st
                    = ((fst st, w_stdout (Printed [Format "* {}: {}" [JStr k; star]]) (snd st)),
                       Return tt)).
    { unfold body, bind, item, lift, print, effect. rewrite Hw.
      cbn [Py.getitem]. rewrite Hv', Hs. reflexivity. }
    rewrite (bind_return _ _ _ _ _ Hstep).
    specialize (IH (fst st, w_stdout (Printed [Format "* {}: {}" [JStr k; star]]) (snd st))
                  (fun kv Hin => Hsub kv (or_intror Hin))).
    destruct IH as (Ho & Hl & Hh & Hn).
    split; [exact Ho|]. split; [exact Hl|]. split; [exact Hh|].
    rewrite Hn. cbn [fst snd stdout w_stdout length]. lia.
Qed.

Lemma generate_keeps_stdout : preserves (same stdout_of) generate_edit_credentials.
Proof.
  unfold generate_edit_credentials. frame_with same_prim same_side.
Qed.

(** A login reply that passes the check is followed by the token query,
    sent with the cookies of the two replies; its reply decides the outcome
    of the construction. *)
Lemma Login_init_check_returns (a : Args.t) (w : World) (r1 r2 : Reply answer)
    (rest : list (Reply answer)) (ck1 ck2 : jar) (c1 : option json)
    (login_token login_result : json) :
  (Py.truthy_str (Args.consumer_key a) && Py.truthy_str (Args.consumer_secret a))%bool = false ->
  net w = r1 :: r2 :: rest ->
  payload r1 = Answer ck1 c1 ->
  token_field "logintoken" c1 = Return login_token ->
  payload r2 = Answer ck2 (Some login_result) ->
  (forall st, outcome (check_of a login_result st) = Return tt) ->
  (exists third second first,
     sent (fst (Login_init a w)) = third :: second :: first :: sent w
     /\ req_verb third = GET /\ req_url third = api_url_of a w
     /\ req_fields third = token_query
     /\ req_cookies third = store_cookies ck2 (store_cookies ck1 [])
     /\ req_fields second = params_of a login_token
     /\ req_fields first = login_token_query)
  /\ (forall e, csrftoken_from rest = Raise e -> snd (Login_init a w) = Raise e)
  /\ (forall tok, csrftoken_from rest = Return tok ->
        exists l, snd (Login_init a w) = Return l /\ edit_token l = tok)
  /\ stdout (fst (Login_init a w))
     = stdout (snd (fst (check_of a login_result
                           (logged_in a w r1 r2 rest ck1 ck2 login_token)))).
Proof.
  intros Hkeys Hnet Hp1 Htok Hp2 Hcheck.
  rewrite Login_init_eq.
  rewrite (Login_init_logged_in a w r1 r2 rest ck1 ck2 c1 login_token login_result
             Hkeys Hnet Hp1 Htok Hp2).
  destruct (logged_in_state a w r1 r2 rest ck1 ck2 login_token)
    as (Hrest & Hck & second & first & Hs & _ & _ & Hf1 & _ & _ & _ & Hf2 & _).
  destruct (init_attributes_session a w) as (Hurl & _).
  assert (Hl0 : mediawiki_api_url (fst (logged_in a w r1 r2 rest ck1 ck2 login_token))
                = api_url_of a w).
  { unfold logged_in. cbn. exact Hurl. }
  remember (logged_in a w r1 r2 rest ck1 ck2 login_token) as st eqn:Hst.
  clear Hst.
  pose proof (Hcheck st) as Ho.
  pose proof (check_of_hushed a login_result st) as Hh.
  unfold same, hushed_of, outcome in *.
  destruct (check_of a login_result st) as [[l2 w2] [e|[]]] eqn:Hrun;
    cbn [fst snd] in *; [discriminate|].
  rewrite (bind_return _ _ _ _ _ Hrun). cbn [fst snd].
  pose proof (f_equal fst Hh) as Hl2.
  pose proof (f_equal (fun x => net (snd x)) Hh) as Hnet2.
  pose proof (f_equal (fun x => sent (snd x)) Hh) as Hsent2.
  cbn [fst snd net sent hush] in Hl2, Hnet2, Hsent2. clear Hh. subst l2.
  pose proof (generate_sent (fst st) w2) as Hgs.
  pose proof (generate_outcome (fst st) w2) as Hgo.
  pose proof (generate_edit_token (fst st) w2) as Hgt.
  pose proof (generate_keeps_stdout (fst st, w2)) as Hgp.
  unfold next_csrftoken, same, stdout_of in *. rewrite Hnet2, Hrest in Hgo, Hgt.
  unfold final_world, final_self, outcome, bind, ret in *.
  destruct (generate_edit_credentials (fst st, w2)) as [[l3 w3] [e|c]];
    cbn [fst snd] in *.
  - split; [|split; [|split]].
    + exists (token_request (fst st)), second, first.
      rewrite Hgs, Hsent2, Hs. unfold token_request, request_of.
      cbn [req_verb req_url req_fields req_cookies]. rewrite Hl0, Hck. auto 10.
    + intros e' He'. rewrite He' in Hgo. injection Hgo as ->. reflexivity.
    + intros tok Ht. rewrite Ht in Hgo. discriminate.
    + exact Hgp.
  - split; [|split; [|split]].
    + exists (token_request (fst st)), second, first.
      rewrite Hgs, Hsent2, Hs. unfold token_request, request_of.
      cbn [req_verb req_url req_fields req_cookies]. rewrite Hl0, Hck. auto 10.
    + intros e' He'. rewrite He' in Hgo. discriminate.
    + intros tok Ht. rewrite Ht in Hgt. eauto.
    + exact Hgp.
Qed.

(** The check of a successful login comes down to lines 144-147. *)
Lemma login_check_accepts (debug : bool) (login_result block reason : json) (st : St) :
  Py.getitem login_result (JStr "login") = Return block ->
  Py.getitem block (JStr "result") = Return reason ->
  Py.eq_str reason "Success" = true ->
  (debug = false \/ exists lgusername, Py.getitem block (JStr "lgusername") = Return lgusername) ->
  exists w1,
    hush w1 = hush (snd st)
    /\ length (stdout w1) = ((if debug then 2 else 0) + length (stdout (snd st)))%nat
    /\ login_check debug login_result st
       = bind (lift (Py.contains "warnings" login_result)) (fun warned : bool =>
           if warned then
             bind (print [Str "MediaWiki login warnings messages:"]) (fun _ =>
             bind (item login_result "warnings") (fun warnings =>
             bind (lift (Py.iter warnings)) (fun messages =>
             for_each messages (fun message =>
               bind (item login_result "warnings") (fun warnings =>
               bind (lift (Py.getitem warnings message)) (fun entry =>
               bind (item entry "*") (fun star =>
               print [Format "* {}: {}" [message; star]])))))))
           else ret tt) (fst st, w1).
Proof.
  intros Hb Hr Heq Hdebug.
  destruct debug.
  - destruct Hdebug as [Hd | [lgusername Hu]]; [discriminate|].
    exists (w_stdout (Printed [Str "Successfully logged in as"; Val lgusername])
              (w_stdout (Printed [Val login_result]) (snd st))).
    split; [reflexivity|]. split; [reflexivity|].
    unfold login_check. unfold bind at 1. unfold print at 1. unfold effect at 1.
    unfold bind at 1. unfold item at 1. unfold lift at 1. rewrite Hb.
    unfold bind at 1. unfold item at 1. unfold lift at 1. rewrite Hr.
    unfold bind at 1. rewrite Heq. cbn [negb].
    unfold bind at 1. unfold item at 1. unfold lift at 1. rewrite Hb.
    unfold bind at 1. unfold item at 1. unfold lift at 1. rewrite Hu.
    unfold print at 1. unfold effect at 1. cbn [fst snd]. reflexivity.
  - exists (snd st). split; [reflexivity|]. split; [reflexivity|].
    unfold login_check. unfold bind at 1. unfold ret at 1.
    unfold bind at 1. unfold item at 1. unfold lift at 1. rewrite Hb.
    unfold bind at 1. unfold item at 1. unfold lift at 1. rewrite Hr.
    unfold bind at 1. rewrite Heq. cbn [negb]. unfold ret at 1.
    destruct st. reflexivity.
Qed.

(** A successful login with well-formed warnings: the check prints a
    heading and one line per warning and returns. *)
Lemma login_check_warned (debug : bool) (login_result block reason : json)
    (kvs : list (string * json)) (st : St) :
  Py.getitem login_result (JStr "login") = Return block ->
  Py.getitem block (JStr "result") = Return reason ->
  Py.eq_str reason "Success" = true ->
  (debug = false \/ exists lgusername, Py.getitem block (JStr "lgusername") = Return lgusername) ->
  Py.getitem login_result (JStr "warnings") = Return (JDict kvs) ->
  (forall k v, Py.assoc k kvs = Some v -> exists star, Py.getitem v (JStr "*") = Return star) ->
  outcome (login_check debug login_result st) = Return tt
  /\ length (stdout (snd (fst (login_check debug login_result st))))
     = ((if debug then 2 else 0) + 1 + length kvs + length (stdout (snd st)))%nat.
Proof.
  intros Hb Hr Heq Hdebug Hw Hstar.
  destruct (login_check_accepts debug login_result block reason st Hb Hr Heq Hdebug)
    as (w1 & Hh & Hn & ->).
  match goal with
  | |- outcome (?tail ?st1) = _ /\ _ =>
      assert (Hloop : tail st1
                = for_each (map (fun kv => JStr (fst kv)) kvs) (fun message =>
                    bind (item login_result "warnings") (fun warnings =>
                    bind (lift (Py.getitem warnings message)) (fun entry =>
                    bind (item entry "*") (fun star =>
                    print [Format "* {}: {}" [message; star]]))))
                    (fst st, w_stdout (Printed [Str "MediaWiki login warnings messages:"]) w1))
  end.
  { unfold bind at 1. unfold lift at 1. rewrite (getitem_contains _ _ _ Hw).
    unfold bind at 1. unfold print at 1. unfold effect at 1. cbn [fst snd].
    unfold bind at 1. unfold item at 1. unfold lift at 1. rewrite Hw.
    unfold bind at 1. unfold lift at 1. reflexivity. }
  rewrite Hloop.
  destruct (warnings_loop login_result kvs kvs
              (fst st, w_stdout (Printed [Str "MediaWiki login warnings messages:"]) w1)
              Hw Hstar (fun kv Hin => Hin)) as (Ho & _ & _ & Hlen).
  split; [exact Ho|]. rewrite Hlen. cbn [fst snd stdout w_stdout length]. lia.
Qed.

(** A successful login without warnings: the check returns. *)
Lemma login_check_plain (debug : bool) (login_result block reason : json) (st : St) :
  Py.getitem login_result (JStr "login") = Return block ->
  Py.getitem block (JStr "result") = Return reason ->
  Py.eq_str reason "Success" = true ->
  (debug = false \/ exists lgusername, Py.getitem block (JStr "lgusername") = Return lgusername) ->
  Py.contains "warnings" login_result = Return false ->
  outcome (login_check debug login_result st) = Return tt.
Proof.
  intros Hb Hr Heq Hdebug Hw.
  destruct (login_check_accepts debug login_result block reason st Hb Hr Heq Hdebug)
    as (w1 & Hh & Hn & ->).
  unfold bind, lift. rewrite Hw. reflexivity.
Qed.

(** The loop of lines 146-147 over keys of which one has an entry without
    ["*"]: a line is printed for each key before the first such key, and
    the lookup of ["*"] in its entry ends the loop. *)
Lemma warnings_loop_stops (login_result : json) (kvs : list (string * json))
    (before after : list string) (k : string) (entry : json) (e : exn) (st : St) :
  Py.getitem login_result (JStr "warnings") = Return (JDict kvs) ->
  (forall k', In k' before ->
     exists v star, Py.assoc k' kvs = Some v /\ Py.getitem v (JStr "*") = Return star) ->
  Py.assoc k kvs = Some entry ->
  Py.getitem entry (JStr "*") = Raise e ->
  let loop :=
    for_each (map JStr (before ++ k :: after)) (fun message =>
      bind (item login_result "warnings") (fun warnings =>
      bind (lift (Py.getitem warnings message)) (fun entry =>
      bind (item entry "*") (fun star =>
      print [Format "* {}: {}" [message; star]])))) in
  outcome (loop st) = Raise e
  /\ length (stdout (snd (fst (loop st)))) = (length before + length (stdout (snd st)))%nat.
Proof.
  intros Hw Hgood Hk Hstar. cbn zeta.
  set (body := fun message : json =>
      bind (item login_result "warnings") (fun warnings =>
      bind (lift (Py.getitem warnings message)) (fun entry =>
      bind (item entry "*") (fun star =>
      print [Format "* {}: {}" [message; star]])))).
  revert st Hgood.
  induction before as [|k0 before IH]; intros st Hgood.
  - cbn [app map for_each length].
    assert (Hstep : body (JStr k) st = (st, Raise e)).
    { unfold body, bind, item, lift. rewrite Hw.
      cbn [Py.getitem]. rewrite Hk, Hstar. reflexivity. }
    unfold outcome, bind. rewrite Hstep. cbn [fst snd]. auto.
  - cbn [app map for_each length].
    destruct (Hgood k0 (or_introl eq_refl)) as (v & star & Hv & Hs).
    assert (Hstep : body (JStr k0) st
                    = ((fst st, w_stdout (Printed [Format "* {}: {}" [JStr k0; star]]) (snd st)),
                       Return tt)).
    { unfold body, bind, item, lift, print, effect. rewrite Hw.
      cbn [Py.getitem]. rewrite Hv, Hs. reflexivity. }
    rewrite (bind_return _ _ _ _ _ Hstep).
    destruct (IH (fst st, w_stdout (Printed [Format "* {}: {}" [JStr k0; star]]) (snd st))
                 (fun k' Hin => Hgood k' (or_intror Hin))) as (Ho & Hn).
    split; [exact Ho|]. rewrite Hn. cbn [fst snd stdout w_stdout length]. lia.
Qed.

(** Among the keys of a dictionary, when the entry of some key has no
    ["*"], there is a first such key. *)
Lemma first_bad_warning (kvs : list (string * json)) (keys : list string) :
  (forall k, In k keys -> exists entry, Py.assoc k kvs = Some entry) ->
  (exists k entry e,
     In k keys /\ Py.assoc k kvs = Some entry /\ Py.getitem entry (JStr "*") = Raise e) ->
  exists before k after entry e,
    keys = (before ++ k :: after)%list
    /\ (forall k', In k' before ->
          exists v star, Py.assoc k' kvs = Some v /\ Py.getitem v (JStr "*") = Return star)
    /\ Py.assoc k kvs = Some entry
    /\ Py.getitem entry (JStr "*") = Raise e.
Proof.
  induction keys as [|k0 keys IH]; intros Hall (k & entry & e & Hin & Hk & He).
  - contradiction.
  - destruct (Hall k0 (or_introl eq_refl)) as [v0 Hv0].
    destruct (Py.getitem v0 (JStr "*")) as [e0|star0] eqn:Hs0.
    + exists [], k0, keys, v0, e0. repeat split; auto. intros k' [].
    + assert (Hrest : In k keys).
      { destruct Hin as [<-|Hin]; [|exact Hin]. congruence. }
      destruct (IH (fun k' H => Hall k' (or_intror H))
                   (ex_intro _ k (ex_intro _ entry (ex_intro _ e (conj Hrest (conj Hk He))))))
        as (before & k1 & after & entry1 & e1 & -> & Hgood & Hk1 & He1).
      exists (k0 :: before), k1, after, entry1, e1.
      repeat split; auto.
      intros k' [<-|Hin']; [eauto | exact (Hgood k' Hin')].
Qed.

Lemma assoc_key (k : string) (v : json) (kvs : list (string * json)) :
  Py.assoc k kvs = Some v -> In k (map fst kvs).
Proof.
  induction kvs as [|[k' v'] rest IH]; cbn; [discriminate|].
  destruct (String.eqb_spec k' k) as [->|Hne]; [auto|]. intros H. right. exact (IH H).
Qed.

Lemma key_assoc (k : string) (kvs : list (string * json)) :
  In k (map fst kvs) -> exists v, Py.assoc k kvs = Some v.
Proof.
  intros Hin. apply in_map_iff in Hin. destruct Hin as ([k' v] & <- & Hin).
  exact (assoc_in k' v kvs Hin).
Qed.

(** A successful login whose warnings stop at a key: the check prints the
    heading and the lines of the keys before it, and raises. *)
Lemma login_check_stops (debug : bool) (login_result block reason entry : json)
    (kvs : list (string * json)) (before after : list string) (k : string)
    (e : exn) (st : St) :
  Py.getitem login_result (JStr "login") = Return block ->
  Py.getitem block (JStr "result") = Return reason ->
  Py.eq_str reason "Success" = true ->
  (debug = false \/ exists lgusername, Py.getitem block (JStr "lgusername") = Return lgusername) ->
  Py.getitem login_result (JStr "warnings") = Return (JDict kvs) ->
  map fst kvs = (before ++ k :: after)%list ->
  (forall k', In k' before ->
     exists v star, Py.assoc k' kvs = Some v /\ Py.getitem v (JStr "*") = Return star) ->
  Py.assoc k kvs = Some entry ->
  Py.getitem entry (JStr "*") = Raise e ->
  outcome (login_check debug login_result st) = Raise e
  /\ length (stdout (snd (fst (login_check debug login_result st))))
     = ((if debug then 2 else 0) + 1 + length before + length (stdout (snd st)))%nat.
Proof.
  intros Hb Hr Heq Hdebug Hw Hkeys Hgood Hk Hstar.
  destruct (login_check_accepts debug login_result block reason st Hb Hr Heq Hdebug)
    as (w1 & Hh & Hn & ->).
  match goal with
  | |- outcome (?tail ?st1) = _ /\ _ =>
      assert (Hloop : tail st1
                = for_each (map JStr (before ++ k :: after)) (fun message =>
                    bind (item login_result "warnings") (fun warnings =>
                    bind (lift (Py.getitem warnings message)) (fun entry =>
                    bind (item entry "*") (fun star =>
                    print [Format "* {}: {}" [message; star]]))))
                    (fst st, w_stdout (Printed [Str "MediaWiki login warnings messages:"]) w1))
  end.
  { unfold bind at 1. unfold lift at 1. rewrite (getitem_contains _ _ _ Hw).
    unfold bind at 1. unfold print at 1. unfold effect at 1. cbn [fst snd].
    unfold bind at 1. unfold item at 1. unfold lift at 1. rewrite Hw.
    unfold bind at 1. unfold lift at 1. cbn [Py.iter].
    rewrite <- Hkeys, map_map. reflexivity. }
  rewrite Hloop.
  destruct (warnings_loop_stops login_result kvs before after k entry e
              (fst st, w_stdout (Printed [Str "MediaWiki login warnings messages:"]) w1)
              Hw Hgood Hk Hstar) as (Ho & Hlen).
  split; [exact Ho|]. rewrite Hlen. cbn [fst snd stdout w_stdout length]. lia.
Qed.

Lemma init_attributes_stdout (a : Args.t) (w : World) :
  length (stdout (snd (init_attributes a w)))
  = ((if Args.debug a then 1 else 0) + length (stdout w))%nat.
Proof.
  unfold init_attributes, init_user_agent.
  repeat split_match; reflexivity.
Qed.

(** X5. A password login whose reply says "Success" and carries no
    [warnings] is followed by the token query, sent to the same URL with
    the cookies that the first two replies set; the reply to that query
    decides the outcome, and a returned instance holds its [csrftoken]. *)
Theorem accepted_password_login (a : Args.t) (w : World) (r1 r2 : Reply answer)
    (rest : list (Reply answer)) (ck1 ck2 : jar) (c1 : option json)
    (login_token login_result block reason : json) :
  (Py.truthy_str (Args.consumer_key a) && Py.truthy_str (Args.consumer_secret a))%bool = false ->
  Args.use_clientlogin a = false ->
  net w = r1 :: r2 :: rest ->
  payload r1 = Answer ck1 c1 ->
  token_field "logintoken" c1 = Return login_token ->
  payload r2 = Answer ck2 (Some login_result) ->
  Py.getitem login_result (JStr "login") = Return block ->
  Py.getitem block (JStr "result") = Return reason ->
  Py.eq_str reason "Success" = true ->
  (Args.debug a = false
   \/ exists lgusername, Py.getitem block (JStr "lgusername") = Return lgusername) ->
  Py.contains "warnings" login_result = Return false ->
  (exists third second first,
     sent (fst (Login_init a w)) = third :: second :: first :: sent w
     /\ req_verb third = GET /\ req_url third = api_url_of a w
     /\ req_fields third = token_query
     /\ req_cookies third = store_cookies ck2 (store_cookies ck1 [])
     /\ req_fields second = login_params (Args.user a) (Args.pwd a) login_token
     /\ req_fields first = login_token_query)
  /\ (forall e, csrftoken_from rest = Raise e -> snd (Login_init a w) = Raise e)
  /\ (forall tok, csrftoken_from rest = Return tok ->
        exists l, snd (Login_init a w) = Return l /\ edit_token l = tok).
Proof.
  intros Hkeys Huse Hnet Hp1 Htok Hp2 Hb Hr Heq Hdebug Hw.
  assert (Hcheck : forall st, outcome (check_of a login_result st) = Return tt).
  { intros st. unfold check_of. rewrite Huse.
    exact (login_check_plain _ _ _ _ st Hb Hr Heq Hdebug Hw). }
  destruct (Login_init_check_returns a w r1 r2 rest ck1 ck2 c1 login_token login_result
              Hkeys Hnet Hp1 Htok Hp2 Hcheck) as (Hsent & Hfail & Hok & _).
  unfold params_of in Hsent. rewrite Huse in Hsent. auto.
Qed.

Lemma accepted_password_login_witness :
  exists l,
    snd (Login_init Sample.password (Sample.world 0 Sample.friendly)) = Return l
    /\ edit_token l = JStr "abc+\".
Proof.
  refine (proj2 (proj2 (accepted_password_login Sample.password
                   (Sample.world 0 Sample.friendly)
                   _ _ _ _ _ _ _ _ _ _
                   eq_refl eq_refl eq_refl eq_refl eq_refl eq_refl eq_refl eq_refl eq_refl
                   (or_introl eq_refl) eq_refl)) _ eq_refl).
Defined.

(** X6. Warnings beside a successful password login do not change the
    course of the construction when every warning has its ["*"] text: a
    heading and one line per warning are printed, then the token query goes
    out and its reply decides the outcome. *)
Theorem warned_password_login (a : Args.t) (w : World) (r1 r2 : Reply answer)
    (rest : list (Reply answer)) (ck1 ck2 : jar) (c1 : option json)
    (login_token login_result block reason : json) (kvs : list (string * json)) :
  (Py.truthy_str (Args.consumer_key a) && Py.truthy_str (Args.consumer_secret a))%bool = false ->
  Args.use_clientlogin a = false ->
  net w = r1 :: r2 :: rest ->
  payload r1 = Answer ck1 c1 ->
  token_field "logintoken" c1 = Return login_token ->
  payload r2 = Answer ck2 (Some login_result) ->
  Py.getitem login_result (JStr "login") = Return block ->
  Py.getitem block (JStr "result") = Return reason ->
  Py.eq_str reason "Success" = true ->
  (Args.debug a = false
   \/ exists lgusername, Py.getitem block (JStr "lgusername") = Return lgusername) ->
  Py.getitem login_result (JStr "warnings") = Return (JDict kvs) ->
  (forall k v, Py.assoc k kvs = Some v -> exists star, Py.getitem v (JStr "*") = Return star) ->
  length (stdout (fst (Login_init a w)))
  = ((if Args.debug a then 3 else 0) + 1 + length kvs + length (stdout w))%nat
  /\ (exists third older,
        sent (fst (Login_init a w)) = third :: older /\ req_fields third = token_query)
  /\ (forall e, csrftoken_from rest = Raise e -> snd (Login_init a w) = Raise e)
  /\ (forall tok, csrftoken_from rest = Return tok ->
        exists l, snd (Login_init a w) = Return l /\ edit_token l = tok).
Proof.
  intros Hkeys Huse Hnet Hp1 Htok Hp2 Hb Hr Heq Hdebug Hw Hstar.
  assert (Hcheck : forall st, outcome (check_of a login_result st) = Return tt).
  { intros st. unfold check_of. rewrite Huse.
    exact (proj1 (login_check_warned _ _ _ _ _ st Hb Hr Heq Hdebug Hw Hstar)). }
  destruct (Login_init_check_returns a w r1 r2 rest ck1 ck2 c1 login_token login_result
              Hkeys Hnet Hp1 Htok Hp2 Hcheck)
    as ((third & second & first & Hsent & _ & _ & Hq & _) & Hfail & Hok & Hout).
  split; [|split; [eauto|auto]].
  rewrite Hout. unfold check_of. rewrite Huse.
  rewrite (proj2 (login_check_warned _ _ _ _ _ _ Hb Hr Heq Hdebug Hw Hstar)).
  unfold logged_in. cbn [snd stdout w_request].
  rewrite init_attributes_stdout. destruct (Args.debug a); lia.
Qed.

Lemma warned_password_login_witness :
  length (stdout (fst (Login_init Sample.password
                         (Sample.world 0 (Sample.wiki Sample.login_warned))))) = 3%nat.
Proof.
  refine (proj1 (warned_password_login Sample.password
                   (Sample.world 0 (Sample.wiki Sample.login_warned))
                   _ _ _ _ _ _ _ _ _ _ _
                   eq_refl eq_refl eq_refl eq_refl eq_refl eq_refl eq_refl eq_refl eq_refl
                   (or_introl eq_refl) eq_refl _)).
  intros k v. cbn [Py.assoc].
  destruct (String.eqb "main" k).
  - intros H. injection H as <-. eexists. reflexivity.
  - destruct (String.eqb "login" k); [|discriminate].
    intros H. injection H as <-. eexists. reflexivity.
Defined.

(** X7. A warning whose entry has no ["*"] ends the construction after a
    successful login, wherever it stands among the warnings. The heading
    and one line for each warning before the first such entry are printed;
    then the lookup of ["*"] in that entry raises ([KeyError] when the entry
    is a dictionary). Two requests were sent: the edit token is never asked
    for. *)
Theorem bad_warning_ends_construction (a : Args.t) (w : World) (r1 r2 : Reply answer)
    (rest : list (Reply answer)) (ck1 ck2 : jar) (c1 : option json)
    (login_token login_result block reason entry : json) (k : string)
    (kvs : list (string * json)) (e0 : exn) :
  (Py.truthy_str (Args.consumer_key a) && Py.truthy_str (Args.consumer_secret a))%bool = false ->
  Args.use_clientlogin a = false ->
  net w = r1 :: r2 :: rest ->
  payload r1 = Answer ck1 c1 ->
  token_field "logintoken" c1 = Return login_token ->
  payload r2 = Answer ck2 (Some login_result) ->
  Py.getitem login_result (JStr "login") = Return block ->
  Py.getitem block (JStr "result") = Return reason ->
  Py.eq_str reason "Success" = true ->
  (Args.debug a = false
   \/ exists lgusername, Py.getitem block (JStr "lgusername") = Return lgusername) ->
  Py.getitem login_result (JStr "warnings") = Return (JDict kvs) ->
  Py.assoc k kvs = Some entry ->
  Py.getitem entry (JStr "*") = Raise e0 ->
  exists before bad after bad_entry e,
    map fst kvs = (before ++ bad :: after)%list
    /\ (forall k', In k' before ->
          exists v star, Py.assoc k' kvs = Some v /\ Py.getitem v (JStr "*") = Return star)
    /\ Py.assoc bad kvs = Some bad_entry
    /\ Py.getitem bad_entry (JStr "*") = Raise e
    /\ (forall fields, bad_entry = JDict fields -> e = KeyError (JStr "*"))
    /\ snd (Login_init a w) = Raise e
    /\ (exists second first, sent (fst (Login_init a w)) = second :: first :: sent w)
    /\ length (stdout (fst (Login_init a w)))
       = ((if Args.debug a then 3 else 0) + 1 + length before + length (stdout w))%nat.
Proof.
  intros Hkeys Huse Hnet Hp1 Htok Hp2 Hb Hr Heq Hdebug Hw Hk Hstar.
  destruct (first_bad_warning kvs (map fst kvs) (fun k' => key_assoc k' kvs)
              (ex_intro _ k (ex_intro _ entry (ex_intro _ e0
                 (conj (assoc_key k entry kvs Hk) (conj Hk Hstar))))))
    as (before & bad & after & bad_entry & e & Hsplit & Hgood & Hbad & He).
  exists before, bad, after, bad_entry, e.
  split; [exact Hsplit|]. split; [exact Hgood|]. split; [exact Hbad|]. split; [exact He|].
  split.
  { intros fields ->. cbn in He. destruct (Py.assoc "*" fields); congruence. }
  assert (Hcheck : forall st, outcome (check_of a login_result st) = Raise e).
  { intros st. unfold check_of. rewrite Huse.
    exact (proj1 (login_check_stops _ _ _ _ _ _ _ _ _ _ st
                    Hb Hr Heq Hdebug Hw Hsplit Hgood Hbad He)). }
  destruct (Login_init_check_raises a w r1 r2 rest ck1 ck2 c1 login_token login_result _
              Hkeys Hnet Hp1 Htok Hp2 Hcheck) as (Ho & second & first & Hs & _).
  split; [exact Ho|]. split; [exists second, first; exact Hs|].
  rewrite Login_init_eq.
  rewrite (Login_init_logged_in a w r1 r2 rest ck1 ck2 c1 login_token login_result
             Hkeys Hnet Hp1 Htok Hp2).
  cbn [fst]. unfold final_world.
  rewrite (bind_raise_state _ _ _ _ (Hcheck _)).
  unfold check_of. rewrite Huse.
  rewrite (proj2 (login_check_stops _ _ _ _ _ _ _ _ _ _ _
                    Hb Hr Heq Hdebug Hw Hsplit Hgood Hbad He)).
  unfold logged_in. cbn [snd stdout w_request].
  rewrite init_attributes_stdout. destruct (Args.debug a); lia.
Qed.

Lemma bad_warning_ends_construction_witness :
  exists (before : list string) (e : exn),
    snd (Login_init Sample.password (Sample.world 0 (Sample.wiki Sample.login_badly_warned)))
    = Raise e
    /\ length (stdout (fst (Login_init Sample.password
                              (Sample.world 0 (Sample.wiki Sample.login_badly_warned)))))
       = (0 + 1 + length before + 0)%nat.
Proof.
  destruct (bad_warning_ends_construction Sample.password
              (Sample.world 0 (Sample.wiki Sample.login_badly_warned))
              _ _ _ _ _ _ _ _ _ _ _ "login" _ (KeyError (JStr "*"))
              eq_refl eq_refl eq_refl eq_refl eq_refl eq_refl eq_refl eq_refl eq_refl
              (or_introl eq_refl) eq_refl eq_refl eq_refl)
    as (before & bad & after & bad_entry & e & _ & _ & _ & _ & _ & Ho & _ & Hn).
  exists before, e. split; [exact Ho | exact Hn].
Defined.

(** ** The accessors, call after call *)

Lemma renew_keeps_period : preserves (same period_of) renew.
Proof.
  unfold renew, generate_edit_credentials. frame_with same_prim same_side.
Qed.

(** X8. [get_edit_cookie] past the renew period, answered with a
    [csrftoken]: one token query goes out; the jar that is returned, and
    kept by the session, is the old jar updated with the cookies of the
    reply; the token of the reply is stored and stamped with the time of its
    arrival. *)
Theorem get_edit_cookie_renews (l : Login) (w : World) (r : Reply answer)
    (rest : list (Reply answer)) (ck : jar) (content : option json) (tok : json) :
  clock w - instantiation_time l > token_renew_period l ->
  net w = r :: rest ->
  payload r = Answer ck content ->
  token_field "csrftoken" content = Return tok ->
  get_edit_cookie (l, w)
  = ((with_instantiation_time (with_edit_token (received l ck) tok)
        (clock w + Z.of_N (delay r)),
      w_request (token_request l) (delay r) rest w),
     Return (store_cookies ck (cookies (s l)))).
Proof.
  intros Hgt Hnet Hp Htok.
  rewrite get_edit_cookie_eq, (proj2 (due_spec l w) Hgt), renew_eq.
  rewrite generate_edit_credentials_eq, Hnet, Hp. cbn zeta. rewrite Htok.
  reflexivity.
Qed.

Lemma get_edit_cookie_renews_witness :
  outcome (get_edit_cookie (Sample.manager (JStr "old") 0 1800,
                            Sample.world 1801 [Sample.fresh]))
  = Return [("session", "c1"); ("token", "t")].
Proof.
  rewrite (get_edit_cookie_renews (Sample.manager (JStr "old") 0 1800)
             (Sample.world 1801 [Sample.fresh]) Sample.fresh [] 
             [("session", "c1"); ("token", "t")] _ (JStr "new+\")
             ltac:(simpl; lia) eq_refl eq_refl eq_refl).
  reflexivity.
Defined.

(** X9. With a renew period that is not negative, a call of
    [get_edit_token] that returns a non-empty token leaves the instance
    settled: the same call made again at once sends nothing, changes
    nothing and returns the same token. *)
Theorem get_edit_token_settles (l : Login) (w : World) (tok : json) :
  0 <= token_renew_period l ->
  outcome (get_edit_token (l, w)) = Return tok ->
  Py.truthy tok = true ->
  get_edit_token (fst (get_edit_token (l, w))) = (fst (get_edit_token (l, w)), Return tok).
Proof.
  intros Hperiod Hret Htruthy. revert Hret.
  rewrite get_edit_token_eq. unfold outcome.
  destruct (token_due l w) eqn:Hdue.
  - destruct (next_csrftoken w) as [e|tok'] eqn:Hnext.
    + destruct (renew_failure l w e Hnext) as [Ho _]. unfold outcome in Ho.
      destruct (renew (l, w)) as [st' [e'|u]]; discriminate.
    + destruct (renew_success l w tok' Hnext) as (Ho & Ht & Hi).
      pose proof (renew_keeps_period (l, w)) as Hp.
      unfold outcome, final_self, final_world, same, period_of in *.
      destruct (renew (l, w)) as [[l' w'] [e'|u]]; cbn [fst snd] in *; [discriminate|].
      intros Heq. injection Heq as <-.
      apply get_edit_token_not_due; [exact Htruthy | lia].
  - cbn [fst snd]. intros Heq. injection Heq as <-.
    rewrite get_edit_token_eq, Hdue. reflexivity.
Qed.

Lemma get_edit_token_settles_witness :
  get_edit_token (fst (get_edit_token (Sample.manager (JStr "old") 0 1800,
                                       Sample.world 5000 [Sample.tokens "csrftoken" "new+\" 2])))
  = (fst (get_edit_token (Sample.manager (JStr "old") 0 1800,
                          Sample.world 5000 [Sample.tokens "csrftoken" "new+\" 2])),
     Return (JStr "new+\")).
Proof.
  apply (get_edit_token_settles (Sample.manager (JStr "old") 0 1800)
           (Sample.world 5000 [Sample.tokens "csrftoken" "new+\" 2]) (JStr "new+\")).
  - simpl. lia.
  - reflexivity.
  - reflexivity.
Defined.

(** X10. A [csrftoken] that Python counts as false (the empty string,
    [null]) is stored and returned like any other, and never counts as
    issued: whenever [get_edit_token] is called again, however soon, it
    sends the token query again. *)
Theorem falsy_token_is_fetched_again (l : Login) (w w2 : World) (tok : json) :
  token_due l w = true ->
  next_csrftoken w = Return tok ->
  Py.truthy tok = false ->
  outcome (get_edit_token (l, w)) = Return tok
  /\ sent (final_world (get_edit_token (final_self (get_edit_token (l, w)), w2)))
     = token_request (final_self (get_edit_token (l, w))) :: sent w2.
Proof.
  intros Hdue Hnext Hfalsy.
  destruct (renew_success l w tok Hnext) as (Ho & Ht & _).
  assert (Hfirst : outcome (get_edit_token (l, w)) = Return tok
                   /\ edit_token (final_self (get_edit_token (l, w))) = tok).
  { rewrite get_edit_token_eq, Hdue. unfold outcome, final_self in *.
    destruct (renew (l, w)) as [st' [e|u]]; cbn [fst snd] in *; [discriminate|].
    rewrite Ht. auto. }
  destruct Hfirst as [Hret Hstored]. split; [exact Hret|].
  rewrite get_edit_token_sent. unfold token_due. rewrite Hstored, Hfalsy. reflexivity.
Qed.

Lemma falsy_token_is_fetched_again_witness :
  outcome (get_edit_token (Sample.pending 0 1800, Sample.world 1 [Sample.tokens "csrftoken" "" 1]))
  = Return (JStr "")
  /\ sent (final_world (get_edit_token
             (final_self (get_edit_token
                (Sample.pending 0 1800, Sample.world 1 [Sample.tokens "csrftoken" "" 1])),
              Sample.world 2 [])))
     = [token_request (final_self (get_edit_token
          (Sample.pending 0 1800, Sample.world 1 [Sample.tokens "csrftoken" "" 1])))].
Proof.
  apply (falsy_token_is_fetched_again (Sample.pending 0 1800)
           (Sample.world 1 [Sample.tokens "csrftoken" "" 1]) (Sample.world 2 []) (JStr ""));
    reflexivity.
Defined.

(** ** The callback data *)

Lemma join_split (sep : ascii) (b : string) : join sep (Py.split sep b) = b.
Proof.
  induction b as [|c rest IH]; [reflexivity|].
  cbn [Py.split]. pose proof (split_nonempty sep rest) as Hne.
  destruct (Ascii.eqb_spec c sep) as [->|Hc].
  - cbn [join]. destruct (Py.split sep rest) as [|p ps]; [contradiction|].
    rewrite IH. reflexivity.
  - destruct (Py.split sep rest) as [|p ps]; [contradiction|].
    cbn [join] in *. destruct ps; rewrite <- IH; reflexivity.
Qed.

Lemma split_pieces (sep : ascii) (b : string) :
  Forall (fun piece => has_char sep piece = false) (Py.split sep b).
Proof.
  induction b as [|c rest IH]; cbn [Py.split].
  - constructor; [reflexivity | constructor].
  - pose proof (split_nonempty sep rest) as Hne.
    destruct (Ascii.eqb_spec c sep) as [->|Hc].
    + constructor; [reflexivity | exact IH].
    + destruct (Py.split sep rest) as [|p ps]; [contradiction|].
      inversion IH as [|? ? Hp Hps]; subst. constructor; [|exact Hps].
      cbn [has_char]. rewrite Hp. destruct (Ascii.eqb_spec c sep); [contradiction|reflexivity].
Qed.

Lemma last_item_last (pieces : list string) :
  pieces <> [] -> Py.last_item pieces = Return (last pieces EmptyString).
Proof.
  intros Hne. unfold Py.last_item, Py.index.
  replace (-1 <? 0) with true by reflexivity.
  assert (Hlen : (0 < length pieces)%nat) by (destruct pieces; [contradiction | cbn; lia]).
  destruct (Z.leb_spec 0 (-1 + Z.of_nat (length pieces))); [|lia].
  destruct (Z.ltb_spec (-1 + Z.of_nat (length pieces)) (Z.of_nat (length pieces))); [|lia].
  cbn [andb].
  replace (Z.to_nat (-1 + Z.of_nat (length pieces))) with (length pieces - 1)%nat by lia.
  clear - Hne. induction pieces as [|p ps IH]; [contradiction|].
  destruct ps as [|q qs]; [reflexivity|].
  cbn [length] in *. replace (S (S (length qs)) - 1)%nat with (S (length qs)) by lia.
  cbn [nth_error]. replace (length qs) with (S (length qs) - 1)%nat by lia.
  rewrite IH by discriminate. reflexivity.
Qed.

Lemma string_app_assoc (x y z : string) : ((x ++ y) ++ z)%string = (x ++ (y ++ z))%string.
Proof.
  induction x as [|c x IH]; cbn; [reflexivity | rewrite IH; reflexivity].
Qed.

Lemma join_last (sep : ascii) (pieces : list string) :
  pieces <> [] ->
  join sep pieces = last pieces EmptyString
  \/ exists before, join sep pieces = before ++ String sep (last pieces EmptyString).
Proof.
  induction pieces as [|p ps IH]; intros Hne; [contradiction|].
  destruct ps as [|q qs]; [left; reflexivity|].
  right. destruct (IH ltac:(discriminate)) as [Heq | [before Heq]].
  - exists p. cbn [join last] in *. rewrite Heq. reflexivity.
  - exists (p ++ String sep before). cbn [join last] in *. rewrite Heq.
    rewrite string_app_assoc. reflexivity.
Qed.

(** The value of [response_qs.split(b'?')[-1]]: the part of the callback
    data after its last question mark, all of it when it has none. *)
Lemma query_string_spec (b qs : string) :
  Py.last_item (Py.split "?" b) = Return qs ->
  has_char "?" qs = false
  /\ (b = qs \/ exists before, b = before ++ String "?" qs).
Proof.
  pose proof (split_nonempty "?" b) as Hne.
  rewrite (last_item_last _ Hne). intros H. injection H as <-.
  split.
  - pose proof (split_pieces "?" b) as Hall.
    rewrite Forall_forall in Hall. apply Hall.
    destruct (exists_last Hne) as (init & x & Heq). rewrite Heq, last_last.
    apply in_or_app. right. left. reflexivity.
  - destruct (join_last "?" _ Hne) as [H | [before H]]; rewrite join_split in H.
    + left. exact H.
    + right. exists before. exact H.
Qed.

(** ** The completion of the handshake *)

(** X11. The provider receives, with the stored request token, the part of
    the callback data after its last question mark, or all of it when it
    has none. *)
Theorem exchange_carries_query_string (b : string) (l : Login) (w : World)
    (h : Handshaker) (rt : Token) :
  b <> "" ->
  handshaker l = Some h ->
  request_token l = Some rt ->
  exists qs,
    hs_calls (final_world (continue_oauth (PBytes b) (l, w)))
    = Complete h rt qs :: hs_calls w
    /\ has_char "?" qs = false
    /\ (b = qs \/ exists before, b = before ++ String "?" qs).
Proof.
  intros Hb Hh Hrt.
  destruct (split_last b) as [qs Hqs]. exists qs.
  split; [|exact (query_string_spec b qs Hqs)].
  rewrite (continue_oauth_exchange b qs l w h rt Hb Hqs Hh Hrt). unfold final_world.
  destruct (completions w) as [|r rest]; [reflexivity|].
  destruct (payload r) as [access|]; [|reflexivity].
  destruct (consumer_token l) as [ct|]; [|reflexivity].
  cbn zeta. unfold bind, ret.
  match goal with
  | |- context [generate_edit_credentials ?st] =>
      pose proof (generate_no_handshake st) as Hhs
  end.
  unfold same, hs_calls_of in Hhs.
  destruct (generate_edit_credentials _) as [st' [e|c]]; cbn [fst snd] in *;
    rewrite Hhs; reflexivity.
Qed.

Lemma exchange_carries_query_string_witness :
  exists qs,
    hs_calls (final_world (continue_oauth
                (PBytes "https://example.org/cb?oauth_verifier=v&oauth_token=rk")
                (Sample.pending 0 1800, Sample.strict)))
    = Complete Sample.shaker Sample.temporary qs :: hs_calls Sample.strict
    /\ has_char "?" qs = false
    /\ ("https://example.org/cb?oauth_verifier=v&oauth_token=rk" = qs
        \/ exists before,
             "https://example.org/cb?oauth_verifier=v&oauth_token=rk" = before ++ String "?" qs).
Proof.
  apply (exchange_carries_query_string
           "https://example.org/cb?oauth_verifier=v&oauth_token=rk"
           (Sample.pending 0 1800) Sample.strict Sample.shaker Sample.temporary).
  - discriminate.
  - reflexivity.
  - reflexivity.
Defined.

(** X12. A completion that the provider accepts and whose token query is
    answered with a [csrftoken]: the session is signed with the consumer
    and the access token before the query goes out (the query carries the
    signer), the [csrftoken] becomes the edit token, the callback data is
    kept in [response_qs], and the timestamp is the one of the
    construction. *)
Theorem continue_oauth_completes (b : string) (l : Login) (w : World)
    (h : Handshaker) (rt ct access : Token) (r : Reply (option Token))
    (rest : list (Reply (option Token))) (tok : json) :
  b <> "" ->
  handshaker l = Some h ->
  request_token l = Some rt ->
  consumer_token l = Some ct ->
  completions w = r :: rest ->
  payload r = Some access ->
  csrftoken_from (net w) = Return tok ->
  outcome (continue_oauth (PBytes b) (l, w)) = Return tt
  /\ edit_token (final_self (continue_oauth (PBytes b) (l, w))) = tok
  /\ auth (s (final_self (continue_oauth (PBytes b) (l, w))))
     = Some {| client_key := key ct; client_secret := secret ct;
               resource_owner_key := key access; resource_owner_secret := secret access |}
  /\ response_qs (final_self (continue_oauth (PBytes b) (l, w))) = PBytes b
  /\ instantiation_time (final_self (continue_oauth (PBytes b) (l, w))) = instantiation_time l
  /\ exists query,
       sent (final_world (continue_oauth (PBytes b) (l, w))) = query :: sent w
       /\ req_fields query = token_query
       /\ req_auth query
          = Some {| client_key := key ct; client_secret := secret ct;
                    resource_owner_key := key access; resource_owner_secret := secret access |}.
Proof.
  intros Hb Hh Hrt Hct Hcomp Hacc Htok.
  destruct (split_last b) as [qs Hqs].
  rewrite (continue_oauth_exchange b qs l w h rt Hb Hqs Hh Hrt), Hcomp, Hacc, Hct.
  cbn zeta. unfold final_self, final_world, outcome, bind, ret.
  rewrite generate_edit_credentials_eq. cbn [net w_handshake].
  unfold csrftoken_from in Htok.
  destruct (net w) as [|r' rest']; [discriminate|].
  destruct (payload r') as [|ck content]; [discriminate|].
  cbn zeta. rewrite Htok. cbn. repeat split. eexists. repeat split.
Qed.

Lemma continue_oauth_completes_witness :
  edit_token (final_self (continue_oauth Sample.callback (Sample.pending 0 1800, Sample.strict)))
  = JStr "t1+\" .
Proof.
  refine (proj1 (proj2 (continue_oauth_completes
            "https://example.org/cb?oauth_verifier=v&oauth_token=rk"
            (Sample.pending 0 1800) Sample.strict Sample.shaker Sample.temporary
            Sample.consumer {| key := "ak1"; secret := "as1" |} _ _ (JStr "t1+\")
            ltac:(discriminate) eq_refl eq_refl eq_refl eq_refl eq_refl eq_refl))).
Defined.

(** The callback data of an earlier call does not matter to the next. *)
Lemma continue_oauth_overwrites_response_qs (d old : pyarg) (l : Login) (w : World) :
  continue_oauth d (with_response_qs l old, w) = continue_oauth d (l, w).
Proof.
  unfold continue_oauth. unfold bind at 1. unfold bind at 4. unfold assign at 1.
  unfold assign at 3. reflexivity.
Qed.

(** X13. A completion that the provider rejects raises the provider's
    exception and sends nothing to the API; the instance differs from the
    one before the call in [response_qs] only, so that whatever
    [continue_oauth] is called with next, it does what it would have done
    on the instance before the rejected call. *)
Theorem rejected_completion_can_be_retried (b : string) (l : Login) (w : World)
    (h : Handshaker) (rt : Token) (r : Reply (option Token))
    (rest : list (Reply (option Token))) :
  b <> "" ->
  handshaker l = Some h ->
  request_token l = Some rt ->
  completions w = r :: rest ->
  payload r = None ->
  outcome (continue_oauth (PBytes b) (l, w)) = Raise OAuthException
  /\ final_self (continue_oauth (PBytes b) (l, w)) = with_response_qs l (PBytes b)
  /\ sent (final_world (continue_oauth (PBytes b) (l, w))) = sent w
  /\ completions (final_world (continue_oauth (PBytes b) (l, w))) = rest
  /\ forall d w',
       continue_oauth d (final_self (continue_oauth (PBytes b) (l, w)), w')
       = continue_oauth d (l, w').
Proof.
  intros Hb Hh Hrt Hcomp Hrej.
  destruct (split_last b) as [qs Hqs].
  rewrite (continue_oauth_exchange b qs l w h rt Hb Hqs Hh Hrt), Hcomp, Hrej.
  cbn zeta. unfold final_self, final_world, outcome. cbn [fst snd].
  split; [reflexivity|]. split; [reflexivity|]. split; [reflexivity|].
  split; [reflexivity|]. intros d w'. apply continue_oauth_overwrites_response_qs.
Qed.

Lemma rejected_completion_can_be_retried_witness :
  outcome (continue_oauth Sample.callback
             (Sample.pending 0 1800,
              Sample.provider 0 [] [Sample.rejected; Sample.accepted "ak" "as"]
                [Sample.tokens "csrftoken" "t+\" 1] []))
  = Raise OAuthException.
Proof.
  refine (proj1 (rejected_completion_can_be_retried
            "https://example.org/cb?oauth_verifier=v&oauth_token=rk"
            (Sample.pending 0 1800)
            (Sample.provider 0 [] [Sample.rejected; Sample.accepted "ak" "as"]
               [Sample.tokens "csrftoken" "t+\" 1] [])
            Sample.shaker Sample.temporary _ _
            ltac:(discriminate) eq_refl eq_refl eq_refl eq_refl)).
Defined.

(** ** Instances that were not built for OAuth *)

Lemma init_by_login_keeps_handshake_attrs (a : Args.t) :
  preserves (same handshake_attrs_of) (init_by_login a).
Proof.
  unfold init_by_login, get_login_token, init_clientlogin, clientlogin_check,
    init_login, login_check, generate_edit_credentials.
  frame_with same_prim same_side.
Qed.

(** An instance of the login branch has none of the OAuth attributes. *)
Lemma login_instance_has_no_handshake (a : Args.t) (w : World) (l : Login) :
  (Py.truthy_str (Args.consumer_key a) && Py.truthy_str (Args.consumer_secret a))%bool = false ->
  snd (Login_init a w) = Return l ->
  handshaker l = None /\ redirect l = None.
Proof.
  intros Hkeys. rewrite Login_init_eq, Login_init_branch, Hkeys. cbn [snd].
  pose proof (init_by_login_keeps_handshake_attrs a (init_attributes a w)) as Hk.
  unfold same, handshake_attrs_of, final_world, final_self, outcome in *.
  destruct (init_by_login a (init_attributes a w)) as [[l1 w1] [e|u]];
    cbn [fst snd] in *; [discriminate|].
  intros H. injection H as <-.
  injection Hk as Hh Hr _ _. rewrite Hh, Hr.
  unfold init_attributes. destruct (init_user_agent a _). cbn. auto.
Qed.

(** X14. [continue_oauth] on an instance built by password or clientlogin
    always raises, whatever it is given: [AttributeError] for the missing
    [redirect] when the callback data is absent or empty, [TypeError] for
    text, [AttributeError] for the missing [handshaker] for bytes. Nothing
    is sent to the API or put to the provider, and session and edit token
    stay as they are. *)
Theorem continue_oauth_needs_oauth_instance (a : Args.t) (w w2 : World) (l : Login)
    (d : pyarg) :
  (Py.truthy_str (Args.consumer_key a) && Py.truthy_str (Args.consumer_secret a))%bool = false ->
  snd (Login_init a w) = Return l ->
  outcome (continue_oauth d (l, w2))
  = Raise (if Py.truthy_arg d
           then match d with
                | PStr _ => TypeError
                | _ => AttributeError "handshaker"
                end
           else AttributeError "redirect")
  /\ final_self (continue_oauth d (l, w2)) = with_response_qs l d
  /\ final_world (continue_oauth d (l, w2)) = w2.
Proof.
  intros Hkeys Hinit.
  destruct (login_instance_has_no_handshake a w l Hkeys Hinit) as [Hh Hr].
  destruct (Py.truthy_arg d) eqn:Hd.
  - destruct d as [|t|b]; [discriminate | |].
    + rewrite (continue_oauth_text t l w2 Hd). auto.
    + destruct (split_last b) as [qs Hqs].
      unfold continue_oauth, outcome, final_self, final_world,
        bind, assign, self, attr, split_response_qs, lift, ret.
      cbn [fst snd response_qs with_response_qs]. rewrite Hd.
      cbn [negb fst snd response_qs with_response_qs handshaker]. rewrite Hqs.
      cbn [fst snd handshaker with_response_qs]. rewrite Hh. auto.
  - rewrite (continue_oauth_interactive d l w2 Hd), Hr. auto.
Qed.

Lemma continue_oauth_needs_oauth_instance_witness :
  outcome (continue_oauth Sample.callback (Sample.built, Sample.strict))
  = Raise (AttributeError "handshaker").
Proof.
  assert (Hbuilt : snd (Login_init Sample.password (Sample.world 0 Sample.friendly))
                   = Return Sample.built) by (vm_compute; reflexivity).
  exact (proj1 (continue_oauth_needs_oauth_instance Sample.password
                  (Sample.world 0 Sample.friendly) Sample.strict Sample.built
                  Sample.callback eq_refl Hbuilt)).
Defined.

(** ** Where the requests go *)

Lemma addressed_refl (st : St) : addressed st st.
Proof.
  split; [reflexivity|]. exists []. split; [reflexivity | constructor].
Qed.

Lemma addressed_trans (st1 st2 st3 : St) :
  addressed st1 st2 -> addressed st2 st3 -> addressed st1 st3.
Proof.
  intros (Hid1 & new1 & Hs1 & Hall1) (Hid2 & new2 & Hs2 & Hall2).
  split; [congruence|].
  exists (new2 ++ new1)%list. split.
  - rewrite Hs2, Hs1. apply app_assoc.
  - apply Forall_app. split; [|exact Hall1]. rewrite <- Hid1. exact Hall2.
Qed.

Ltac addressed_side := first [exact addressed_refl | exact addressed_trans].

(** Steps that send nothing and keep the session's identity. *)
Ltac addressed_prim :=
  let st := fresh "st" in
  intros st; destruct st as [? ?];
  unfold addressed, identity_of, print, webbrowser_open, input,
    handshaker_initiate, handshaker_complete, assign, effect;
  cbn [fst snd];
  repeat split_match; cbn;
  (split; [reflexivity | exists []; split; [reflexivity | constructor]]).

(** One request, built by [request_of] for the API URL of the instance,
    followed by steps that keep the identity and send nothing. *)
Lemma addressed_request {A : Type} (c : M A) (v : verb) (fields : list (string * json)) :
  preserves (same identity_of) c ->
  (forall l w, sent (final_world (c (l, w)))
               = request_of l v (mediawiki_api_url l) fields :: sent w) ->
  preserves addressed c.
Proof.
  intros Hid Hsent [l w]. split; [exact (Hid (l, w))|].
  exists [request_of l v (mediawiki_api_url l) fields]. split.
  - exact (Hsent l w).
  - constructor; [|constructor]. repeat split.
Qed.

Lemma generate_addressed : preserves addressed generate_edit_credentials.
Proof.
  apply (addressed_request _ GET token_query).
  - unfold generate_edit_credentials. frame_with same_prim same_side.
  - exact generate_sent.
Qed.

Lemma get_login_token_addressed : preserves addressed get_login_token.
Proof.
  apply (addressed_request _ POST login_token_query).
  - unfold get_login_token. frame_with same_prim same_side.
  - exact get_login_token_sent.
Qed.

Lemma init_clientlogin_addressed (user pwd : option string) (debug : bool) (tok : json) :
  preserves addressed (init_clientlogin user pwd debug tok).
Proof.
  apply (addressed_request _ POST (clientlogin_params user pwd tok)).
  - unfold init_clientlogin, clientlogin_check. frame_with same_prim same_side.
  - apply init_clientlogin_sent.
Qed.

Lemma init_login_addressed (user pwd : option string) (debug : bool) (tok : json) :
  preserves addressed (init_login user pwd debug tok).
Proof.
  apply (addressed_request _ POST (login_params user pwd tok)).
  - unfold init_login, login_check. frame_with same_prim same_side.
  - apply init_login_sent.
Qed.

Lemma init_authenticate_addressed (a : Args.t) : preserves addressed (init_authenticate a).
Proof.
  unfold init_authenticate, init_by_login, init_oauth.
  frame_with ltac:(first [ apply generate_addressed | apply get_login_token_addressed
                         | apply init_clientlogin_addressed | apply init_login_addressed
                         | addressed_prim ])
             addressed_side.
Qed.

(** X15. The two accessors send their requests to the API URL of the
    instance, under the user agent and with the signer of its session, and
    leave URL, user agent and signer as they are. *)
Theorem accessors_are_addressed (l : Login) (w : World) :
  addressed (l, w) (fst (get_edit_token (l, w)))
  /\ addressed (l, w) (fst (get_edit_cookie (l, w))).
Proof.
  split.
  - assert (H : preserves addressed get_edit_token).
    { unfold get_edit_token, renew.
      frame_with ltac:(first [apply generate_addressed | addressed_prim]) addressed_side. }
    exact (H (l, w)).
  - assert (H : preserves addressed get_edit_cookie).
    { unfold get_edit_cookie, renew.
      frame_with ltac:(first [apply generate_addressed | addressed_prim]) addressed_side. }
    exact (H (l, w)).
Qed.

Lemma init_attributes_given_user_agent (a : Args.t) (w : World) :
  Py.truthy_str (Args.user_agent a) = true ->
  user_agent (fst (init_attributes a w)) = Py.text_of (Args.user_agent a).
Proof.
  intros H. unfold init_attributes, init_user_agent. rewrite H. reflexivity.
Qed.

(** X16. Whatever its outcome, a construction sends its requests to the
    API URL given as argument, or to the configured one when none is given
    (an empty URL is a given URL); they carry the user agent of the new
    instance, which is the [user_agent] argument or else the configured
    default as the construction leaves it, and no signer. *)
Theorem construction_is_addressed (a : Args.t) (w : World) :
  exists new,
    sent (fst (Login_init a w)) = (new ++ sent w)%list
    /\ Forall (fun r =>
         req_url r = api_url_of a w
         /\ req_user_agent r
            = (if Py.truthy_str (Args.user_agent a) then Py.text_of (Args.user_agent a)
               else USER_AGENT_DEFAULT (fst (Login_init a w)))
         /\ req_auth r = None) new.
Proof.
  destruct (init_authenticate_addressed a (init_attributes a w)) as (_ & new & Hs & Hall).
  exists new. rewrite Login_init_eq. cbn [fst]. unfold final_world.
  destruct (init_attributes_world a w) as (_ & Hsent & _).
  rewrite Hs, Hsent. split; [reflexivity|].
  destruct (init_attributes_session a w) as (Hurl & _ & Hauth & Hua).
  pose proof (init_authenticate_steady a (init_attributes a w)) as (_ & _ & Hdef & _).
  rewrite Hdef.
  eapply Forall_impl; [|exact Hall].
  intros r (H1 & H2 & H3). unfold identity_of in *. cbn [fst snd] in *.
  rewrite H1, H2, H3, Hurl, Hauth, Hua. repeat split.
  destruct (Py.truthy_str (Args.user_agent a)) eqn:Hgiven.
  - apply init_attributes_given_user_agent. exact Hgiven.
  - apply init_attributes_user_agent. exact Hgiven.
Qed.

(** ** The user name in the default user agent *)

Lemma casefold_app (x y : string) :
  Py.casefold (x ++ y) = (Py.casefold x ++ Py.casefold y)%string.
Proof.
  induction x as [|c x IH]; cbn; [reflexivity | rewrite IH; reflexivity].
Qed.

Lemma prefix_app_r (x p q : string) : prefix x p = true -> prefix x (p ++ q) = true.
Proof.
  revert p. induction x as [|c x IH]; intros p H.
  - destruct (p ++ q)%string; reflexivity.
  - destruct p as [|d p]; cbn in H; [discriminate|].
    cbn. destruct (ascii_dec c d); [apply IH; exact H | discriminate].
Qed.

Lemma substring_app_r (x p q : string) :
  Py.substring x p = true -> Py.substring x (p ++ q) = true.
Proof.
  induction p as [|d p IH]; cbn [Py.substring]; intros H.
  - rewrite orb_false_r in H. destruct x; [|discriminate H].
    destruct (""  ++ q)%string; reflexivity.
  - apply orb_true_iff in H. destruct H as [H | H].
    + change (String d p ++ q)%string with (String d (p ++ q)).
      cbn [Py.substring]. apply orb_true_iff. left.
      exact (prefix_app_r x (String d p) q H).
    + change (String d p ++ q)%string with (String d (p ++ q)).
      cbn [Py.substring]. apply orb_true_iff. right. exact (IH H).
Qed.

Lemma substring_app_l (x p q : string) :
  Py.substring x q = true -> Py.substring x (p ++ q) = true.
Proof.
  intros H. induction p as [|d p IH]; [exact H|].
  change (String d p ++ q)%string with (String d (p ++ q)).
  cbn [Py.substring]. apply orb_true_iff. right. exact IH.
Qed.

Lemma substring_middle (x p q : string) : Py.substring x (p ++ x ++ q) = true.
Proof.
  apply substring_app_l.
  destruct (x ++ q)%string eqn:Heq.
  - destruct x; [reflexivity | discriminate].
  - rewrite <- Heq. 
    assert (Hp : prefix x (x ++ q) = true) by apply prefix_app.
    destruct (x ++ q)%string; cbn [Py.substring]; rewrite Hp; reflexivity.
Qed.

(** The default after a construction is the default before it, possibly
    with something appended. *)
Lemma Login_init_appends (a : Args.t) (w : World) :
  exists suffix,
    USER_AGENT_DEFAULT (fst (Login_init a w)) = (USER_AGENT_DEFAULT w ++ suffix)%string.
Proof.
  rewrite Login_init_user_agent_default, init_user_agent_default.
  destruct (_ && _ && _)%bool.
  - eexists. reflexivity.
  - exists EmptyString. clear. induction (USER_AGENT_DEFAULT w) as [|c u IH];
      cbn; [reflexivity | rewrite <- IH; reflexivity].
Qed.

(** Once a construction without [user_agent] ran for a user, the name of
    the user is in the default, casefolded. *)
Lemma Login_init_names_user (a : Args.t) (w : World) :
  Py.truthy_str (Args.user_agent a) = false ->
  Py.truthy_str (Args.user a) = true ->
  Py.substring (Py.casefold (Py.text_of (Args.user a)))
               (Py.casefold (USER_AGENT_DEFAULT (fst (Login_init a w)))) = true.
Proof.
  intros Hom Huser.
  rewrite Login_init_user_agent_default, init_user_agent_default, Hom, Huser.
  cbn [negb andb].
  destruct (Py.substring _ (Py.casefold (USER_AGENT_DEFAULT w))) eqn:Hin; cbn [negb].
  - exact Hin.
  - rewrite !casefold_app. apply substring_app_l. apply substring_middle.
Qed.

Lemma after_constructions_keeps_name (x : string) (calls : list Args.t) (w : World) :
  Py.substring x (Py.casefold (USER_AGENT_DEFAULT w)) = true ->
  Py.substring x (Py.casefold (USER_AGENT_DEFAULT (after_constructions calls w))) = true.
Proof.
  revert w. induction calls as [|a later IH]; intros w H; cbn [after_constructions].
  - exact H.
  - apply IH. destruct (Login_init_appends a w) as [suffix ->].
    rewrite casefold_app. apply substring_app_r. exact H.
Qed.

(** X17. The name of a user is appended to the default user agent once:
    after a construction without [user_agent] for a user, no construction
    for the same user, however many other constructions come between,
    changes the default again. *)
Theorem user_is_appended_once (a a' : Args.t) (between : list Args.t) (w : World) :
  Py.truthy_str (Args.user_agent a) = false ->
  Py.truthy_str (Args.user a) = true ->
  Args.user a' = Args.user a ->
  USER_AGENT_DEFAULT (fst (Login_init a' (after_constructions between (fst (Login_init a w)))))
  = USER_AGENT_DEFAULT (after_constructions between (fst (Login_init a w))).
Proof.
  intros Hom Huser Hsame.
  rewrite Login_init_user_agent_default, init_user_agent_default, Hsame.
  rewrite (after_constructions_keeps_name _ between _ (Login_init_names_user a w Hom Huser)).
  cbn [negb]. rewrite andb_false_r. reflexivity.
Qed.

Lemma user_is_appended_once_witness :
  USER_AGENT_DEFAULT (fst (Login_init Sample.password
     (after_constructions [Sample.clientlogin false]
        (fst (Login_init Sample.password (Sample.world 0 []))))))
  = USER_AGENT_DEFAULT (after_constructions [Sample.clientlogin false]
        (fst (Login_init Sample.password (Sample.world 0 [])))).
Proof.
  apply (user_is_appended_once Sample.password Sample.password [Sample.clientlogin false]
           (Sample.world 0 [])); reflexivity.
Defined.

(** ** The debug flag *)

Lemma deaf_ret {A : Type} (x : A) : deaf (ret x).
Proof. intros st st' H. split; [exact H | reflexivity]. Qed.

Lemma deaf_raise {A : Type} (e : exn) : deaf (@raise A e).
Proof. intros st st' H. split; [exact H | reflexivity]. Qed.

Lemma deaf_lift {A : Type} (r : result A) : deaf (lift r).
Proof. intros st st' H. split; [exact H | reflexivity]. Qed.

Lemma deaf_bind {A B : Type} (c : M A) (k : A -> M B) :
  deaf c -> (forall x, deaf (k x)) -> deaf (bind c k).
Proof.
  intros Hc Hk st st' H. unfold bind. destruct (Hc st st' H) as [Hst Hr].
  destruct (c st) as [st1 [e|x]], (c st') as [st1' [e'|x']]; cbn [fst snd] in *;
    try discriminate.
  - injection Hr as ->. auto.
  - injection Hr as ->. exact (Hk x' st1 st1' Hst).
Qed.

Lemma deaf_refines {A : Type} (c : M A) : deaf c -> refines c c.
Proof.
  intros Hc st st' H x st1 Hrun. destruct (Hc st st' H) as [Hst Hr].
  rewrite Hrun in Hst, Hr. cbn [fst snd] in *.
  destruct (c st') as [st1' r']. cbn [fst snd] in *. subst r'. eauto.
Qed.

Lemma refines_bind {A B : Type} (c c' : M A) (k k' : A -> M B) :
  refines c c' -> (forall x, refines (k x) (k' x)) -> refines (bind c k) (bind c' k').
Proof.
  intros Hc Hk st st' H y st2. unfold bind.
  destruct (c st) as [st1 [e|x]] eqn:Hrun; [discriminate|].
  intros Hk1. destruct (Hc st st' H x st1 Hrun) as (st1' & -> & H1).
  exact (Hk x st1 st1' H1 y st2 Hk1).
Qed.

Lemma hushed_pair (l l' : Login) (w w' : World) :
  hushed_of (l, w) = hushed_of (l', w') -> l = l' /\ hush w = hush w'.
Proof.
  intros H. unfold hushed_of in H.
  pose proof (f_equal fst H) as H1. pose proof (f_equal snd H) as H2.
  cbn [fst snd] in *. auto.
Qed.

Lemma deaf_self : deaf self.
Proof.
  intros [l w] [l' w'] H. destruct (hushed_pair _ _ _ _ H) as [-> Hw].
  unfold self. cbn [fst snd]. auto.
Qed.

Lemma deaf_assign (f : Login -> Login) : deaf (assign f).
Proof.
  intros [l w] [l' w'] H. destruct (hushed_pair _ _ _ _ H) as [-> Hw].
  unfold assign, hushed_of. cbn [fst snd]. rewrite Hw. auto.
Qed.

Lemma deaf_print (items : list text) : deaf (print items).
Proof.
  intros [l w] [l' w'] H. destruct (hushed_pair _ _ _ _ H) as [-> Hw].
  unfold print, effect, hushed_of. cbn [fst snd]. split; [|reflexivity].
  f_equal. exact Hw.
Qed.

Lemma deaf_response_json (content : option json) : deaf (response_json content).
Proof. destruct content; [apply deaf_ret | apply deaf_raise]. Qed.

Lemma hush_w_request (req : Request) (d : N) (rest : list (Reply answer)) (w : World) :
  hush (w_request req d rest w) = w_request req d rest (hush w).
Proof. reflexivity. Qed.

Lemma hush_w_handshake (call : hs_call) (d : N)
    (inits : list (Reply (option (string * Token))))
    (comps : list (Reply (option Token))) (w : World) :
  hush (w_handshake call d inits comps w) = w_handshake call d inits comps (hush w).
Proof. reflexivity. Qed.

Lemma deaf_session_request (v : verb) (url : string) (fields : list (string * json)) :
  deaf (session_request v url fields).
Proof.
  intros [l w] [l' w'] H. destruct (hushed_pair _ _ _ _ H) as [-> Hw].
  pose proof (f_equal net Hw) as Hnet. cbn [net hush] in Hnet.
  unfold session_request, hushed_of. cbn [fst snd]. rewrite <- Hnet.
  destruct (net w) as [|r rest]; [|destruct (payload r)];
    cbn [fst snd]; rewrite !hush_w_request, Hw; auto.
Qed.

Lemma deaf_handshaker_initiate (h : Handshaker) (callback : string) :
  deaf (handshaker_initiate h callback).
Proof.
  intros [l w] [l' w'] H. destruct (hushed_pair _ _ _ _ H) as [-> Hw].
  pose proof (f_equal initiations Hw) as Hin. cbn [initiations hush] in Hin.
  pose proof (f_equal completions Hw) as Hco. cbn [completions hush] in Hco.
  unfold handshaker_initiate, hushed_of. cbn [fst snd]. rewrite <- Hin, <- Hco.
  destruct (initiations w) as [|r rest]; [|destruct (payload r)];
    cbn [fst snd]; rewrite !hush_w_handshake, Hw; auto.
Qed.

Ltac deaf_steps :=
  repeat
    match goal with
    | |- deaf (ret _) => apply deaf_ret
    | |- deaf (raise _) => apply deaf_raise
    | |- deaf (lift _) => apply deaf_lift
    | |- deaf (item _ _) => apply deaf_lift
    | |- deaf self => apply deaf_self
    | |- deaf (assign _) => apply deaf_assign
    | |- deaf (print _) => apply deaf_print
    | |- deaf (response_json _) => apply deaf_response_json
    | |- deaf (session_request _ _ _) => apply deaf_session_request
    | |- deaf (handshaker_initiate _ _) => apply deaf_handshaker_initiate
    | |- deaf (bind _ _) => apply deaf_bind; [|intros]
    | |- deaf (if ?b then _ else _) => destruct b
    end.

Lemma deaf_generate : deaf generate_edit_credentials.
Proof. unfold generate_edit_credentials. deaf_steps. Qed.

Lemma deaf_get_login_token : deaf get_login_token.
Proof. unfold get_login_token. deaf_steps. Qed.

Lemma deaf_init_oauth : deaf init_oauth.
Proof. unfold init_oauth. deaf_steps. Qed.

Lemma clientlogin_check_debug_off (login_result : json) (st st' st1 : St) :
  clientlogin_check true login_result st = (st1, Return tt) ->
  outcome (clientlogin_check false login_result st') = Return tt.
Proof.
  unfold clientlogin_check, outcome, bind, item, lift, ret, raise, print, effect.
  cbn [fst snd].
  repeat (split_match; cbn [fst snd negb]); try discriminate; reflexivity.
Qed.

(** Whether the loop over the warnings raises does not depend on the
    state it starts in. *)
Lemma warnings_loop_any_state (login_result : json) (messages : list json) (st st' : St) :
  let body := fun message : json =>
      bind (item login_result "warnings") (fun warnings =>
      bind (lift (Py.getitem warnings message)) (fun entry =>
      bind (item entry "*") (fun star =>
      print [Format "* {}: {}" [message; star]]))) in
  outcome (for_each messages body st) = outcome (for_each messages body st').
Proof.
  cbn zeta.
  set (body := fun message : json =>
      bind (item login_result "warnings") (fun warnings =>
      bind (lift (Py.getitem warnings message)) (fun entry =>
      bind (item entry "*") (fun star =>
      print [Format "* {}: {}" [message; star]])))).
  assert (Hstep : forall m,
            (exists e, forall st0, body m st0 = (st0, Raise e))
            \/ (exists o, forall st0, body m st0 = ((fst st0, w_stdout o (snd st0)), Return tt))).
  { intros m. unfold body, bind, item, lift, print, effect.
    destruct (Py.getitem login_result (JStr "warnings")) as [e|warnings]; [left; eauto|].
    destruct (Py.getitem warnings m) as [e|entry]; [left; eauto|].
    destruct (Py.getitem entry (JStr "*")) as [e|star]; [left; eauto|].
    right. eexists. intros st0. reflexivity. }
  revert st st'.
  induction messages as [|m rest IH]; intros st st'; [reflexivity|].
  cbn [for_each].
  destruct (Hstep m) as [[e He] | [o Ho]].
  - rewrite !(bind_raise _ _ _ e); [reflexivity | |]; unfold outcome; rewrite He; reflexivity.
  - rewrite (bind_return _ _ _ _ _ (Ho st)), (bind_return _ _ _ _ _ (Ho st')). apply IH.
Qed.

Lemma login_check_debug_off (login_result : json) (st st' st1 : St) :
  login_check true login_result st = (st1, Return tt) ->
  outcome (login_check false login_result st') = Return tt.
Proof.
  intros Hrun.
  assert (Hinv : exists block reason lgusername,
            Py.getitem login_result (JStr "login") = Return block
            /\ Py.getitem block (JStr "result") = Return reason
            /\ Py.eq_str reason "Success" = true
            /\ Py.getitem block (JStr "lgusername") = Return lgusername).
  { revert Hrun. unfold login_check, bind, item, lift, ret, raise, print, effect.
    cbn [fst snd].
    destruct (Py.getitem login_result (JStr "login")) as [e|block] eqn:Hb;
      cbn [fst snd]; [discriminate|].
    destruct (Py.getitem block (JStr "result")) as [e|reason] eqn:Hr;
      cbn [fst snd]; [discriminate|].
    destruct (Py.eq_str reason "Success") eqn:Heq; cbn [negb fst snd]; [|discriminate].
    destruct (Py.getitem block (JStr "lgusername")) as [e|lgusername] eqn:Hu;
      cbn [fst snd]; [discriminate|].
    intros _. exists block, reason, lgusername. auto. }
  destruct Hinv as (block & reason & lgusername & Hb & Hr & Heq & Hu).
  destruct (login_check_accepts true login_result block reason st Hb Hr Heq
              (or_intror (ex_intro _ lgusername Hu))) as (w1 & _ & _ & Ht).
  destruct (login_check_accepts false login_result block reason st' Hb Hr Heq
              (or_introl eq_refl)) as (w1' & _ & _ & Hf).
  rewrite Ht in Hrun. rewrite Hf. clear Ht Hf.
  apply (f_equal snd) in Hrun. cbn [snd] in Hrun. revert Hrun.
  unfold outcome, bind, item, lift, print, effect. cbn [fst snd].
  destruct (Py.contains "warnings" login_result) as [e|[]]; cbn [fst snd];
    [auto | | auto].
  destruct (Py.getitem login_result (JStr "warnings")) as [e|warnings] eqn:Hw;
    cbn [fst snd]; [auto|].
  destruct (Py.iter warnings) as [e|messages]; cbn [fst snd]; [auto|].
  intros Hrun.
  pose proof (warnings_loop_any_state login_result messages
                (fst st, w_stdout (Printed [Str "MediaWiki login warnings messages:"]) w1)
                (fst st', w_stdout (Printed [Str "MediaWiki login warnings messages:"]) w1'))
    as Hany.
  cbn zeta in Hany. unfold outcome, bind, item, lift, print, effect in Hany.
  rewrite Hw in Hany. cbn [fst snd] in Hany.
  rewrite <- Hany. exact Hrun.
Qed.

(** With [debug] on, a check that returns also returns with [debug] off. *)
Lemma check_of_refines (a : Args.t) (login_result : json) :
  refines (check_of (with_debug a true) login_result)
          (check_of (with_debug a false) login_result).
Proof.
  intros st st' H [] st1 Hrun.
  pose proof (check_of_hushed (with_debug a true) login_result st) as Ht.
  pose proof (check_of_hushed (with_debug a false) login_result st') as Hf.
  unfold same in Ht, Hf. rewrite Hrun in Ht. cbn [fst] in Ht.
  assert (Ho : outcome (check_of (with_debug a false) login_result st') = Return tt).
  { revert Hrun. unfold check_of. cbn [Args.use_clientlogin Args.debug with_debug].
    destruct (Args.use_clientlogin a).
    - apply clientlogin_check_debug_off.
    - apply login_check_debug_off. }
  unfold outcome in Ho.
  destruct (check_of (with_debug a false) login_result st') as [st1' r]. cbn [fst snd] in *.
  subst r. exists st1'. split; [reflexivity | congruence].
Qed.

Lemma init_by_login_refines (a : Args.t) :
  refines (init_by_login (with_debug a true)) (init_by_login (with_debug a false)).
Proof.
  unfold init_by_login.
  apply refines_bind; [apply deaf_refines, deaf_get_login_token|]. intros login_token.
  apply refines_bind; [|intros _; apply deaf_refines; deaf_steps; apply deaf_generate].
  cbn [Args.use_clientlogin Args.user Args.pwd Args.debug with_debug].
  pose proof (check_of_refines a) as Hcheck. unfold check_of in Hcheck.
  cbn [Args.use_clientlogin Args.debug with_debug] in Hcheck.
  destruct (Args.use_clientlogin a).
  - unfold init_clientlogin.
    apply refines_bind; [apply deaf_refines, deaf_self|]. intros l.
    apply refines_bind; [apply deaf_refines, deaf_session_request|]. intros response.
    apply refines_bind; [apply deaf_refines, deaf_response_json|]. exact Hcheck.
  - unfold init_login.
    apply refines_bind; [apply deaf_refines, deaf_self|]. intros l.
    apply refines_bind; [apply deaf_refines, deaf_session_request|]. intros response.
    apply refines_bind; [apply deaf_refines, deaf_response_json|]. exact Hcheck.
Qed.

Lemma init_authenticate_refines (a : Args.t) :
  refines (init_authenticate (with_debug a true)) (init_authenticate (with_debug a false)).
Proof.
  unfold init_authenticate.
  apply refines_bind; [apply deaf_refines, deaf_self|]. intros l.
  destruct (_ && _)%bool.
  - apply deaf_refines, deaf_init_oauth.
  - apply init_by_login_refines.
Qed.

Lemma init_attributes_debug (a : Args.t) (w : World) :
  hushed_of (init_attributes (with_debug a true) w)
  = hushed_of (init_attributes (with_debug a false) w).
Proof.
  unfold init_attributes, init_user_agent, hushed_of.
  cbn [Args.debug Args.user_agent Args.user Args.mediawiki_api_url Args.mediawiki_index_url
       Args.token_renew_period Args.consumer_key Args.consumer_secret Args.callback_url
       with_debug USER_AGENT_DEFAULT w_stdout].
  repeat split_match; reflexivity.
Qed.

(** X18. The [debug] flag only adds console output to a construction that
    returns: with the flag off, the same construction returns the same
    instance and leaves the same world, console output aside. *)
Theorem debug_only_prints (a : Args.t) (w : World) (l : Login) :
  snd (Login_init (with_debug a true) w) = Return l ->
  snd (Login_init (with_debug a false) w) = Return l
  /\ hush (fst (Login_init (with_debug a true) w))
     = hush (fst (Login_init (with_debug a false) w)).
Proof.
  rewrite !Login_init_eq. cbn [fst snd]. unfold final_world, final_self, outcome.
  destruct (init_authenticate (with_debug a true) (init_attributes (with_debug a true) w))
    as [st1 [e|[]]] eqn:Hrun; cbn [fst snd]; [discriminate|].
  intros Hl. injection Hl as <-.
  destruct (init_authenticate_refines a _ _ (init_attributes_debug a w) tt st1 Hrun)
    as (st1' & -> & Hh).
  cbn [fst snd]. destruct st1 as [l1 w1], st1' as [l1' w1'].
  destruct (hushed_pair _ _ _ _ Hh) as [-> Hw]. auto.
Qed.

Lemma debug_only_prints_witness :
  snd (Login_init (with_debug Sample.password false) (Sample.world 0 Sample.friendly))
  = Return Sample.built.
Proof.
  assert (Hon : snd (Login_init (with_debug Sample.password true)
                       (Sample.world 0 Sample.friendly)) = Return Sample.built)
    by (vm_compute; reflexivity).
  exact (proj1 (debug_only_prints Sample.password (Sample.world 0 Sample.friendly)
                  Sample.built Hon)).
Defined.

(** ** The OAuth branch of the constructor *)

Lemma init_attributes_oauth (a : Args.t) (w : World) :
  mediawiki_index_url (fst (init_attributes a w))
  = match Args.mediawiki_index_url a with
    | None => MEDIAWIKI_INDEX_URL w
    | Some url => url
    end
  /\ completions (snd (init_attributes a w)) = completions w.
Proof.
  unfold init_attributes, init_user_agent. repeat split_match; cbn; auto.
Qed.

(** X19. With both consumer credentials non-empty the constructor puts
    one initiation to the provider, through a handshaker built from the
    index URL (the argument, or the configured one), the consumer key and
    secret, the callback URL and the user agent of the instance. When the
    provider rejects it, the construction raises the provider's exception;
    an instance that is returned holds that handshaker and the consumer
    token, and its session has no signer. *)
Theorem oauth_initiation (a : Args.t) (w : World) :
  (Py.truthy_str (Args.consumer_key a) && Py.truthy_str (Args.consumer_secret a))%bool = true ->
  exists agent,
    hs_calls (fst (Login_init a w))
    = Initiate (handshaker_of a w agent) (Args.callback_url a) :: hs_calls w
    /\ (forall r rest, initiations w = r :: rest -> payload r = None ->
          snd (Login_init a w) = Raise OAuthException)
    /\ (forall l, snd (Login_init a w) = Return l ->
          user_agent l = agent
          /\ handshaker l = Some (handshaker_of a w agent)
          /\ consumer_token l = Some {| key := Py.text_of (Args.consumer_key a);
                                        secret := Py.text_of (Args.consumer_secret a) |}
          /\ auth (s l) = None).
Proof.
  intros Hkeys.
  rewrite Login_init_eq, Login_init_branch, Hkeys. cbn [fst snd].
  destruct (init_attributes_world a w) as (_ & _ & Hinit & Hhs).
  destruct (init_attributes_self a w) as (Hck & Hcs & Hcb & _).
  destruct (init_attributes_session a w) as (_ & _ & Hauth & _).
  destruct (init_attributes_oauth a w) as (Hidx & _).
  destruct (init_attributes a w) as [l0 w0]. cbn [fst snd] in *.
  exists (user_agent l0).
  unfold init_oauth, handshaker_initiate, final_world, final_self, outcome,
    bind, self, assign, handshaker_of.
  cbn [fst snd]. rewrite Hinit, Hck, Hcs, Hcb, Hidx.
  destruct (initiations w) as [|r rest];
    cbn [fst snd hs_calls w_handshake].
  - rewrite Hhs. split; [reflexivity|]. split; [discriminate | discriminate].
  - destruct (payload r) as [[rd rt]|] eqn:Hp;
      cbn [fst snd hs_calls w_handshake].
    + rewrite Hhs. split; [reflexivity|]. split.
      * intros r' rest' Heq Hnone. injection Heq as <- _. congruence.
      * intros l Hl. injection Hl as <-.
        cbn [user_agent handshaker consumer_token with_oauth s]. auto.
    + rewrite Hhs. split; [reflexivity|]. split; [reflexivity | discriminate].
Qed.

Lemma oauth_initiation_witness :
  exists agent,
    hs_calls (fst (Login_init (Sample.oauth (Some "ck") (Some "cs"))
                     (Sample.provider 0 [{| delay := 1; payload := None |}] [] [] [])))
    = [Initiate (handshaker_of (Sample.oauth (Some "ck") (Some "cs"))
                   (Sample.provider 0 [{| delay := 1; payload := None |}] [] [] []) agent)
         "oob"]
    /\ snd (Login_init (Sample.oauth (Some "ck") (Some "cs"))
              (Sample.provider 0 [{| delay := 1; payload := None |}] [] [] []))
       = Raise OAuthException.
Proof.
  destruct (oauth_initiation (Sample.oauth (Some "ck") (Some "cs"))
              (Sample.provider 0 [{| delay := 1; payload := None |}] [] [] []) eq_refl)
    as (agent & Hcalls & Hreject & _).
  exists agent. split; [exact Hcalls|]. exact (Hreject _ _ eq_refl eq_refl).
Defined.

(** ** Renewals that fail *)

Lemma failed_refresh_unchanged (l : Login) (w : World) (e : exn) :
  token_due l w = true ->
  next_csrftoken w = Raise e ->
  edit_token (final_self (get_edit_token (l, w))) = edit_token l
  /\ instantiation_time (final_self (get_edit_token (l, w))) = instantiation_time l
  /\ token_renew_period (final_self (get_edit_token (l, w))) = token_renew_period l.
Proof.
  intros Hdue Hfail.
  destruct (renew_failure l w e Hfail) as (Ho & Ht & Hi).
  pose proof (renew_keeps_period (l, w)) as Hp.
  rewrite get_edit_token_eq, Hdue.
  unfold outcome, final_self, same, period_of in *.
  destruct (renew (l, w)) as [st' [e'|u]]; cbn [fst snd] in *; [auto | discriminate].
Qed.

(** X20. A renewal that failed is attempted again: after a call of
    [get_edit_token] whose token query failed, every later call (at a clock
    that is not earlier) sends the token query again. *)
Theorem failed_refresh_is_retried (l : Login) (w w2 : World) (e : exn) :
  token_due l w = true ->
  next_csrftoken w = Raise e ->
  clock w <= clock w2 ->
  sent (final_world (get_edit_token (final_self (get_edit_token (l, w)), w2)))
  = token_request (final_self (get_edit_token (l, w))) :: sent w2.
Proof.
  intros Hdue Hfail Hclock.
  destruct (failed_refresh_unchanged l w e Hdue Hfail) as (Ht & Hi & Hp).
  rewrite get_edit_token_sent.
  replace (token_due (final_self (get_edit_token (l, w))) w2) with true; [reflexivity|].
  symmetry. unfold token_due, cookie_due in *. rewrite Ht, Hi, Hp.
  apply orb_true_iff in Hdue. apply orb_true_iff.
  destruct Hdue as [Hempty | Hold]; [left; exact Hempty|].
  right. rewrite Z.gtb_ltb, Z.ltb_lt in *. lia.
Qed.

Lemma failed_refresh_is_retried_witness :
  sent (final_world (get_edit_token
          (final_self (get_edit_token (Sample.manager (JStr "old") 0 1800,
                                       Sample.world 5000 [Sample.no_token 1])),
           Sample.world 5001 [])))
  = [token_request (final_self (get_edit_token (Sample.manager (JStr "old") 0 1800,
                                                Sample.world 5000 [Sample.no_token 1])))].
Proof.
  apply (failed_refresh_is_retried (Sample.manager (JStr "old") 0 1800)
           (Sample.world 5000 [Sample.no_token 1]) (Sample.world 5001 [])
           (KeyError (JStr "csrftoken"))).
  - reflexivity.
  - reflexivity.
  - simpl. lia.
Defined.
